(** * cl-optimizer: job-posting scraper and resume analyser

    A shallow embedding of [job_scraper.py], [resume_analizer.py] and
    [generate_cover_letter.py].

    Python values are a small inductive type (dictionaries are association
    lists in insertion order), exceptions are values of type [exn], and the
    code runs in a writer/error monad [Py]: a computation yields the trace of
    the calls it made to its collaborators (HTTP client, file stream, text
    generation backend) together with either a raised exception or a result.
    The collaborators themselves (the HTTP client, the HTML parser's CSS
    engine and text methods, [str.strip], [json.loads], [urlparse], the PDF
    reader, the generation backend) are parameters of the code that uses
    them. *)

From Stdlib Require Import String Ascii List ZArith Bool Lia Arith SpecFloat.
Import ListNotations.

Set Warnings "-register-all".

Local Open Scope string_scope.
Local Open Scope list_scope.

(* ===================================================================== *)
(** * Python strings *)
(* ===================================================================== *)

Module PyStr.

(** The double-quote character, for selectors such as [div[class*=...]]. *)
Definition dq : string := String (ascii_of_nat 34) EmptyString.

(** [s.strip()].  Which characters are white space is Unicode data
    ([str.isspace] holds of the ASCII blanks and also of U+0085, U+00A0,
    U+2003, U+3000 and others), so the method is a parameter of the code
    that calls it, like the other library functions. *)
Class StrMethods : Type := {
  strip : string -> string
}.

Definition lower_ascii (c : ascii) : ascii :=
  let n := nat_of_ascii c in
  if ((65 <=? n) && (n <=? 90))%nat then ascii_of_nat (n + 32) else c.

(** [s.lower()] (ASCII letters). *)
Fixpoint lower (s : string) : string :=
  match s with
  | EmptyString => EmptyString
  | String c s' => String (lower_ascii c) (lower s')
  end.

(** [s.endswith(suffix)]: some suffix of [s] is [suffix]. *)
Fixpoint endswith (s suffix : string) : bool :=
  String.eqb s suffix
  || match s with
     | EmptyString => false
     | String _ s' => endswith s' suffix
     end.

(** [needle in hay] *)
Fixpoint contains (hay needle : string) : bool :=
  String.prefix needle hay
  || match hay with
     | EmptyString => false
     | String _ hay' => contains hay' needle
     end.

(** Truth value of a string: [bool(s)]. *)
Definition nonempty (s : string) : bool :=
  match s with EmptyString => false | _ => true end.

(** The characters of a string, as one-character strings (iteration). *)
Fixpoint chars (s : string) : list string :=
  match s with
  | EmptyString => []
  | String c s' => String c EmptyString :: chars s'
  end.

End PyStr.

(* ===================================================================== *)
(** * Python values, exceptions and the effect monad *)
(* ===================================================================== *)

Module Py.

(** What [json.loads] can produce, which is also what the result
    dictionaries of the entry points are made of. *)
Inductive value : Type :=
| VNone
| VBool (b : bool)
| VInt (n : Z)
| VFloat (f : spec_float)
| VStr (s : string)
| VList (l : list value)
| VDict (d : list (string * value)).

Definition dict := list (string * value).

(** [type(v).__name__] *)
Definition type_name (v : value) : string :=
  match v with
  | VNone => "NoneType"
  | VBool _ => "bool"
  | VInt _ => "int"
  | VFloat _ => "float"
  | VStr _ => "str"
  | VList _ => "list"
  | VDict _ => "dict"
  end.

(** [bool(v)] *)
Definition truthy (v : value) : bool :=
  match v with
  | VNone => false
  | VBool b => b
  | VInt n => negb (Z.eqb n 0)
  | VFloat f => match f with S754_zero _ => false | _ => true end
  | VStr s => PyStr.nonempty s
  | VList l => match l with [] => false | _ => true end
  | VDict d => match d with [] => false | _ => true end
  end.

(** [k in d] and [d.get(k)] on the entries of a dictionary. *)
Fixpoint dict_get (d : dict) (k : string) : option value :=
  match d with
  | [] => None
  | (k', v) :: d' => if String.eqb k' k then Some v else dict_get d' k
  end.

Definition dict_contains (d : dict) (k : string) : bool :=
  match dict_get d k with Some _ => true | None => false end.

(** [d[k] = v]: an existing key keeps its place, a new key goes last. *)
Fixpoint dict_set (d : dict) (k : string) (v : value) : dict :=
  match d with
  | [] => [(k, v)]
  | (k', v') :: d' =>
      if String.eqb k' k then (k', v) :: d' else (k', v') :: dict_set d' k v
  end.

(** A dictionary display [{k1: v1, ..., kn: vn}], entries evaluated left to
    right, and [**d] unpacking as a run of entries. *)
Definition dict_of (entries : list (string * value)) : dict :=
  fold_left (fun d kv => dict_set d (fst kv) (snd kv)) entries [].

Definition keys (d : dict) : list string := map fst d.

(** ** Exceptions *)

Inductive exn_class : Type :=
| ValueError
| JSONDecodeError        (* json.JSONDecodeError, a ValueError *)
| UnicodeDecodeError     (* a ValueError *)
| TypeError
| AttributeError
| KeyError
| RequestException       (* requests.RequestException *)
| HTTPError              (* requests.HTTPError, a RequestException *)
| OtherException.        (* any other subclass of Exception *)

Record exn : Type := Exn { exn_cls : exn_class; exn_msg : string }.

(** [str(e)] *)
Definition str (e : exn) : string := exn_msg e.

Definition is_ValueError (e : exn) : bool :=
  match exn_cls e with
  | ValueError | JSONDecodeError | UnicodeDecodeError => true
  | _ => false
  end.

Definition is_JSONDecodeError (e : exn) : bool :=
  match exn_cls e with JSONDecodeError => true | _ => false end.

Definition is_RequestException (e : exn) : bool :=
  match exn_cls e with RequestException | HTTPError => true | _ => false end.

Definition is_Exception (e : exn) : bool := true.

(** ** Calls to the outside world, as recorded in a trace *)

Inductive event : Type :=
| EvHttpGet (url : string)       (* requests.get(url, ...) *)
| EvRead                         (* stream.read() *)
| EvSeek (pos : nat)             (* stream.seek(pos) *)
| EvPdfParse                     (* PdfReader(buffer) and its pages *)
| EvDecode                       (* bytes.decode("utf-8") *)
| EvGenerate.                    (* model.generate_content(prompt, ...) *)

(** ** The monad: a trace, and an exception or a result *)

Definition Py (A : Type) : Type := list event * (exn + A).

Definition ret {A} (a : A) : Py A := ([], inr a).

Definition raise {A} (e : exn) : Py A := ([], inl e).

Definition bind {A B} (m : Py A) (k : A -> Py B) : Py B :=
  match m with
  | (t, inl e) => (t, inl e)
  | (t, inr a) => let (t', r) := k a in (t ++ t', r)
  end.

(** [try: m  except C as e: h e], where [handles] is membership in C. *)
Definition try_except {A} (m : Py A) (handles : exn -> bool)
           (h : exn -> Py A) : Py A :=
  match m with
  | (t, inl e) =>
      if handles e then let (t', r) := h e in (t ++ t', r) else (t, inl e)
  | (t, inr a) => (t, inr a)
  end.

(** An effect of the outside world: record the event, then deliver what
    the collaborator answered. *)
Definition call {A} (ev : event) (answer : exn + A) : Py A := ([ev], answer).

(** A pure library call that may raise. *)
Definition lift {A} (answer : exn + A) : Py A := ([], answer).

(** ** Operations on values that raise as Python's do *)

(** [d.get(k)] on a dictionary. *)
Definition dict_get_or_none (d : dict) (k : string) : value :=
  match dict_get d k with Some x => x | None => VNone end.

(** [v.get(k)]: only a dictionary has the method. *)
Definition get (v : value) (k : string) : Py value :=
  match v with
  | VDict d => ret (dict_get_or_none d k)
  | _ => raise (Exn AttributeError
                  ("'" ++ type_name v ++ "' object has no attribute 'get'")%string)
  end.

(** [v[k]] for a string key. *)
Definition getitem (v : value) (k : string) : Py value :=
  match v with
  | VDict d =>
      match dict_get d k with
      | Some x => ret x
      | None => raise (Exn KeyError ("'" ++ k ++ "'")%string)
      end
  | VStr _ => raise (Exn TypeError "string indices must be integers")
  | VList _ => raise (Exn TypeError "list indices must be integers or slices, not str")
  | _ => raise (Exn TypeError
                  ("'" ++ type_name v ++ "' object is not subscriptable")%string)
  end.

(** [v[k] = x] for a string key. *)
Definition setitem (v : value) (k : string) (x : value) : Py value :=
  match v with
  | VDict d => ret (VDict (dict_set d k x))
  | VList _ => raise (Exn TypeError "list indices must be integers or slices, not str")
  | _ => raise (Exn TypeError
                  ("'" ++ type_name v ++ "' object does not support item assignment")%string)
  end.

(** [iter(v)]: what a [for] loop over [v] visits. *)
Definition iter (v : value) : Py (list value) :=
  match v with
  | VList l => ret l
  | VStr s => ret (map VStr (PyStr.chars s))
  | VDict d => ret (map VStr (keys d))
  | _ => raise (Exn TypeError
                  ("'" ++ type_name v ++ "' object is not iterable")%string)
  end.

Definition is_dict (v : value) : bool :=
  match v with VDict _ => true | _ => false end.

(** [k in v] for a dictionary [v]. *)
Definition contains_key (v : value) (k : string) : bool :=
  match v with VDict d => dict_contains d k | _ => false end.

End Py.

Declare Scope py_scope.
Delimit Scope py_scope with py.
Notation "x <- m ;; k" := (Py.bind m (fun x => k))
  (at level 61, m at next level, right associativity) : py_scope.
Notation "m ;;; k" := (Py.bind m (fun _ => k))
  (at level 61, right associativity) : py_scope.

(* ===================================================================== *)
(** * resume_analizer.py *)
(* ===================================================================== *)

Module ResumeAnalizer.
Import Py.
Local Open Scope py_scope.

(** The uploaded resume: its client-side file name and the bytes its
    stream still has to deliver.  The file name is a string; an upload
    object without one is outside the model. *)
Record upload : Type := Upload { filename : string; stream : string }.

(** What [model.generate_content] hands back: [None], or a response object
    whose [text] accessor yields the text or raises. *)
Inductive response : Type :=
| NoResponse
| Response (text : exn + string).

(** An early [return v] out of a block, or the value the block computed. *)
Inductive flow (A : Type) : Type :=
| Return (v : value)
| Continue (a : A).
Arguments Return {A} v.
Arguments Continue {A} a.

Definition failure (msg : string) : value :=
  VDict (dict_of [("success", VBool false); ("error", VStr msg)]).

Definition success (key : string) (payload : value) : value :=
  VDict (dict_of [("success", VBool true); (key, payload)]).

(** The three recommendations written into a job that has none. *)
Definition fallback_recommendations : value :=
  VList [VStr "Highlight relevant project achievements";
         VStr "Quantify your impact with metrics";
         VStr "Add specific examples of team leadership"].

(** ** [re.search(r"({[\s\S]*})", text)]

    The pattern is an opening brace, a greedy run of any characters, and a
    closing brace.  [greedy_to_close s] is the longest prefix of [s] that
    ends with a closing brace: what the greedy run and the final brace
    consume after the opening brace. *)
Fixpoint greedy_to_close (s : string) : option string :=
  match s with
  | EmptyString => None
  | String c s' =>
      match greedy_to_close s' with
      | Some m => Some (String c m)
      | None => if Ascii.eqb c "}" then Some (String c EmptyString) else None
      end
  end.

(** The search tries each start position from the left; group 1 of the
    first match is returned. *)
Fixpoint re_search_braces (text : string) : option string :=
  match text with
  | EmptyString => None
  | String c text' =>
      if Ascii.eqb c "{" then
        match greedy_to_close text' with
        | Some m => Some (String c m)
        | None => re_search_braces text'
        end
      else re_search_braces text'
  end.

(** ** The body of the loop over [analysis["jobs"]] *)
Definition ensure_fields (job : value) : Py value :=
  r <- get job "recommendations" ;;
  job <- (if negb (truthy r)
          then setitem job "recommendations" fallback_recommendations
          else ret job) ;;
  t <- get job "job_title" ;;
  job <- (if negb (truthy t)
          then setitem job "job_title" (VStr "Position")
          else ret job) ;;
  c <- get job "company_name" ;;
  job <- (if negb (truthy c)
          then setitem job "company_name" (VStr "Company")
          else ret job) ;;
  ret job.

(** [for x in items: body x], collecting the items as the body left them. *)
Fixpoint for_each (body : value -> Py value) (items : list value)
  : Py (list value) :=
  match items with
  | [] => ret []
  | x :: xs =>
      x' <- body x ;;
      xs' <- for_each body xs ;;
      ret (x' :: xs')
  end.

(** The loop updates the job dictionaries in place.  A value parsed from
    JSON shares no object between two places, so the list after the loop is
    the list of updated jobs; the keys of a dictionary and the characters of
    a string are strings, which the body cannot update. *)
Definition ensure_all (jobs : value) : Py value :=
  items <- iter jobs ;;
  items' <- for_each ensure_fields items ;;
  ret (match jobs with VList _ => VList items' | _ => jobs end).

Section Collaborators.

(** [PdfReader(buffer)] and [extract_text()] of each of its pages. *)
Variable pdf_pages : string -> exn + list string.
(** [bytes.decode("utf-8")] *)
Variable decode_utf8 : string -> exn + string.
(** [json.loads] *)
Variable json_loads : string -> exn + value.
(** [model.generate_content(prompt, generation_config=...)]; the prompt
    is a fixed template around the resume text and the job links. *)
Variable generate_content : string -> value -> exn + response.

Definition extract_text_from_pdf (file_bytes : upload) : Py string :=
  try_except
    (data <- call EvRead (inr (stream file_bytes)) ;;
     call (EvSeek 0) (inr tt) ;;;
     pages <- call EvPdfParse (pdf_pages data) ;;
     ret (fold_left
            (fun text page => (text ++ page ++ String (ascii_of_nat 10) EmptyString)%string)
            pages EmptyString))
    is_Exception
    (fun e => raise (Exn ValueError ("Error reading PDF: " ++ str e)%string)).

(** The prompt and the model handle are built before the [try]; building
    them calls nothing outside, so the body starts at the backend call. *)
Definition generate_analysis (resume_content : string) (job_links : value)
  : Py value :=
  try_except
    (response <- call EvGenerate (generate_content resume_content job_links) ;;
     match response with
     | NoResponse => ret (failure "No response from AI model")
     | Response text =>
         text <- lift text ;;
         if negb (PyStr.nonempty text)
         then ret (failure "No response from AI model")
         else
           match re_search_braces text with
           | None => ret (failure "Invalid response format")
           | Some group1 =>
               analysis <- lift (json_loads group1) ;;
               if negb (is_dict analysis) || negb (contains_key analysis "jobs")
               then ret (failure "Invalid response structure")
               else
                 jobs <- getitem analysis "jobs" ;;
                 jobs' <- ensure_all jobs ;;
                 ret (success "jobs" jobs')
           end
     end)
    is_Exception
    (fun e => ret (failure ("Error generating analysis: " ++ str e)%string)).

Definition analyze_resume (resume : upload) (job_links : string) : Py value :=
  try_except
    (let filename := PyStr.lower (filename resume) in
     content <-
       try_except
         (if PyStr.endswith filename ".pdf" then
            text <- extract_text_from_pdf resume ;;
            ret (Continue text)
          else if PyStr.endswith filename ".txt" then
            data <- call EvRead (inr (stream resume)) ;;
            text <- call EvDecode (decode_utf8 data) ;;
            ret (Continue text)
          else
            ret (Return (failure
              "Unsupported file format. Please upload a PDF or TXT file.")))
         is_ValueError
         (fun e => ret (Return (failure (str e)))) ;;
     match content with
     | Return v => ret v
     | Continue resume_content =>
         parsed <-
           try_except
             (p <- lift (json_loads job_links) ;; ret (Continue p))
             is_JSONDecodeError
             (fun _ => ret (Return (failure "Invalid job links format"))) ;;
         match parsed with
         | Return v => ret v
         | Continue job_links_parsed =>
             analysis_result <- generate_analysis resume_content job_links_parsed ;;
             ok <- getitem analysis_result "success" ;;
             if negb (truthy ok) then ret analysis_result
             else
               jobs <- getitem analysis_result "jobs" ;;
               ret (success "results" jobs)
         end
     end)
    is_Exception
    (fun e => ret (failure ("Error analyzing resume: " ++ str e)%string)).

(** [model.generate_content(prompt, generation_config=...)] as called by
    [generate_resume_review]; the prompt is a fixed template around the
    resume text and the job description. *)
Variable generate_review_content : string -> string -> exn + response.

Definition generate_resume_review (resume_content job_description : string)
  : Py value :=
  try_except
    (response <- call EvGenerate
                   (generate_review_content resume_content job_description) ;;
     match response with
     | NoResponse => ret (failure "Failed to generate resume review")
     | Response text =>
         text <- lift text ;;
         if PyStr.nonempty text then
           try_except
             (review_data <- lift (json_loads text) ;;
              ret (success "review" review_data))
             is_JSONDecodeError
             (fun _ => ret (failure "Invalid response format from AI model"))
         else ret (failure "Failed to generate resume review")
     end)
    is_Exception
    (fun e => ret (failure ("Error generating resume review: " ++ str e)%string)).

End Collaborators.

(** ** The contract as the specification words it

    "The first balanced [{...}] block": from the leftmost opening brace
    that is ever closed, up to the closing brace that brings the nesting
    depth back to zero. *)
Fixpoint balanced_rest (depth : nat) (s : string) : option string :=
  match s with
  | EmptyString => None
  | String c s' =>
      if Ascii.eqb c "{" then
        option_map (String c) (balanced_rest (S depth) s')
      else if Ascii.eqb c "}" then
        match depth with
        | O => Some (String c EmptyString)
        | S d => option_map (String c) (balanced_rest d s')
        end
      else option_map (String c) (balanced_rest depth s')
  end.

Fixpoint first_balanced_block (text : string) : option string :=
  match text with
  | EmptyString => None
  | String c text' =>
      if Ascii.eqb c "{" then
        match balanced_rest 0 text' with
        | Some m => Some (String c m)
        | None => first_balanced_block text'
        end
      else first_balanced_block text'
  end.

End ResumeAnalizer.

(* ===================================================================== *)
(** * generate_cover_letter.py *)
(* ===================================================================== *)

Module GenerateCoverLetter.
Import Py ResumeAnalizer.
Local Open Scope py_scope.

Section Collaborators.

(** [str.strip] *)
Context {str_methods : PyStr.StrMethods}.

(** [model.generate_content(prompt, generation_config=model_config)]; the
    prompt is a fixed template around the job link. *)
Variable generate_content : string -> exn + response.

Definition generate_cover_letter (job_link : string) : Py value :=
  try_except
    (response <- call EvGenerate (generate_content job_link) ;;
     match response with
     | NoResponse => ret (failure "Failed to generate cover letter")
     | Response text =>
         text <- lift text ;;
         if PyStr.nonempty text
         then ret (success "cover_letter" (VStr (PyStr.strip text)))
         else ret (failure "Failed to generate cover letter")
     end)
    is_Exception
    (fun e => ret (failure ("Error generating cover letter: " ++ str e)%string)).

End Collaborators.

End GenerateCoverLetter.

(* ===================================================================== *)
(** * The parsed page *)
(* ===================================================================== *)

Module Bs4.
Import Py.

(** An element: its name, its attributes, and its contents, each a piece
    of text or a nested element. *)
Inductive tag : Type :=
| Tag (name : string) (attrs : list (string * string))
      (contents : list (string + tag)).

Definition name_of (t : tag) : string := match t with Tag n _ _ => n end.
Definition attrs_of (t : tag) : list (string * string) :=
  match t with Tag _ a _ => a end.

(** [tag.text] (which is [tag.get_text()]) and [tag.get_text(strip=True)].
    Which strings below an element count as its text is the library's
    business: it leaves out comments and what [script], [style] and
    [template] elements hold, and [strip=True] strips each string as
    [str.strip] does and drops the ones left empty.  The two methods are
    parameters of the code that calls them. *)
Class TagMethods : Type := {
  get_text : tag -> string;
  get_text_strip : tag -> string
}.

(** The elements below an element, in document order. *)
Fixpoint descendants (t : tag) : list tag :=
  match t with
  | Tag _ _ cs =>
      flat_map (fun c => match c with
                         | inl _ => []
                         | inr t' => t' :: descendants t'
                         end) cs
  end.

(** The [BeautifulSoup] object: the document, and the CSS engine behind
    [select_one], which answers with the first matching element, with
    [None], or by raising. *)
Record Soup : Type := MkSoup {
  document : tag;
  select_one : string -> exn + option tag
}.

(** [soup.find(pred)]: the first element of the document [pred] accepts. *)
Definition find (soup : Soup) (pred : tag -> bool) : option tag :=
  List.find pred (descendants (document soup)).

End Bs4.

(* ===================================================================== *)
(** * job_scraper.py *)
(* ===================================================================== *)

Module JobScraper.
Import Py Bs4.
Local Open Scope py_scope.

Definition get_headers : dict :=
  dict_of
    [("User-Agent", VStr "Mozilla/5.0 (Windows NT 10.0; Win64; x64) AppleWebKit/537.36 (KHTML, like Gecko) Chrome/91.0.4472.124 Safari/537.36");
     ("Accept", VStr "text/html,application/xhtml+xml,application/xml;q=0.9,image/webp,*/*;q=0.8");
     ("Accept-Language", VStr "en-US,en;q=0.5");
     ("Connection", VStr "keep-alive");
     ("Upgrade-Insecure-Requests", VStr "1")].

Definition title_selectors : list (string * list string) :=
  [("indeed.com",
     ["h1.jobsearch-JobInfoHeader-title";
      "div.jobsearch-JobInfoHeader-title-container h1";
      "h1.icl-u-xs-mb--xs"]);
   ("linkedin.com",
     ["h1.top-card-layout__title";
      "h1.job-details-jobs-unified-top-card__job-title";
      "h1.topcard__title"]);
   ("generic", ["h1"; "h1.job-title"; "div.job-title"; "title"])].

Definition company_selectors : list (string * list string) :=
  [("indeed.com",
     ["div[data-company-name=" ++ PyStr.dq ++ "true" ++ PyStr.dq ++ "]";
      "div.jobsearch-CompanyInfoContainer span.jobsearch-CompanyInfoWithoutHeaderImage";
      "div.jobsearch-InlineCompanyRating > div:first-child"]%string);
   ("linkedin.com",
     ["a.company-name-link";
      "a[data-tracking-control-name=" ++ PyStr.dq ++ "public_jobs_topcard-org-name" ++ PyStr.dq ++ "]";
      "span.topcard__flavor";
      "a.sub-nav-cta__optional-url"]%string);
   ("generic",
     ["div[class*=" ++ PyStr.dq ++ "company" ++ PyStr.dq ++ "]";
      "span[class*=" ++ PyStr.dq ++ "company" ++ PyStr.dq ++ "]";
      "div[class*=" ++ PyStr.dq ++ "employer" ++ PyStr.dq ++ "]";
      "span[class*=" ++ PyStr.dq ++ "employer" ++ PyStr.dq ++ "]"]%string)].

Definition description_selectors : list string :=
  ["div.job-description";
   "div[data-automation='jobDescription']";
   "#job-description";
   ".description__text";
   "div.description";
   "div[class*='jobsearch-jobDescriptionText']";
   "div[class*='show-more-less-html']";
   "div[class*='job-description']"].

(** [table[key]] on one of the selector tables. *)
Fixpoint selectors_for (table : list (string * list string)) (key : string)
  : Py (list string) :=
  match table with
  | [] => raise (Exn KeyError ("'" ++ key ++ "'")%string)
  | (k, sels) :: table' =>
      if String.eqb k key then ret sels else selectors_for table' key
  end.

Section Library.

(** [str.strip], and bs4's [tag.text] and [tag.get_text(strip=True)]. *)
Context {str_methods : PyStr.StrMethods} {tag_methods : TagMethods}.

(** The loop the extractor runs six times:
    [for selector in selectors: element = soup.select_one(selector);
     if element and element.text.strip(): found = element.text.strip(); break]
    An element is always true; the result is what [found] was set to. *)
Fixpoint first_text (soup : Soup) (selectors : list string)
  : Py (option string) :=
  match selectors with
  | [] => ret None
  | selector :: rest =>
      element <- lift (select_one soup selector) ;;
      match element with
      | Some el =>
          if PyStr.nonempty (PyStr.strip (get_text el))
          then ret (Some (PyStr.strip (get_text el)))
          else first_text soup rest
      | None => first_text soup rest
      end
  end.

(** [bool(x)] for a variable that holds [None] or a string. *)
Definition truthy_opt (x : option string) : bool :=
  match x with Some s => PyStr.nonempty s | None => false end.

(** [x or default] *)
Definition or_else (x : option string) (default : string) : string :=
  if truthy_opt x then match x with Some s => s | None => default end
  else default.

Definition platform_of (url : string) : string :=
  if PyStr.contains url "indeed.com" then "Indeed"
  else if PyStr.contains url "linkedin.com" then "LinkedIn"
  else "Other".

(** The two-tier cascade over one selector table: the platform's list,
    then the generic list when nothing was found. *)
Definition cascade (soup : Soup) (url : string)
           (table : list (string * list string)) : Py (option string) :=
  found <-
    (if PyStr.contains url "indeed.com" then
       sels <- selectors_for table "indeed.com" ;; first_text soup sels
     else if PyStr.contains url "linkedin.com" then
       sels <- selectors_for table "linkedin.com" ;; first_text soup sels
     else ret None) ;;
  if negb (truthy_opt found) then
    sels <- selectors_for table "generic" ;;
    generic <- first_text soup sels ;;
    ret (match generic with Some t => Some t | None => found end)
  else ret found.

Definition details (job_title company_name platform : string) : dict :=
  dict_of [("job_title", VStr job_title);
           ("company_name", VStr company_name);
           ("platform", VStr platform)].

(** The statements under [try] in [extract_job_details]. *)
Definition extract_job_details_try (soup : Soup) (url platform : string)
  : Py dict :=
  job_title <- cascade soup url title_selectors ;;
  company_name <- cascade soup url company_selectors ;;
  ret (details (or_else job_title "Position Not Found")
               (or_else company_name "Company Not Found")
               platform).

(** The handler also writes the error to the log, which is not modelled. *)
Definition extract_job_details (soup : Soup) (url : string) : Py dict :=
  let platform := platform_of url in
  try_except
    (extract_job_details_try soup url platform)
    is_Exception
    (fun e => ret (details "Position Not Found" "Company Not Found" platform)).

Record http_response : Type := HttpResponse { status_code : Z; text : string }.

(** [response.raise_for_status()]: an [HTTPError] for 4xx and 5xx. *)
Definition raise_for_status (response : http_response) : Py unit :=
  if (400 <=? status_code response)%Z && (status_code response <? 500)%Z
  then raise (Exn HTTPError "Client Error")
  else if (500 <=? status_code response)%Z && (status_code response <? 600)%Z
  then raise (Exn HTTPError "Server Error")
  else ret tt.

(** [for selector in description_selectors: d = soup.select_one(selector);
     if d: return ...]: the element the loop returns with, if any. *)
Fixpoint first_element (soup : Soup) (selectors : list string)
  : Py (option tag) :=
  match selectors with
  | [] => ret None
  | selector :: rest =>
      element <- lift (select_one soup selector) ;;
      match element with
      | Some el => ret (Some el)
      | None => first_element soup rest
      end
  end.

(** The predicate given to [soup.find]. *)
Definition mentions_description (t : tag) : bool :=
  String.eqb (name_of t) "div"
  && existsb (fun keyword => PyStr.contains (PyStr.lower (get_text t)) keyword)
             ["job description"; "about this role"; "about the role"].

Definition manual_entry (description : string) : value :=
  VDict (dict_of [("success", VBool true);
                  ("description", VStr description);
                  ("job_title", VStr "Position Not Found");
                  ("company_name", VStr "Company Not Found");
                  ("platform", VStr "Unknown");
                  ("requires_manual_entry", VBool true)]).

Section Collaborators.

(** [urlparse(url).scheme] *)
Variable urlparse_scheme : string -> exn + string.
(** [requests.get(url, headers=get_headers(), timeout=10)] *)
Variable requests_get : string -> exn + http_response.
(** [BeautifulSoup(text, "html.parser")] *)
Variable BeautifulSoup : string -> Soup.

(** The two [except] clauses of the one [try] are written as two nested
    handlers; the inner handler raises nothing, so the outer one sees only
    what the body raised.  The handlers also log the error. *)
Definition scrape_job_description (job_url : string) : Py value :=
  try_except
    (try_except
       (invalid <- (if negb (PyStr.nonempty job_url) then ret true
                    else scheme <- lift (urlparse_scheme job_url) ;;
                         ret (negb (PyStr.nonempty scheme))) ;;
        if invalid
        then ret (VDict (dict_of [("success", VBool false);
                                  ("error", VStr "Invalid URL provided")]))
        else
          response <- call (EvHttpGet job_url) (requests_get job_url) ;;
          if (status_code response =? 403)%Z
          then ret (manual_entry
                 "Unable to automatically fetch job description. Please enter the job description manually.")
          else
            raise_for_status response ;;;
            let soup := BeautifulSoup (text response) in
            job_details <- extract_job_details soup job_url ;;
            found <- first_element soup description_selectors ;;
            match found with
            | Some job_description =>
                ret (VDict (dict_of
                       ([("success", VBool true);
                         ("description", VStr (get_text_strip job_description))]
                        ++ job_details)))
            | None =>
                match find soup mentions_description with
                | Some description =>
                    ret (VDict (dict_of
                           ([("success", VBool true);
                             ("description", VStr (get_text_strip description))]
                            ++ job_details)))
                | None =>
                    ret (VDict (dict_of
                           ([("success", VBool true);
                             ("description", VStr
                                "Unable to automatically extract job description. Please enter the job description manually.")]
                            ++ job_details
                            ++ [("requires_manual_entry", VBool true)])))
                end
            end)
       is_RequestException
       (fun e => ret (manual_entry
          "Unable to fetch job description. Please enter it manually.")))
    is_Exception
    (fun e => ret (manual_entry
       "Error accessing job posting. Please enter the job description manually.")).

End Collaborators.

End Library.

End JobScraper.

(* ===================================================================== *)
(** * A CSS engine for the selectors the scraper uses *)
(* ===================================================================== *)

(** One instance of the [select_one] collaborator, enough to run the scraper
    on concrete pages: compound selectors made of an element name, [.class],
    [#id], [[attr="v"]], [[attr*="v"]] and [:first-child], joined by the
    descendant (space) and child ([>]) combinators. *)
Module SoupSieve.
Import Py Bs4.

Inductive simple : Type :=
| ByName (n : string)
| ByClass (c : string)
| ById (i : string)
| AttrEquals (a v : string)
| AttrContains (a v : string)
| FirstChild.

Definition compound := list simple.

Inductive combinator : Type := Descendant | Child.

(** The compound the selected element must match, and what its ancestors
    must match, nearest first. *)
Record selector : Type := Selector {
  subject : compound;
  context : list (combinator * compound)
}.

(** ** Reading a selector *)

Inductive mode : Type :=
| InName | InClass | InId | InPseudo | InAttrName
| AttrQuote (a : string) (sub : bool)
| InAttrValue (a : string) (sub : bool) (quote : ascii)
| AttrClose (a : string) (sub : bool) (v : string)
| Between.

Definition finish (m : mode) (buf : string) (acc : compound) : option compound :=
  match m with
  | InName => Some (if PyStr.nonempty buf then acc ++ [ByName buf] else acc)
  | InClass => if PyStr.nonempty buf then Some (acc ++ [ByClass buf]) else None
  | InId => if PyStr.nonempty buf then Some (acc ++ [ById buf]) else None
  | InPseudo =>
      if String.eqb buf "first-child" then Some (acc ++ [FirstChild]) else None
  | Between => Some acc
  | _ => None
  end.

Definition start_of (c : ascii) : option mode :=
  if Ascii.eqb c "." then Some InClass
  else if Ascii.eqb c "#" then Some InId
  else if Ascii.eqb c ":" then Some InPseudo
  else if Ascii.eqb c "[" then Some InAttrName
  else None.

Definition snoc (buf : string) (c : ascii) : string :=
  (buf ++ String c EmptyString)%string.

Fixpoint scan (s : string) (m : mode) (buf : string) (acc : compound)
  : option compound :=
  match s with
  | EmptyString => finish m buf acc
  | String c s' =>
      match m with
      | InAttrName =>
          if Ascii.eqb c "=" then scan s' (AttrQuote buf false) EmptyString acc
          else if Ascii.eqb c "*" then
            match s' with
            | String c' s'' =>
                if Ascii.eqb c' "=" then scan s'' (AttrQuote buf true) EmptyString acc
                else None
            | EmptyString => None
            end
          else scan s' m (snoc buf c) acc
      | AttrQuote a sub =>
          if Ascii.eqb c "'" || Ascii.eqb c (ascii_of_nat 34)
          then scan s' (InAttrValue a sub c) EmptyString acc
          else None
      | InAttrValue a sub quote =>
          if Ascii.eqb c quote then scan s' (AttrClose a sub buf) EmptyString acc
          else scan s' m (snoc buf c) acc
      | AttrClose a sub v =>
          if Ascii.eqb c "]"
          then scan s' Between EmptyString
                    (acc ++ [if sub then AttrContains a v else AttrEquals a v])
          else None
      | _ =>
          match start_of c with
          | Some m' =>
              match finish m buf acc with
              | Some acc' => scan s' m' EmptyString acc'
              | None => None
              end
          | None =>
              match m with
              | Between => None
              | _ => scan s' m (snoc buf c) acc
              end
          end
      end
  end.

Definition parse_compound (token : string) : option compound :=
  match scan token InName EmptyString [] with
  | Some (x :: c) => Some (x :: c)
  | _ => None
  end.

Fixpoint split_on (sep : ascii -> bool) (s : string) (cur : string)
  : list string :=
  match s with
  | EmptyString => [cur]
  | String c s' =>
      if sep c then cur :: split_on sep s' EmptyString else split_on sep s' (snoc cur c)
  end.

(** CSS white space: space, TAB, LF, FF and CR. *)
Definition is_blank (c : ascii) : bool :=
  let n := nat_of_ascii c in
  ((n =? 32) || (n =? 9) || (n =? 10) || (n =? 12) || (n =? 13))%nat.

Definition words (s : string) : list string :=
  filter PyStr.nonempty (split_on is_blank s EmptyString).

Fixpoint parse_tokens (tokens : list string) (subj : compound)
         (ctx : list (combinator * compound)) (pending : combinator)
  : option selector :=
  match tokens with
  | [] => match pending with
          | Descendant => Some (Selector subj ctx)
          | Child => None
          end
  | token :: rest =>
      if String.eqb token ">" then
        match pending with
        | Descendant => parse_tokens rest subj ctx Child
        | Child => None
        end
      else
        match parse_compound token with
        | Some c => parse_tokens rest c ((pending, subj) :: ctx) Descendant
        | None => None
        end
  end.

Definition parse_selector (s : string) : option selector :=
  match words s with
  | [] => None
  | token :: rest =>
      match parse_compound token with
      | Some c => parse_tokens rest c [] Descendant
      | None => None
      end
  end.

(** ** Matching *)

(** An element, and whether it is the first element among its siblings. *)
Definition located := (tag * bool)%type.

Fixpoint attr (attrs : list (string * string)) (a : string) : option string :=
  match attrs with
  | [] => None
  | (a', v) :: attrs' => if String.eqb a' a then Some v else attr attrs' a
  end.

Definition matches_simple (p : located) (s : simple) : bool :=
  let (t, first) := p in
  match s with
  | ByName n => String.eqb (name_of t) n
  | ByClass c =>
      match attr (attrs_of t) "class" with
      | Some v => existsb (String.eqb c) (words v)
      | None => false
      end
  | ById i =>
      match attr (attrs_of t) "id" with
      | Some v => String.eqb v i
      | None => false
      end
  | AttrEquals a v =>
      match attr (attrs_of t) a with
      | Some x => String.eqb x v
      | None => false
      end
  | AttrContains a v =>
      match attr (attrs_of t) a with
      | Some x => PyStr.nonempty v && PyStr.contains x v
      | None => false
      end
  | FirstChild => first
  end.

Definition matches_compound (p : located) (c : compound) : bool :=
  forallb (matches_simple p) c.

Fixpoint matches_context (ctx : list (combinator * compound))
         (ancestors : list located) {struct ctx} : bool :=
  match ctx with
  | [] => true
  | (Child, c) :: ctx' =>
      match ancestors with
      | [] => false
      | p :: up => matches_compound p c && matches_context ctx' up
      end
  | (Descendant, c) :: ctx' =>
      (fix some_ancestor (anc : list located) : bool :=
         match anc with
         | [] => false
         | p :: up =>
             (matches_compound p c && matches_context ctx' up)
             || some_ancestor up
         end) ancestors
  end.

(** Every element below [t] in document order, each with its ancestors,
    nearest first; [above] is [t] with its own ancestors. *)
Fixpoint paths (above : list located) (t : tag) {struct t}
  : list (list located) :=
  match t with
  | Tag _ _ cs =>
      (fix go (cs : list (string + tag)) (first : bool) {struct cs}
         : list (list located) :=
         match cs with
         | [] => []
         | inl _ :: cs' => go cs' first
         | inr t' :: cs' =>
             let me := (t', first) :: above in
             me :: paths me t' ++ go cs' false
         end) cs true
  end.

Definition matches (sel : selector) (path : list located) : bool :=
  match path with
  | [] => false
  | p :: up => matches_compound p (subject sel) && matches_context (context sel) up
  end.

Definition select_one (doc : tag) (s : string) : exn + option tag :=
  match parse_selector s with
  | None => inl (Exn OtherException ("Malformed selector: " ++ s)%string)
  | Some sel =>
      inr (match List.find (matches sel) (paths [] doc) with
           | Some (p :: _) => Some (fst p)
           | _ => None
           end)
  end.

(** The soup of a document. *)
Definition soup_of (doc : tag) : Soup := MkSoup doc (select_one doc).

End SoupSieve.

(* ===================================================================== *)
(** * Concrete pages, responses and collaborators *)
(* ===================================================================== *)

Module Fixtures.
Import Py Bs4 ResumeAnalizer JobScraper.

(** ** Pages *)

Definition page (body : list (string + tag)) : tag :=
  Tag "[document]" [] [inr (Tag "html" [] [inr (Tag "body" [] body)])].

(** A LinkedIn posting with a title and no company markup. *)
Definition linkedin_page : tag :=
  page [inr (Tag "h1" [("class", "top-card-layout__title")]
                 [inl "Senior Engineer"])].

(** A page only the generic selectors match: a bare [h1], whose text is
    padded, and a [div] whose class mentions the company. *)
Definition generic_page : tag :=
  page [inr (Tag "h1" [] [inl "  Data Analyst  "]);
        inr (Tag "div" [("class", "hiring-company")] [inl "Initech"])].

(** A page whose description element holds only white space. *)
Definition blank_description : tag :=
  Tag "div" [("class", "job-description")]
      [inl "   "; inr (Tag "p" [] [inl "  "])].

Definition blank_description_page : tag :=
  page [inr (Tag "h1" [] [inl "Data Analyst"]); inr blank_description].

(** A page with a description. *)
Definition described_page : tag :=
  page [inr (Tag "h1" [] [inl "Data Analyst"]);
        inr (Tag "div" [("class", "job-description")]
                 [inl " Build dashboards. "])].

Definition empty_page : tag := Tag "[document]" [] [].

(** ** The text methods on the pages of the examples

    These pages hold ASCII text and no comment, [script], [style] or
    [template] content.  On such text [str.strip] removes the ASCII blanks
    (TAB, LF, VT, FF, CR, FS, GS, RS, US and the space) at both ends, and on
    such pages the text of an element is made of every string below it, in
    document order. *)
Definition is_space (c : ascii) : bool :=
  let n := nat_of_ascii c in
  (((9 <=? n) && (n <=? 13)) || ((28 <=? n) && (n <=? 32)))%nat.

Fixpoint lstrip (s : string) : string :=
  match s with
  | EmptyString => EmptyString
  | String c s' => if is_space c then lstrip s' else s
  end.

Fixpoint rstrip (s : string) : string :=
  match s with
  | EmptyString => EmptyString
  | String c s' =>
      match rstrip s' with
      | EmptyString => if is_space c then EmptyString else String c EmptyString
      | r => String c r
      end
  end.

Definition strip_ascii (s : string) : string := rstrip (lstrip s).

Definition ascii_str : PyStr.StrMethods := {| PyStr.strip := strip_ascii |}.

Fixpoint all_strings (t : tag) : list string :=
  match t with
  | Tag _ _ cs =>
      flat_map (fun c => match c with
                         | inl s => [s]
                         | inr t' => all_strings t'
                         end) cs
  end.

Definition plain_tags : TagMethods :=
  {| get_text := fun t => String.concat EmptyString (all_strings t);
     get_text_strip := fun t =>
       String.concat EmptyString
         (filter PyStr.nonempty (map strip_ascii (all_strings t))) |}.

(** A soup whose CSS engine fails on every selector. *)
Definition failing_soup : Soup :=
  MkSoup empty_page (fun _ => inl (Exn OtherException "selector engine failure")).

(** A soup whose engine finds the page's [h1] and fails on every other
    selector. *)
Definition title_only_soup : Soup :=
  MkSoup (page [inr (Tag "h1" [] [inl "Data Analyst"])])
         (fun selector =>
            if String.eqb selector "h1"
            then inr (Some (Tag "h1" [] [inl "Data Analyst"]))
            else inl (Exn OtherException "selector engine failure")).

(** ** [urlparse(url).scheme], after CPython's [urlsplit]: the text before
    the first colon when it starts with a letter and holds only letters,
    digits, [+], [-] and [.]; lower-cased. *)
Definition is_alpha (c : ascii) : bool :=
  let n := nat_of_ascii c in
  (((65 <=? n) && (n <=? 90)) || ((97 <=? n) && (n <=? 122)))%nat.

Definition is_scheme_char (c : ascii) : bool :=
  let n := nat_of_ascii c in
  (is_alpha c || ((48 <=? n) && (n <=? 57))
   || (n =? 43) || (n =? 45) || (n =? 46))%nat.

Fixpoint before_colon (s : string) : option string :=
  match s with
  | EmptyString => None
  | String c s' =>
      if Ascii.eqb c ":" then Some EmptyString
      else if is_scheme_char c then option_map (String c) (before_colon s')
      else None
  end.

Definition urlparse_scheme (url : string) : exn + string :=
  match url with
  | String c _ =>
      if is_alpha c then
        match before_colon url with
        | Some scheme => inr (PyStr.lower scheme)
        | None => inr EmptyString
        end
      else inr EmptyString
  | EmptyString => inr EmptyString
  end.

(** An HTTP client that answers every request with the given status and
    body, and one whose requests time out. *)
Definition answers (status : Z) (body : string) : string -> exn + http_response :=
  fun _ => inr (HttpResponse status body).

Definition times_out : string -> exn + http_response :=
  fun _ => inl (Exn RequestException "Read timed out. (read timeout=10)").

(** The texts of two of the pages above, and [BeautifulSoup(text,
    "html.parser")] on them; any other text is taken for the empty page. *)
Definition described_html : string :=
  "<html><body><h1>Data Analyst</h1><div class='job-description'> Build dashboards. </div></body></html>".

Definition blank_description_html : string :=
  "<html><body><h1>Data Analyst</h1><div class='job-description'>   <p>  </p></div></body></html>".

Definition html_parser (text : string) : Soup :=
  SoupSieve.soup_of
    (if String.eqb text described_html then described_page
     else if String.eqb text blank_description_html then blank_description_page
     else empty_page).

(** ** Backend responses and their parses *)

Definition quoted (s : string) : string := (PyStr.dq ++ s ++ PyStr.dq)%string.

(** [{"jobs": [{"job_title": "Developer", "company_name": "Acme",
                "recommendations": ["Learn Rust"]}]}] *)
Definition one_recommendation_text : string :=
  ("{" ++ quoted "jobs" ++ ": [{" ++ quoted "job_title" ++ ": " ++ quoted "Developer"
   ++ ", " ++ quoted "company_name" ++ ": " ++ quoted "Acme"
   ++ ", " ++ quoted "recommendations" ++ ": [" ++ quoted "Learn Rust" ++ "]}]}")%string.

Definition one_recommendation_job : dict :=
  [("job_title", VStr "Developer"); ("company_name", VStr "Acme");
   ("recommendations", VList [VStr "Learn Rust"])].

(** The same with an empty [job_title]:
    [{"jobs": [{"job_title": (empty string), "company_name": "Acme",
                "recommendations": ["a", "b", "c"]}]}] *)
Definition empty_title_text : string :=
  ("{" ++ quoted "jobs" ++ ": [{" ++ quoted "job_title" ++ ": " ++ quoted EmptyString
   ++ ", " ++ quoted "company_name" ++ ": " ++ quoted "Acme"
   ++ ", " ++ quoted "recommendations" ++ ": [" ++ quoted "a" ++ ", "
   ++ quoted "b" ++ ", " ++ quoted "c" ++ "]}]}")%string.

Definition empty_title_job : dict :=
  [("job_title", VStr EmptyString); ("company_name", VStr "Acme");
   ("recommendations", VList [VStr "a"; VStr "b"; VStr "c"])].

(** [{"jobs": {}}] *)
Definition jobs_object_text : string :=
  ("{" ++ quoted "jobs" ++ ": {}}")%string.

(** [{"jobs": 5}] *)
Definition jobs_number_text : string :=
  ("{" ++ quoted "jobs" ++ ": 5}")%string.

(** [{"jobs": []}] and [{"jobs": []} {}] *)
Definition no_jobs_text : string := ("{" ++ quoted "jobs" ++ ": []}")%string.
Definition two_blocks_text : string := (no_jobs_text ++ " {}")%string.

(** [Here is the analysis: {"jobs": [{"job_link": "https://example.com/1",
     "match_percentage": 80}, {"job_title": "Developer",
     "company_name": "Acme", "recommendations": []}]} Good luck!] *)
Definition two_jobs_block : string :=
  ("{" ++ quoted "jobs" ++ ": [{" ++ quoted "job_link" ++ ": "
   ++ quoted "https://example.com/1" ++ ", " ++ quoted "match_percentage" ++ ": 80}, {"
   ++ quoted "job_title" ++ ": " ++ quoted "Developer"
   ++ ", " ++ quoted "company_name" ++ ": " ++ quoted "Acme"
   ++ ", " ++ quoted "recommendations" ++ ": []}]}")%string.

Definition two_jobs_text : string :=
  ("Here is the analysis: " ++ two_jobs_block ++ " Good luck!")%string.

Definition two_jobs : list dict :=
  [[("job_link", VStr "https://example.com/1"); ("match_percentage", VInt 80)];
   [("job_title", VStr "Developer"); ("company_name", VStr "Acme");
    ("recommendations", VList [])]].

(** [json.loads] on the texts above. *)
Definition json_table : list (string * (exn + value)) :=
  [(one_recommendation_text, inr (VDict [("jobs", VList [VDict one_recommendation_job])]));
   (empty_title_text, inr (VDict [("jobs", VList [VDict empty_title_job])]));
   (jobs_object_text, inr (VDict [("jobs", VDict [])]));
   (jobs_number_text, inr (VDict [("jobs", VInt 5)]));
   (no_jobs_text, inr (VDict [("jobs", VList [])]));
   (two_blocks_text,
     inl (Exn JSONDecodeError "Extra data: line 1 column 14 (char 13)"));
   (two_jobs_block, inr (VDict [("jobs", VList (map VDict two_jobs))]))].

Fixpoint table_lookup (table : list (string * (exn + value))) (s : string)
  : exn + value :=
  match table with
  | [] => inl (Exn JSONDecodeError "Expecting value: line 1 column 1 (char 0)")
  | (k, r) :: table' => if String.eqb k s then r else table_lookup table' s
  end.

Definition json_loads : string -> exn + value := table_lookup json_table.

(** A backend that answers every prompt with the given text. *)
Definition says (text : string) : string -> value -> exn + response :=
  fun _ _ => inr (Response (inr text)).

Definition docx_upload : upload := Upload "Resume.DOCX" "PK...".

End Fixtures.

(** Further responses, uploads and parses. *)
Module MoreFixtures.
Import Py Bs4 ResumeAnalizer JobScraper Fixtures.

(** [{"jobs": [{"job_title": "Developer"}, "see above"]}] *)
Definition mixed_entries_text : string :=
  ("{" ++ quoted "jobs" ++ ": [{" ++ quoted "job_title" ++ ": "
   ++ quoted "Developer" ++ "}, " ++ quoted "see above" ++ "]}")%string.

(** [{"strengths": ["Clear layout"]}], the same after some prose, and [42] *)
Definition review_text : string :=
  ("{" ++ quoted "strengths" ++ ": [" ++ quoted "Clear layout" ++ "]}")%string.

Definition wrapped_review_text : string :=
  ("Here is the review: " ++ review_text)%string.

Definition number_text : string := "42".

(** [["https://example.com/1"]], the job links of the examples. *)
Definition job_links_text : string :=
  ("[" ++ quoted "https://example.com/1" ++ "]")%string.

Definition job_links : value := VList [VStr "https://example.com/1"].

(** [json.loads] on these texts and on the earlier ones. *)
Definition json_loads (s : string) : exn + value :=
  table_lookup
    ([(mixed_entries_text,
        inr (VDict [("jobs", VList [VDict [("job_title", VStr "Developer")];
                                    VStr "see above"])]));
      (review_text, inr (VDict [("strengths", VList [VStr "Clear layout"])]));
      (number_text, inr (VInt 42));
      (job_links_text, inr job_links)]
     ++ json_table) s.

(** A backend for [generate_resume_review] and for [generate_cover_letter]
    that answers with the given text. *)
Definition reviews (text : string) : string -> string -> exn + response :=
  fun _ _ => inr (Response (inr text)).

Definition writes (text : string) : string -> exn + response :=
  fun _ => inr (Response (inr text)).

(** Uploads: a two-page PDF, a text file, and their readers. *)
Definition pdf_upload : upload := Upload "CV.PDF" "%PDF-1.4 ...".
Definition txt_upload : upload := Upload "cv.txt" "Ten years of Rocq.".

Definition two_pages : string -> exn + list string :=
  fun _ => inr ["Jane Doe"; "Ten years of Rocq."].

Definition damaged_pdf : string -> exn + list string :=
  fun _ => inl (Exn OtherException "EOF marker not found").

Definition decode_ascii : string -> exn + string := fun s => inr s.

(** A page without description markup, whose outer block mentions the
    job description, and one that mentions nothing. *)
Definition inner_block : tag :=
  Tag "div" [("class", "text")] [inl "Job Description: build dashboards."].

Definition outer_block : tag :=
  Tag "div" [("id", "main")] [inl " Data Analyst "; inr inner_block].

Definition mentioning_page : tag := page [inr outer_block].

Definition mentioning_html : string :=
  "<html><body><div id='main'> Data Analyst <div class='text'>Job Description: build dashboards.</div></div></body></html>".

Definition plain_page : tag :=
  page [inr (Tag "h1" [] [inl "Data Analyst"]);
        inr (Tag "p" [] [inl "Apply by email."])].

Definition plain_html : string :=
  "<html><body><h1>Data Analyst</h1><p>Apply by email.</p></body></html>".

Definition html_parser (text : string) : Soup :=
  if String.eqb text mentioning_html then SoupSieve.soup_of mentioning_page
  else if String.eqb text plain_html then SoupSieve.soup_of plain_page
  else Fixtures.html_parser text.

(** [urlparse] on a URL with a malformed IPv6 host. *)
Definition urlparse_rejecting : string -> exn + string :=
  fun _ => inl (Exn ValueError "Invalid IPv6 URL").

End MoreFixtures.

(* ===================================================================== *)
(** * Vocabulary of the properties *)
(* ===================================================================== *)

Module Props.
Import Py Bs4 ResumeAnalizer JobScraper.

Section Vocabulary.

(** The library's text methods, whatever they are. *)
Context {str_methods : PyStr.StrMethods} {tag_methods : TagMethods}.

(** The job entries of a [jobs] value. *)
Definition entries (jobs : value) : list value :=
  match jobs with VList l => l | _ => [] end.

(** What the loop body leaves in field [k] of an entry: the backend's
    value when it is true, the default otherwise. *)
Definition defaulted (e e' : dict) (k : string) (default : value) : Prop :=
  dict_get e' k =
    if truthy (dict_get_or_none e k) then dict_get e k else Some default.

(** The three fields the assembler may write. *)
Definition ensured_keys : list string :=
  ["recommendations"; "job_title"; "company_name"].

(** [if not d.get(k): d[k] = default] *)
Definition default_if_false (d : dict) (k : string) (default : value) : dict :=
  if truthy (dict_get_or_none d k) then d else dict_set d k default.

(** A job dictionary after the body of the loop. *)
Definition ensured (d : dict) : dict :=
  default_if_false
    (default_if_false
       (default_if_false d "recommendations" fallback_recommendations)
       "job_title" (VStr "Position"))
    "company_name" (VStr "Company").

(** An entry of the result is the backend's entry after the loop body. *)
Definition ensured_entry (job job' : value) : Prop :=
  exists e, job = VDict e /\ job' = VDict (ensured e).

(** Values a [for] loop cannot iterate over. *)
Definition not_iterable (v : value) : bool :=
  match v with
  | VNone | VBool _ | VInt _ | VFloat _ => true
  | _ => false
  end.

(** The recommendations of an emitted entry [job'] against the backend's
    entry [job]: never false in the result, the fallback when the backend
    gave none or an empty list, the backend's own when it gave some. *)
Definition recommendations_ensured (job job' : value) : Prop :=
  exists e e',
    job = VDict e /\ job' = VDict e'
    /\ truthy (dict_get_or_none e' "recommendations") = true
    /\ (dict_get e "recommendations" = None
        \/ dict_get e "recommendations" = Some (VList []) ->
        dict_get e' "recommendations" = Some fallback_recommendations)
    /\ (truthy (dict_get_or_none e "recommendations") = true ->
        dict_get e' "recommendations" = dict_get e "recommendations").

(** An emitted entry [e'] against the backend's entry [e]: every other
    field as it was, the three fields defaulted when false, no key removed,
    and only these three keys added, after the backend's keys. *)
Definition same_but_defaults (e e' : dict) : Prop :=
  (forall k, ~ In k ensured_keys -> dict_get e' k = dict_get e k)
  /\ defaulted e e' "recommendations" fallback_recommendations
  /\ defaulted e e' "job_title" (VStr "Position")
  /\ defaulted e e' "company_name" (VStr "Company")
  /\ exists extra, keys e' = keys e ++ extra /\ incl extra ensured_keys.

(** [c] does not occur in [s]. *)
Fixpoint absent (c : ascii) (s : string) : Prop :=
  match s with
  | EmptyString => True
  | String c' s' => c' <> c /\ absent c s'
  end.

(** The selector yields no element with non-empty trimmed text. *)
Definition yields_nothing (soup : Soup) (selector : string) : Prop :=
  select_one soup selector = inr None
  \/ exists el, select_one soup selector = inr (Some el)
                /\ PyStr.strip (get_text el) = EmptyString.

(** [t] is the trimmed text of the element of the first selector of the
    list that yields an element with non-empty trimmed text. *)
Definition first_match (soup : Soup) (selectors : list string) (t : string)
  : Prop :=
  exists before selector after el,
    selectors = before ++ selector :: after
    /\ Forall (yields_nothing soup) before
    /\ select_one soup selector = inr (Some el)
    /\ PyStr.strip (get_text el) = t
    /\ t <> EmptyString.

Definition no_match (soup : Soup) (selectors : list string) : Prop :=
  Forall (yields_nothing soup) selectors.

(** The engine raises on a selector of the list, and the selectors before
    it yield nothing: the search through the list reaches it. *)
Definition raises_in (soup : Soup) (selectors : list string) : Prop :=
  exists before selector after e,
    selectors = before ++ selector :: after
    /\ Forall (yields_nothing soup) before
    /\ select_one soup selector = inl e.

(** The list a table holds under a key. *)
Definition list_for (key : string) (table : list (string * list string))
  : list string :=
  match List.find (fun kv => String.eqb (fst kv) key) table with
  | Some kv => snd kv
  | None => []
  end.

(** The platform's selector list in a table: Indeed's, LinkedIn's, or none. *)
Definition platform_list (table : list (string * list string)) (url : string)
  : list string :=
  if PyStr.contains url "indeed.com" then list_for "indeed.com" table
  else if PyStr.contains url "linkedin.com" then list_for "linkedin.com" table
  else [].

Definition generic_list (table : list (string * list string)) : list string :=
  list_for "generic" table.

(** The search for one field reaches a selector the engine raises on: in
    the platform's list, or in the generic list after the platform's list
    has yielded nothing. *)
Definition search_fails (soup : Soup) (url : string)
           (table : list (string * list string)) : Prop :=
  raises_in soup (platform_list table url)
  \/ (no_match soup (platform_list table url)
      /\ raises_in soup (generic_list table)).

(** The two-tier rule for one field: the platform's first match wins;
    without one the generic list's first match wins; without either the
    field is the sentinel. *)
Definition resolved (soup : Soup) (url : string)
           (table : list (string * list string)) (sentinel result : string)
  : Prop :=
  (forall t, first_match soup (platform_list table url) t -> result = t)
  /\ (no_match soup (platform_list table url) ->
      forall t, first_match soup (generic_list table) t -> result = t)
  /\ (no_match soup (platform_list table url) ->
      no_match soup (generic_list table) -> result = sentinel).

(** What [scrape_job_description] runs once the request has been answered
    with a status other than 403, before its two handlers apply. *)
Definition after_request (BeautifulSoup : string -> Soup) (job_url : string)
           (response : http_response) : Py value :=
  Py.bind (raise_for_status response) (fun _ =>
    let soup := BeautifulSoup (text response) in
    Py.bind (extract_job_details soup job_url) (fun job_details =>
      Py.bind (first_element soup description_selectors) (fun found =>
        match found with
        | Some job_description =>
            Py.ret (VDict (dict_of
                   ([("success", VBool true);
                     ("description", VStr (get_text_strip job_description))]
                    ++ job_details)))
        | None =>
            match find soup mentions_description with
            | Some description =>
                Py.ret (VDict (dict_of
                       ([("success", VBool true);
                         ("description", VStr (get_text_strip description))]
                        ++ job_details)))
            | None =>
                Py.ret (VDict (dict_of
                       ([("success", VBool true);
                         ("description", VStr
                            "Unable to automatically extract job description. Please enter the job description manually.")]
                        ++ job_details
                        ++ [("requires_manual_entry", VBool true)])))
            end
        end))).

(** The two handlers of [scrape_job_description] around a computation. *)
Definition handled (m : Py value) : Py value :=
  try_except
    (try_except m is_RequestException
       (fun e => Py.ret (manual_entry
          "Unable to fetch job description. Please enter it manually.")))
    is_Exception
    (fun e => Py.ret (manual_entry
       "Error accessing job posting. Please enter the job description manually.")).

(** A soft success that asks for manual entry. *)
Definition asks_for_manual_entry (result : value) : Prop :=
  exists message,
    result = manual_entry message
    /\ PyStr.contains message "manually" = true.

(** The statuses [raise_for_status] raises for. *)
Definition is_error_status (status : Z) : bool :=
  ((400 <=? status) && (status <? 600))%Z.

(** An emitted entry with all three ensured fields true. *)
Definition complete_entry (job : value) : Prop :=
  exists e,
    job = VDict e
    /\ truthy (dict_get_or_none e "recommendations") = true
    /\ truthy (dict_get_or_none e "job_title") = true
    /\ truthy (dict_get_or_none e "company_name") = true.

(** The resume's text was obtained, with the given trace of stream and
    reader calls: from a PDF by [extract_text_from_pdf], or from a text
    file by reading and decoding it. *)
Definition yields_text (pdf_pages : string -> exn + list string)
           (decode_utf8 : string -> exn + string) (resume : upload)
           (reading : list event) (content : string) : Prop :=
  (PyStr.endswith (PyStr.lower (filename resume)) ".pdf" = true
   /\ extract_text_from_pdf pdf_pages resume = (reading, inr content))
  \/ (PyStr.endswith (PyStr.lower (filename resume)) ".pdf" = false
      /\ PyStr.endswith (PyStr.lower (filename resume)) ".txt" = true
      /\ decode_utf8 (stream resume) = inr content
      /\ reading = [EvRead; EvDecode]).

(** The traces [analyze_resume] can leave on the stream and its readers. *)
Definition reading_traces : list (list event) :=
  [[]; [EvRead; EvSeek 0; EvPdfParse]; [EvRead; EvDecode]].

(** [hay] holds [needle] as a contiguous part. *)
Definition substring (needle hay : string) : Prop :=
  exists pre post, hay = (pre ++ needle ++ post)%string.

(** No selector of the two tables makes the CSS engine raise. *)
Definition selectors_evaluate (soup : Soup) : Prop :=
  Forall (fun selector => exists r, select_one soup selector = inr r)
         (flat_map snd title_selectors ++ flat_map snd company_selectors).

(** A field as the extractor returns it: not empty, and without leading or
    trailing white space. *)
Definition clean (x : string) : Prop := x <> EmptyString /\ PyStr.strip x = x.

Definition clean_opt (o : option string) : Prop :=
  match o with Some x => clean x | None => True end.

(** A soft success of the scraper: [success] true and the four fields,
    all strings. *)
Definition scraped (d : dict) : Prop :=
  dict_get d "success" = Some (VBool true)
  /\ exists description title company platform,
      dict_get d "description" = Some (VStr description)
      /\ dict_get d "job_title" = Some (VStr title)
      /\ dict_get d "company_name" = Some (VStr company)
      /\ dict_get d "platform" = Some (VStr platform).

(** The scraper's only hard failure. *)
Definition invalid_url : dict :=
  [("success", VBool false); ("error", VStr "Invalid URL provided")].

End Vocabulary.

End Props.

(* ===================================================================== *)
(** * Properties *)
(* ===================================================================== *)

Import Py Bs4 ResumeAnalizer JobScraper Props Fixtures.

(** ** Dictionaries and the loop body *)

Section DictFacts.

Lemma dict_get_set_same (d : dict) (k : string) (v : value) :
  dict_get (dict_set d k v) k = Some v.
Proof.
  induction d as [|[k' v'] d IH]; simpl.
  - now rewrite String.eqb_refl.
  - destruct (String.eqb k' k) eqn:E; simpl; rewrite E; auto.
Qed.

Lemma dict_get_set_other (d : dict) (k k' : string) (v : value) :
  k <> k' -> dict_get (dict_set d k v) k' = dict_get d k'.
Proof.
  intros Hne. induction d as [|[k0 v0] d IH]; simpl.
  - destruct (String.eqb_spec k k'); [contradiction | reflexivity].
  - destruct (String.eqb_spec k0 k) as [->|Hk]; simpl.
    + destruct (String.eqb_spec k k'); [contradiction | reflexivity].
    + destruct (String.eqb_spec k0 k'); auto.
Qed.

Lemma default_if_false_get_same (d : dict) (k : string) (v : value) :
  defaulted d (default_if_false d k v) k v.
Proof.
  unfold defaulted, default_if_false.
  destruct (truthy (dict_get_or_none d k)); auto using dict_get_set_same.
Qed.

Lemma default_if_false_get_other (d : dict) (k k' : string) (v : value) :
  k <> k' -> dict_get (default_if_false d k v) k' = dict_get d k'.
Proof.
  intros. unfold default_if_false.
  destruct (truthy (dict_get_or_none d k)); auto using dict_get_set_other.
Qed.

End DictFacts.

Lemma get_or_none_other d k k' v : k <> k' ->
  dict_get_or_none (default_if_false d k v) k' = dict_get_or_none d k'.
Proof. intros. unfold dict_get_or_none. now rewrite default_if_false_get_other. Qed.

Lemma ensure_fields_dict (d : dict) :
  ensure_fields (VDict d) = ([], inr (VDict (ensured d))).
Proof.
  unfold ensure_fields, ensured, get, setitem, bind, ret.
  unfold default_if_false at 3.
  destruct (truthy (dict_get_or_none d "recommendations")); simpl;
  match goal with |- context [default_if_false ?x "job_title" _] =>
    unfold default_if_false at 2; destruct (truthy (dict_get_or_none x "job_title")); simpl end;
  match goal with |- context [default_if_false ?x "company_name" _] =>
    unfold default_if_false at 1; destruct (truthy (dict_get_or_none x "company_name")); simpl end;
  reflexivity.
Qed.

Lemma keys_dict_set_incl (d : dict) (k : string) (v : value) :
  exists extra, keys (dict_set d k v) = keys d ++ extra /\ incl extra [k].
Proof.
  unfold keys. induction d as [|[k0 v0] d [extra [IH Hin]]]; simpl.
  - exists [k]. split; [reflexivity | apply incl_refl].
  - destruct (String.eqb k0 k); simpl.
    + exists []. split; [now rewrite app_nil_r | apply incl_nil_l].
    + exists extra. split; [now rewrite IH | assumption].
Qed.

Lemma default_if_false_keys_incl (d : dict) (k : string) (v : value) :
  exists extra, keys (default_if_false d k v) = keys d ++ extra /\ incl extra [k].
Proof.
  unfold default_if_false. destruct (truthy (dict_get_or_none d k)).
  - exists []. split; [now rewrite app_nil_r | apply incl_nil_l].
  - apply keys_dict_set_incl.
Qed.

Section Ensured.
Variable d : dict.

Lemma ensured_recommendations :
  defaulted d (ensured d) "recommendations" fallback_recommendations.
Proof.
  unfold defaulted, ensured.
  rewrite !default_if_false_get_other by discriminate.
  apply default_if_false_get_same.
Qed.

Lemma ensured_job_title : defaulted d (ensured d) "job_title" (VStr "Position").
Proof.
  unfold defaulted, ensured.
  rewrite default_if_false_get_other by discriminate.
  rewrite default_if_false_get_same.
  rewrite get_or_none_other by discriminate.
  now rewrite default_if_false_get_other by discriminate.
Qed.

Lemma ensured_company_name : defaulted d (ensured d) "company_name" (VStr "Company").
Proof.
  unfold defaulted, ensured.
  rewrite default_if_false_get_same.
  rewrite !get_or_none_other by discriminate.
  now rewrite !default_if_false_get_other by discriminate.
Qed.

Lemma ensured_other (k : string) :
  ~ In k ensured_keys -> dict_get (ensured d) k = dict_get d k.
Proof.
  intros Hk. unfold ensured.
  rewrite !default_if_false_get_other; auto;
    intros <-; apply Hk; simpl; auto.
Qed.

Lemma ensured_keys_appended :
  exists extra, keys (ensured d) = keys d ++ extra /\ incl extra ensured_keys.
Proof.
  unfold ensured.
  destruct (default_if_false_keys_incl d "recommendations" fallback_recommendations)
    as [x1 [E1 I1]].
  destruct (default_if_false_keys_incl
              (default_if_false d "recommendations" fallback_recommendations)
              "job_title" (VStr "Position")) as [x2 [E2 I2]].
  destruct (default_if_false_keys_incl
              (default_if_false
                 (default_if_false d "recommendations" fallback_recommendations)
                 "job_title" (VStr "Position"))
              "company_name" (VStr "Company")) as [x3 [E3 I3]].
  exists (x1 ++ x2 ++ x3). split.
  - rewrite E3, E2, E1. now rewrite <- !app_assoc.
  - intros k Hk. apply in_app_or in Hk as [Hk | Hk];
      [apply I1 in Hk | apply in_app_or in Hk as [Hk | Hk];
                        [apply I2 in Hk | apply I3 in Hk]];
      simpl in *; intuition.
Qed.

Lemma ensured_recommendations_true :
  truthy (dict_get_or_none (ensured d) "recommendations") = true.
Proof.
  unfold dict_get_or_none. rewrite ensured_recommendations.
  destruct (truthy (dict_get_or_none d "recommendations")) eqn:E.
  - unfold dict_get_or_none in E.
    destruct (dict_get d "recommendations"); [assumption | discriminate].
  - reflexivity.
Qed.

End Ensured.

(** ** The loop over the jobs *)

Lemma for_each_dicts (l : list dict) :
  for_each ensure_fields (map VDict l) = ([], inr (map VDict (map ensured l))).
Proof.
  induction l as [|d l IH]; simpl; [reflexivity|].
  rewrite ensure_fields_dict. unfold bind at 1. rewrite IH. reflexivity.
Qed.

Lemma for_each_inv (items items' : list value) (t : list event) :
  for_each ensure_fields items = (t, inr items') ->
  t = [] /\ Forall2 ensured_entry items items'.
Proof.
  revert items' t. induction items as [|x xs IH]; simpl; intros items' t H.
  - inversion H; subst. split; constructor.
  - destruct x; try (simpl in H; discriminate).
    rewrite ensure_fields_dict in H. unfold bind at 1 in H.
    destruct (for_each ensure_fields xs) as [t1 [e|xs']] eqn:E; simpl in H.
    + discriminate.
    + inversion H; subst. destruct (IH _ _ eq_refl) as [-> HF].
      split; [reflexivity|]. constructor; [|assumption].
      now exists d.
Qed.

Lemma ensure_all_inv (jobs jobs' : value) (t : list event) :
  ensure_all jobs = (t, inr jobs') ->
  t = [] /\ Forall2 ensured_entry (entries jobs) (entries jobs').
Proof.
  unfold ensure_all. intros H.
  destruct jobs; simpl in H; try discriminate.
  - (* a string *)
    destruct (for_each ensure_fields (map VStr (PyStr.chars s))) as [t1 [e|r]] eqn:E;
      simpl in H; [discriminate|].
    inversion H; subst. apply for_each_inv in E as [-> _].
    split; [reflexivity | constructor].
  - (* a list *)
    destruct (for_each ensure_fields l) as [t1 [e|r]] eqn:E;
      simpl in H; [discriminate|].
    inversion H; subst. apply for_each_inv in E as [-> HF].
    split; [reflexivity | exact HF].
  - (* a dictionary *)
    destruct (for_each ensure_fields (map VStr (keys d))) as [t1 [e|r]] eqn:E;
      simpl in H; [discriminate|].
    inversion H; subst. apply for_each_inv in E as [-> _].
    split; [reflexivity | constructor].
Qed.

Lemma ensure_all_dicts (l : list dict) :
  ensure_all (VList (map VDict l)) = ([], inr (VList (map VDict (map ensured l)))).
Proof.
  unfold ensure_all. simpl. unfold bind at 1. simpl.
  rewrite for_each_dicts. reflexivity.
Qed.

Lemma ensure_all_trace (jobs : value) : fst (ensure_all jobs) = [].
Proof.
  assert (forall items, fst (for_each ensure_fields items) = []) as Hfe.
  { induction items as [|x xs IH]; simpl; [reflexivity|].
    destruct x; try reflexivity.
    rewrite ensure_fields_dict. unfold bind at 1.
    destruct (for_each ensure_fields xs) as [t [e|r]]; simpl in *; subst; reflexivity. }
  unfold ensure_all.
  destruct jobs; try reflexivity; simpl; unfold bind at 1; simpl;
    match goal with |- context [for_each ensure_fields ?l] =>
      specialize (Hfe l); destruct (for_each ensure_fields l) as [t [e|r]] end;
    simpl in *; subst; reflexivity.
Qed.

(** ** The generation pipeline *)

Section Pipeline.
Variable json_loads : string -> exn + value.
Variable generate_content : string -> value -> exn + response.
Variables (resume_content : string) (job_links : value).

(** The outcome once the backend has answered with a text that holds a
    brace-delimited span. *)
Lemma generate_analysis_span (text group : string) :
  generate_content resume_content job_links = inr (Response (inr text)) ->
  re_search_braces text = Some group ->
  generate_analysis json_loads generate_content resume_content job_links =
    ([EvGenerate],
     inr match json_loads group with
         | inl e => failure ("Error generating analysis: " ++ str e)
         | inr analysis =>
             if negb (is_dict analysis) || negb (contains_key analysis "jobs")
             then failure "Invalid response structure"
             else match analysis with
                  | VDict d =>
                      match snd (ensure_all (dict_get_or_none d "jobs")) with
                      | inr jobs' => success "jobs" jobs'
                      | inl e => failure ("Error generating analysis: " ++ str e)
                      end
                  | _ => VNone
                  end
         end).
Proof.
  intros Hgen Hspan. unfold generate_analysis.
  rewrite Hgen. unfold call, lift, bind at 1, try_except. simpl.
  assert (PyStr.nonempty text = true) as Hne.
  { destruct text; [discriminate | reflexivity]. }
  rewrite Hne, Hspan. simpl.
  destruct (json_loads group) as [e|analysis]; simpl; [reflexivity|].
  destruct analysis; simpl; try reflexivity.
  unfold contains_key, dict_contains, dict_get_or_none, getitem.
  destruct (dict_get d "jobs") as [jobs|]; simpl; [|reflexivity].
  pose proof (ensure_all_trace jobs) as Ht.
  destruct (ensure_all jobs) as [t [e|jobs']]; simpl in *; subst; reflexivity.
Qed.

End Pipeline.

Section PipelineInv.
Variable json_loads : string -> exn + value.
Variable generate_content : string -> value -> exn + response.
Variables (resume_content : string) (job_links : value).

Lemma generate_analysis_returns :
  exists v, generate_analysis json_loads generate_content resume_content job_links = ([EvGenerate], inr v).
Proof.
  unfold generate_analysis, call, lift, try_except.
  destruct (generate_content resume_content job_links) as [e|[|[e|text]]];
    simpl; try (eexists; reflexivity).
  destruct (PyStr.nonempty text); simpl; try (eexists; reflexivity).
  destruct (re_search_braces text) as [group|]; simpl; try (eexists; reflexivity).
  destruct (json_loads group) as [e|analysis]; simpl; try (eexists; reflexivity).
  destruct (negb (is_dict analysis) || negb (contains_key analysis "jobs")) eqn:E;
    simpl; try (eexists; reflexivity).
  destruct analysis; try discriminate.
  unfold contains_key, dict_contains in E. unfold getitem.
  destruct (dict_get d "jobs") as [jobs|]; [|discriminate]. simpl.
  pose proof (ensure_all_trace jobs) as Ht.
  destruct (ensure_all jobs) as [t [e|jobs']]; simpl in *; subst;
    eexists; reflexivity.
Qed.

Lemma generate_analysis_no_span (text : string) :
  generate_content resume_content job_links = inr (Response (inr text)) ->
  text <> EmptyString ->
  re_search_braces text = None ->
  generate_analysis json_loads generate_content resume_content job_links
  = ([EvGenerate], inr (failure "Invalid response format")).
Proof.
  intros Hgen Hne Hspan. unfold generate_analysis.
  rewrite Hgen. unfold call, lift, bind at 1, try_except. simpl.
  destruct text; [contradiction|]. simpl PyStr.nonempty. cbv iota.
  simpl negb. cbv iota. rewrite Hspan. reflexivity.
Qed.

Lemma generate_analysis_success_inv (jobs' : value) :
  snd (generate_analysis json_loads generate_content resume_content job_links) = inr (success "jobs" jobs') ->
  exists text group d jobs,
    generate_content resume_content job_links = inr (Response (inr text))
    /\ re_search_braces text = Some group
    /\ json_loads group = inr (VDict d)
    /\ dict_get d "jobs" = Some jobs
    /\ snd (ensure_all jobs) = inr jobs'.
Proof.
  intros H.
  destruct (generate_content resume_content job_links) as [e|[|[e|text]]] eqn:Hgen;
    try (unfold generate_analysis, call, lift, try_except in H;
         rewrite Hgen in H; simpl in H; inversion H; fail).
  destruct (re_search_braces text) as [group|] eqn:Hspan.
  - rewrite (generate_analysis_span _ _ _ _ _ _ Hgen Hspan) in H.
    simpl in H.
    destruct (json_loads group) as [e|analysis] eqn:Hjl; [inversion H|].
    destruct analysis; simpl in H; try (inversion H; fail).
    unfold contains_key, dict_contains, dict_get_or_none in H.
    destruct (dict_get d "jobs") as [jobs|] eqn:Hjobs; simpl in H; [|inversion H].
    destruct (snd (ensure_all jobs)) as [e|j] eqn:Hens; [inversion H|].
    exists text, group, d, jobs. repeat split; auto.
    inversion H. subst. exact Hens.
  - unfold generate_analysis, call, lift, try_except in H.
    rewrite Hgen in H. simpl in H.
    destruct (PyStr.nonempty text); simpl in H; [|inversion H].
    rewrite Hspan in H. simpl in H. inversion H.
Qed.

End PipelineInv.

(** ** The assembled report *)

Lemma ensured_entry_recommendations (job job' : value) :
  ensured_entry job job' -> recommendations_ensured job job'.
Proof.
  intros [e [-> ->]]. exists e, (ensured e). repeat split.
  - apply ensured_recommendations_true.
  - intros Hmiss. rewrite ensured_recommendations.
    unfold dict_get_or_none. destruct Hmiss as [-> | ->]; reflexivity.
  - intros Ht. rewrite ensured_recommendations. now rewrite Ht.
Qed.

Lemma ensured_same_but_defaults (e : dict) : same_but_defaults e (ensured e).
Proof.
  repeat split.
  - apply ensured_other.
  - apply ensured_recommendations.
  - apply ensured_job_title.
  - apply ensured_company_name.
  - apply ensured_keys_appended.
Qed.

(** Claim C1, as amended.  Whenever [generate_analysis] returns success, the
    backend answered with a text whose brace span parsed to an object with a
    [jobs] value, and every emitted job entry is the backend's entry with a
    recommendations value that is never empty (never false): the three fixed
    fallback strings when the backend's entry omitted the field or gave an
    empty list, and the backend's own value, whatever its length, when that
    value is non-empty. *)
Theorem recommendations_never_left_empty :
  forall (json_loads : string -> exn + value)
         (generate_content : string -> value -> exn + response)
         (resume_content : string) (job_links jobs' : value),
    snd (generate_analysis json_loads generate_content resume_content job_links)
      = inr (success "jobs" jobs') ->
    exists text group d jobs,
      generate_content resume_content job_links = inr (Response (inr text))
      /\ re_search_braces text = Some group
      /\ json_loads group = inr (VDict d)
      /\ dict_get d "jobs" = Some jobs
      /\ Forall2 recommendations_ensured (entries jobs) (entries jobs').
Proof.
  intros jl gc rc links jobs' H.
  destruct (generate_analysis_success_inv _ _ _ _ _ H)
    as (text & group & d & jobs & Hgen & Hspan & Hjl & Hjobs & Hens).
  exists text, group, d, jobs. repeat split; auto.
  destruct (ensure_all jobs) as [t r] eqn:E. simpl in Hens. subst r.
  apply ensure_all_inv in E as [_ HF].
  eapply Forall2_impl; [|exact HF]. apply ensured_entry_recommendations.
Qed.

(** The theorem above at a concrete input. *)
Lemma recommendations_never_left_empty_witness :
  snd (generate_analysis json_loads (says two_jobs_text) "resume" (VList []))
    = inr (success "jobs" (VList (map VDict (map ensured two_jobs))))
  /\ exists text group d jobs,
      says two_jobs_text "resume" (VList []) = inr (Response (inr text))
      /\ re_search_braces text = Some group
      /\ json_loads group = inr (VDict d)
      /\ dict_get d "jobs" = Some jobs
      /\ Forall2 recommendations_ensured (entries jobs)
           (entries (VList (map VDict (map ensured two_jobs)))).
Proof.
  split; [reflexivity|].
  apply (recommendations_never_left_empty
           json_loads (says two_jobs_text) "resume" (VList [])).
  reflexivity.
Defined.

(** Claim C1 as stated fails: a job the backend sends with a single
    recommendation is emitted, on success, with that single recommendation,
    fewer than three. *)
Lemma single_recommendation_is_kept :
  generate_analysis json_loads (says one_recommendation_text) "resume" (VList [])
    = ([EvGenerate], inr (success "jobs" (VList [VDict one_recommendation_job])))
  /\ dict_get one_recommendation_job "recommendations" = Some (VList [VStr "Learn Rust"])
  /\ ~ (3 <= length [VStr "Learn Rust"]).
Proof. repeat split; try reflexivity. simpl. lia. Qed.

(** Claim C8, as amended.  When the parsed response is an object whose
    [jobs] value is a list of [n] objects, [generate_analysis] makes one
    backend call and returns success with [n] entries in the same order; each
    entry has every field other than [recommendations], [job_title] and
    [company_name] as the backend sent it, each of these three replaced by
    its default exactly when it was missing or false (empty string, empty
    list, null, zero), and no key removed or added apart from these three,
    which are appended after the backend's keys. *)
Theorem jobs_round_trip :
  forall (json_loads : string -> exn + value)
         (generate_content : string -> value -> exn + response)
         (resume_content : string) (job_links : value)
         (text group : string) (d : dict) (l : list dict),
    generate_content resume_content job_links = inr (Response (inr text)) ->
    re_search_braces text = Some group ->
    json_loads group = inr (VDict d) ->
    dict_get d "jobs" = Some (VList (map VDict l)) ->
    exists l',
      generate_analysis json_loads generate_content resume_content job_links
        = ([EvGenerate], inr (success "jobs" (VList (map VDict l'))))
      /\ length l' = length l
      /\ Forall2 same_but_defaults l l'.
Proof.
  intros jl gc rc links text group d l Hgen Hspan Hjl Hjobs.
  exists (map ensured l). repeat split.
  - rewrite (generate_analysis_span _ _ _ _ _ _ Hgen Hspan), Hjl. simpl.
    unfold contains_key, dict_contains, dict_get_or_none. rewrite Hjobs. simpl.
    now rewrite ensure_all_dicts.
  - apply length_map.
  - clear Hjobs. induction l; simpl; constructor;
      auto using ensured_same_but_defaults.
Qed.

(** The theorem above at a concrete input. *)
Lemma jobs_round_trip_witness :
  (says two_jobs_text "resume" (VList []) = inr (Response (inr two_jobs_text))
   /\ re_search_braces two_jobs_text = Some two_jobs_block
   /\ json_loads two_jobs_block = inr (VDict [("jobs", VList (map VDict two_jobs))])
   /\ dict_get [("jobs", VList (map VDict two_jobs))] "jobs"
      = Some (VList (map VDict two_jobs)))
  /\ exists l',
      generate_analysis json_loads (says two_jobs_text) "resume" (VList [])
        = ([EvGenerate], inr (success "jobs" (VList (map VDict l'))))
      /\ length l' = length two_jobs
      /\ Forall2 same_but_defaults two_jobs l'.
Proof.
  split; [repeat split; reflexivity|].
  apply (jobs_round_trip json_loads (says two_jobs_text) "resume" (VList [])
           two_jobs_text two_jobs_block
           [("jobs", VList (map VDict two_jobs))] two_jobs); reflexivity.
Defined.

(** Claim C8 as stated fails: a job whose [job_title] is present and is
    the empty string (so not missing) is emitted with [job_title] changed to
    ["Position"]. *)
Lemma empty_title_is_replaced :
  generate_analysis json_loads (says empty_title_text) "resume" (VList [])
    = ([EvGenerate],
       inr (success "jobs"
              (VList [VDict [("job_title", VStr "Position");
                             ("company_name", VStr "Acme");
                             ("recommendations", VList [VStr "a"; VStr "b"; VStr "c"])]])))
  /\ json_loads empty_title_text = inr (VDict [("jobs", VList [VDict empty_title_job])])
  /\ dict_get empty_title_job "job_title" = Some (VStr EmptyString)
  /\ VStr "Position" <> VStr EmptyString.
Proof. repeat split; try reflexivity. discriminate. Qed.

(** Claim C3, as amended.  Once the brace span has parsed, the result is
    the failure "Invalid response structure" exactly when the parsed value is
    not an object or has no key [jobs]; that [jobs] is a sequence is not
    checked, and a [jobs] value that cannot be iterated (null, a boolean, a
    number) is reported by the catch-all handler as "Error generating
    analysis: ... object is not iterable". *)
Theorem structure_check_is_dict_with_jobs :
  forall (json_loads : string -> exn + value)
         (generate_content : string -> value -> exn + response)
         (resume_content : string) (job_links : value)
         (text group : string) (analysis : value),
    generate_content resume_content job_links = inr (Response (inr text)) ->
    re_search_braces text = Some group ->
    json_loads group = inr analysis ->
    let result :=
      generate_analysis json_loads generate_content resume_content job_links in
    (is_dict analysis = false \/ contains_key analysis "jobs" = false
     <-> result = ([EvGenerate], inr (failure "Invalid response structure")))
    /\ (forall d jobs,
          analysis = VDict d -> dict_get d "jobs" = Some jobs ->
          not_iterable jobs = true ->
          result =
            ([EvGenerate],
             inr (failure ("Error generating analysis: '" ++ type_name jobs
                           ++ "' object is not iterable")%string))).
Proof.
  intros jl gc rc links text group analysis Hgen Hspan Hjl result.
  unfold result. rewrite (generate_analysis_span _ _ _ _ _ _ Hgen Hspan), Hjl.
  split; [split|].
  - intros [H | H]; rewrite H; simpl; [reflexivity | now rewrite orb_true_r].
  - destruct (is_dict analysis) eqn:Hd; [|now left].
    destruct (contains_key analysis "jobs") eqn:Hc; [|now right].
    simpl. destruct analysis; try discriminate.
    destruct (snd (ensure_all (dict_get_or_none d "jobs"))); intros H; inversion H.
  - intros d jobs -> Hjobs Hni. simpl.
    unfold dict_contains, dict_get_or_none. rewrite Hjobs. simpl.
    destruct jobs; try discriminate; reflexivity.
Qed.

(** The theorem above at a concrete input. *)
Lemma structure_check_is_dict_with_jobs_witness :
  (says jobs_number_text "resume" (VList []) = inr (Response (inr jobs_number_text))
   /\ re_search_braces jobs_number_text = Some jobs_number_text
   /\ json_loads jobs_number_text = inr (VDict [("jobs", VInt 5)]))
  /\ generate_analysis json_loads (says jobs_number_text) "resume" (VList [])
     = ([EvGenerate],
        inr (failure "Error generating analysis: 'int' object is not iterable")).
Proof.
  split; [repeat split; reflexivity|].
  apply (proj2 (structure_check_is_dict_with_jobs
                  json_loads (says jobs_number_text) "resume" (VList [])
                  jobs_number_text jobs_number_text (VDict [("jobs", VInt 5)])
                  eq_refl eq_refl eq_refl)
           [("jobs", VInt 5)] (VInt 5) eq_refl eq_refl eq_refl).
Defined.

(** Claim C3 as stated fails: a parsed object whose [jobs] value is an
    (empty) object, not a sequence, is not rejected; the call succeeds. *)
Lemma jobs_object_is_accepted :
  json_loads jobs_object_text = inr (VDict [("jobs", VDict [])])
  /\ generate_analysis json_loads (says jobs_object_text) "resume" (VList [])
     = ([EvGenerate], inr (success "jobs" (VDict []))).
Proof. split; reflexivity. Qed.

(** ** The brace span *)

Section Span.

Lemma absent_app (c : ascii) (s1 s2 : string) :
  absent c (s1 ++ s2) <-> absent c s1 /\ absent c s2.
Proof.
  induction s1 as [|c1 s1 IH]; simpl; [tauto|]. rewrite IH. tauto.
Qed.

Lemma greedy_none (s : string) :
  greedy_to_close s = None <-> absent "}" s.
Proof.
  induction s as [|c s IH]; simpl; [tauto|].
  destruct (greedy_to_close s) as [m|].
  - split; [discriminate|]. intros [_ H]. apply IH in H. discriminate.
  - destruct (Ascii.eqb_spec c "}") as [->|Hc].
    + split; [discriminate|]. intros [H _]. now contradiction H.
    + split; [|reflexivity]. intros _. split; [assumption | now apply IH].
Qed.

Lemma greedy_app (mid post : string) :
  absent "}" post ->
  greedy_to_close (mid ++ String "}" post) = Some (mid ++ "}")%string.
Proof.
  intros Hp. induction mid as [|c mid IH]; simpl.
  - apply greedy_none in Hp. now rewrite Hp.
  - now rewrite IH.
Qed.

Lemma greedy_inv (s m : string) :
  greedy_to_close s = Some m ->
  exists mid post,
    m = (mid ++ "}")%string /\ s = (mid ++ String "}" post)%string
    /\ absent "}" post.
Proof.
  revert m. induction s as [|c s IH]; simpl; intros m H; [discriminate|].
  destruct (greedy_to_close s) as [m'|] eqn:E.
  - inversion H; subst.
    destruct (IH m' eq_refl) as (mid & post & -> & -> & Hp).
    exists (String c mid), post. repeat split; auto.
  - destruct (Ascii.eqb_spec c "}") as [->|Hc]; [|discriminate].
    inversion H; subst. exists EmptyString, s. repeat split.
    now apply greedy_none.
Qed.

Lemma re_search_braces_app (pre mid post : string) :
  absent "{" pre -> absent "}" post ->
  re_search_braces (pre ++ String "{" (mid ++ String "}" post))
  = Some (String "{" (mid ++ "}")).
Proof.
  intros Hpre Hpost. induction pre as [|c pre IH]; simpl.
  - now rewrite greedy_app.
  - destruct Hpre as [Hc Hpre].
    destruct (Ascii.eqb_spec c "{") as [->|_]; [now contradiction Hc | auto].
Qed.

Lemma re_search_braces_inv (text group : string) :
  re_search_braces text = Some group ->
  exists pre mid post,
    text = (pre ++ String "{" (mid ++ String "}" post))%string
    /\ absent "{" pre /\ absent "}" post
    /\ group = String "{" (mid ++ "}").
Proof.
  induction text as [|c text IH]; simpl; intros H; [discriminate|].
  destruct (Ascii.eqb_spec c "{") as [->|Hc].
  - destruct (greedy_to_close text) as [m|] eqn:E.
    + inversion H; subst.
      apply greedy_inv in E as (mid & post & -> & -> & Hp).
      exists EmptyString, mid, post. simpl. repeat split; auto.
    + apply greedy_none in E.
      destruct (IH H) as (pre & mid & post & -> & _).
      apply absent_app in E as [_ E]. simpl in E. destruct E as [_ E].
      apply absent_app in E as [_ E]. simpl in E. now destruct E as [E _].
  - destruct (IH H) as (pre & mid & post & -> & Hpre & Hpost & ->).
    exists (String c pre), mid, post. simpl. repeat split; auto.
Qed.

(** The span the search returns: from the first opening brace to the last
    closing brace. *)
Lemma re_search_braces_spec (text group : string) :
  re_search_braces text = Some group <->
  exists pre mid post,
    text = (pre ++ "{" ++ mid ++ "}" ++ post)%string
    /\ absent "{" pre /\ absent "}" post
    /\ group = ("{" ++ mid ++ "}")%string.
Proof.
  split.
  - intros H. apply re_search_braces_inv in H. exact H.
  - intros (pre & mid & post & -> & Hpre & Hpost & ->).
    now apply re_search_braces_app.
Qed.

End Span.

(** Claim C2, as amended.  [generate_analysis] always returns a result
    dictionary after exactly one backend call, never an exception.  From a
    non-empty response text it takes the span from the first opening brace to
    the last closing brace of the text (not the first balanced block) and
    parses that span and nothing else: without such a span the result is the
    failure "Invalid response format"; when the parser raises on the span the
    result is the failure "Error generating analysis: " followed by the
    parser's message. *)
Theorem json_span_runs_to_last_brace :
  forall (json_loads : string -> exn + value)
         (generate_content : string -> value -> exn + response)
         (resume_content : string) (job_links : value),
    let result :=
      generate_analysis json_loads generate_content resume_content job_links in
    (exists v, result = ([EvGenerate], inr v))
    /\ forall text,
        generate_content resume_content job_links = inr (Response (inr text)) ->
        text <> EmptyString ->
        (forall group,
            re_search_braces text = Some group <->
            exists pre mid post,
              text = (pre ++ "{" ++ mid ++ "}" ++ post)%string
              /\ absent "{" pre /\ absent "}" post
              /\ group = ("{" ++ mid ++ "}")%string)
        /\ (re_search_braces text = None ->
            result = ([EvGenerate], inr (failure "Invalid response format")))
        /\ (forall group e,
               re_search_braces text = Some group ->
               json_loads group = inl e ->
               result = ([EvGenerate],
                         inr (failure ("Error generating analysis: " ++ str e)%string)))
        /\ (forall group json_loads',
               re_search_braces text = Some group ->
               json_loads' group = json_loads group ->
               generate_analysis json_loads' generate_content resume_content job_links
               = result).
Proof.
  intros jl gc rc links result. split; [apply generate_analysis_returns|].
  intros text Hgen Hne. repeat split.
  - apply re_search_braces_spec.
  - apply re_search_braces_spec.
  - intros Hnone. now apply (generate_analysis_no_span jl gc rc links text).
  - intros group e Hspan Hjl. unfold result.
    now rewrite (generate_analysis_span _ _ _ _ _ _ Hgen Hspan), Hjl.
  - intros group jl' Hspan Hjl. unfold result.
    rewrite (generate_analysis_span jl _ _ _ _ _ Hgen Hspan).
    rewrite (generate_analysis_span jl' _ _ _ _ _ Hgen Hspan).
    now rewrite Hjl.
Qed.

(** The theorem above at a concrete input. *)
Lemma json_span_runs_to_last_brace_witness :
  (says two_blocks_text "resume" (VList []) = inr (Response (inr two_blocks_text))
   /\ two_blocks_text <> EmptyString
   /\ re_search_braces two_blocks_text = Some two_blocks_text
   /\ json_loads two_blocks_text
      = inl (Exn JSONDecodeError "Extra data: line 1 column 14 (char 13)"))
  /\ generate_analysis json_loads (says two_blocks_text) "resume" (VList [])
     = ([EvGenerate],
        inr (failure ("Error generating analysis: "
                      ++ str (Exn JSONDecodeError
                                "Extra data: line 1 column 14 (char 13)"))%string)).
Proof.
  assert (two_blocks_text <> EmptyString) as Hne by discriminate.
  split; [repeat split; try assumption; reflexivity|].
  exact (proj1 (proj2 (proj2
           (proj2 (json_span_runs_to_last_brace
                     json_loads (says two_blocks_text) "resume" (VList []))
              two_blocks_text eq_refl Hne)))
           two_blocks_text
           (Exn JSONDecodeError "Extra data: line 1 column 14 (char 13)")
           eq_refl eq_refl).
Defined.

(** Claim C2 as stated fails: in a response with two brace blocks the first
    balanced block parses, but the span handed to the parser runs to the
    last closing brace, the parser raises on the extra data, and the call
    fails. *)
Lemma second_block_is_swallowed :
  first_balanced_block two_blocks_text = Some no_jobs_text
  /\ json_loads no_jobs_text = inr (VDict [("jobs", VList [])])
  /\ re_search_braces two_blocks_text = Some two_blocks_text
  /\ two_blocks_text <> no_jobs_text
  /\ generate_analysis json_loads (says two_blocks_text) "resume" (VList [])
     = ([EvGenerate],
        inr (failure
          "Error generating analysis: Extra data: line 1 column 14 (char 13)")).
Proof. repeat split; try reflexivity. discriminate. Qed.

(** ** Unsupported uploads *)

(** Claim C9.  When the lower-cased file name ends with neither [.pdf] nor
    [.txt], [analyze_resume] returns the failure "Unsupported file format.
    Please upload a PDF or TXT file." with an empty trace: the stream is not
    read, sought or decoded, and the backend is not called. *)
Theorem unsupported_extension_is_refused_unread :
  forall (pdf_pages : string -> exn + list string)
         (decode_utf8 : string -> exn + string)
         (json_loads : string -> exn + value)
         (generate_content : string -> value -> exn + response)
         (resume : upload) (job_links : string),
    PyStr.endswith (PyStr.lower (filename resume)) ".pdf" = false ->
    PyStr.endswith (PyStr.lower (filename resume)) ".txt" = false ->
    analyze_resume pdf_pages decode_utf8 json_loads generate_content resume job_links
    = ([], inr (failure "Unsupported file format. Please upload a PDF or TXT file.")).
Proof.
  intros pp du jl gc resume links Hpdf Htxt.
  unfold analyze_resume. rewrite Hpdf, Htxt. reflexivity.
Qed.

(** The theorem above at a concrete input. *)
Lemma unsupported_extension_is_refused_unread_witness :
  (PyStr.endswith (PyStr.lower (filename docx_upload)) ".pdf" = false
   /\ PyStr.endswith (PyStr.lower (filename docx_upload)) ".txt" = false)
  /\ analyze_resume (fun _ => inr []) (fun s => inr s) json_loads
       (says two_jobs_text) docx_upload "[]"
     = ([], inr (failure "Unsupported file format. Please upload a PDF or TXT file.")).
Proof.
  split; [split; reflexivity|].
  apply unsupported_extension_is_refused_unread; reflexivity.
Defined.

(** ** The selector cascade *)

Lemma bind_trace_nil {A B : Type} (m : Py A) (k : A -> Py B) :
  fst m = [] -> (forall a, fst (k a) = []) -> fst (Py.bind m k) = [].
Proof.
  destruct m as [t [e|a]]; simpl; intros -> Hk; [reflexivity|].
  specialize (Hk a). destruct (k a). simpl in *. now subst.
Qed.

Section Cascade.
Context {str_methods : PyStr.StrMethods} {tag_methods : TagMethods}.
Variable soup : Soup.

Lemma first_text_no_match (selectors : list string) :
  no_match soup selectors -> first_text soup selectors = ([], inr None).
Proof.
  unfold no_match. induction 1 as [|sel sels Hsel _ IH]; simpl; [reflexivity|].
  unfold lift, bind.
  destruct Hsel as [-> | (el & -> & Hblank)]; simpl.
  - now rewrite IH.
  - rewrite Hblank. simpl. now rewrite IH.
Qed.

Lemma first_text_first_match (selectors : list string) (t : string) :
  first_match soup selectors t -> first_text soup selectors = ([], inr (Some t)).
Proof.
  intros (before & sel & after & el & -> & Hbefore & Hsel & Ht & Hne).
  induction Hbefore as [|s0 before Hs0 _ IH]; simpl; unfold lift, bind.
  - rewrite Hsel. simpl. rewrite Ht.
    destruct t; [contradiction | reflexivity].
  - destruct Hs0 as [-> | (el0 & -> & Hblank)]; simpl.
    + now rewrite IH.
    + rewrite Hblank. simpl. now rewrite IH.
Qed.

Lemma first_text_trace (selectors : list string) :
  fst (first_text soup selectors) = [].
Proof.
  induction selectors as [|sel sels IH]; simpl; [reflexivity|].
  unfold lift, bind.
  destruct (select_one soup sel) as [e|[el|]]; simpl; auto.
  destruct (PyStr.nonempty (PyStr.strip (get_text el))); simpl; auto.
  all: destruct (first_text soup sels) as [t r]; simpl in *; now subst.
Qed.

(** A list whose selectors all evaluate has a first match or none. *)
Lemma first_match_or_none (selectors : list string) :
  Forall (fun sel => exists r, select_one soup sel = inr r) selectors ->
  (exists t, first_match soup selectors t) \/ no_match soup selectors.
Proof.
  induction 1 as [|sel sels [r Hsel] _ IH]; [right; constructor|].
  destruct r as [el|].
  - destruct (PyStr.strip (get_text el)) as [|c rest] eqn:Ht.
    + destruct IH as [(t & before & s & after & el' & -> & Hb & Hs & Hst & Hne) | Hnone].
      * left. exists t, (sel :: before), s, after, el'. repeat split; auto.
        constructor; auto. right. now exists el.
      * right. constructor; auto. right. now exists el.
    + left. exists (String c rest), [], sel, sels, el. repeat split; auto.
      discriminate.
  - destruct IH as [(t & before & s & after & el' & -> & Hb & Hs & Hst & Hne) | Hnone].
    + left. exists t, (sel :: before), s, after, el'. repeat split; auto.
      constructor; auto. now left.
    + right. constructor; auto. now left.
Qed.

Lemma first_match_nonempty (selectors : list string) (t : string) :
  first_match soup selectors t -> truthy_opt (Some t) = true.
Proof.
  intros (_ & _ & _ & _ & _ & _ & _ & _ & Hne).
  destruct t; [contradiction | reflexivity].
Qed.

Lemma first_text_raises (selectors : list string) :
  raises_in soup selectors ->
  exists e, first_text soup selectors = ([], inl e).
Proof.
  intros (before & sel & after & e & -> & Hbefore & Hsel). exists e.
  induction Hbefore as [|s0 before Hs0 _ IH]; simpl; unfold lift, bind.
  - now rewrite Hsel.
  - destruct Hs0 as [-> | (el0 & -> & Hblank)]; simpl.
    + now rewrite IH.
    + rewrite Hblank. simpl. now rewrite IH.
Qed.

End Cascade.

Section Tables.
Context {str_methods : PyStr.StrMethods} {tag_methods : TagMethods}.
Variable soup : Soup.
Variable url : string.
Variable table : list (string * list string).
Hypothesis known : table = title_selectors \/ table = company_selectors.

Lemma selectors_for_known (key : string) :
  In key ["indeed.com"; "linkedin.com"; "generic"] ->
  selectors_for table key = ([], inr (list_for key table)).
Proof.
  intros Hkey. simpl in Hkey.
  destruct known as [-> | ->];
    destruct Hkey as [<- | [<- | [<- | []]]]; reflexivity.
Qed.

Lemma list_for_incl (key : string) : incl (list_for key table) (flat_map snd table).
Proof.
  unfold list_for. clear known.
  induction table as [|[k sels] tb IH]; simpl; [apply incl_nil_l|].
  destruct (String.eqb k key); simpl.
  - apply incl_appl, incl_refl.
  - apply incl_appr, IH.
Qed.

Lemma cascade_platform_match (t : string) :
  first_match soup (platform_list table url) t ->
  cascade soup url table = ([], inr (Some t)).
Proof.
  intros H. pose proof (first_match_nonempty _ _ _ H) as Hne.
  apply first_text_first_match in H.
  unfold cascade, platform_list in *.
  destruct (PyStr.contains url "indeed.com").
  - rewrite selectors_for_known by (simpl; auto).
    unfold bind at 2. simpl. rewrite H. unfold bind. now rewrite Hne.
  - destruct (PyStr.contains url "linkedin.com").
    + rewrite selectors_for_known by (simpl; auto).
      unfold bind at 2. simpl. rewrite H. unfold bind. now rewrite Hne.
    + simpl in H. discriminate.
Qed.

Lemma cascade_platform_none :
  no_match soup (platform_list table url) ->
  cascade soup url table
  = ([], inr match snd (first_text soup (generic_list table)) with
             | inr (Some t) => Some t
             | _ => None
             end)
  \/ exists e, snd (first_text soup (generic_list table)) = inl e.
Proof.
  intros H. apply first_text_no_match in H.
  pose proof (first_text_trace soup (generic_list table)) as Htr.
  assert (cascade soup url table =
          Py.bind (Py.ret None) (fun found : option string =>
            Py.bind (selectors_for table "generic") (fun sels =>
              Py.bind (first_text soup sels) (fun generic =>
                Py.ret (match generic with Some t => Some t | None => found end)))))
    as ->.
  { unfold cascade, platform_list in *.
    destruct (PyStr.contains url "indeed.com").
    - rewrite (selectors_for_known "indeed.com") by (simpl; auto).
      unfold bind at 2. simpl. rewrite H. reflexivity.
    - destruct (PyStr.contains url "linkedin.com").
      + rewrite (selectors_for_known "linkedin.com") by (simpl; auto).
        unfold bind at 2. simpl. rewrite H. reflexivity.
      + reflexivity. }
  rewrite selectors_for_known by (simpl; auto).
  unfold bind, ret. simpl. unfold generic_list in *.
  destruct (first_text soup (list_for "generic" table)) as [tr [e|[t|]]];
    simpl in *; subst; eauto.
Qed.

Lemma cascade_generic_match (t : string) :
  no_match soup (platform_list table url) ->
  first_match soup (generic_list table) t ->
  cascade soup url table = ([], inr (Some t)).
Proof.
  intros Hp Hg. apply first_text_first_match in Hg.
  destruct (cascade_platform_none Hp) as [-> | [e He]]; rewrite Hg in *;
    [reflexivity | discriminate].
Qed.

Lemma cascade_no_match :
  no_match soup (platform_list table url) ->
  no_match soup (generic_list table) ->
  cascade soup url table = ([], inr None).
Proof.
  intros Hp Hg. apply first_text_no_match in Hg.
  destruct (cascade_platform_none Hp) as [-> | [e He]]; rewrite Hg in *;
    [reflexivity | discriminate].
Qed.

Lemma cascade_resolved (r : option string) (sentinel : string) :
  snd (cascade soup url table) = inr r ->
  resolved soup url table sentinel (or_else r sentinel).
Proof.
  intros Hr. repeat split.
  - intros t Ht. pose proof (first_match_nonempty _ _ _ Ht) as Hne.
    rewrite (cascade_platform_match t Ht) in Hr. inversion Hr; subst.
    unfold or_else. now rewrite Hne.
  - intros Hp t Ht. pose proof (first_match_nonempty _ _ _ Ht) as Hne.
    rewrite (cascade_generic_match t Hp Ht) in Hr. inversion Hr; subst.
    unfold or_else. now rewrite Hne.
  - intros Hp Hg. rewrite (cascade_no_match Hp Hg) in Hr. now inversion Hr.
Qed.

Lemma cascade_search_fails :
  search_fails soup url table -> exists e, cascade soup url table = ([], inl e).
Proof.
  intros [Hp | [Hp Hg]].
  - destruct (first_text_raises _ _ Hp) as [e He]. exists e.
    unfold cascade, platform_list in *.
    destruct (PyStr.contains url "indeed.com").
    + rewrite selectors_for_known by (simpl; auto).
      unfold bind at 2. simpl. rewrite He. reflexivity.
    + destruct (PyStr.contains url "linkedin.com").
      * rewrite selectors_for_known by (simpl; auto).
        unfold bind at 2. simpl. rewrite He. reflexivity.
      * simpl in He. discriminate.
  - destruct (first_text_raises _ _ Hg) as [e He]. exists e.
    apply first_text_no_match in Hp.
    assert (cascade soup url table =
            Py.bind (Py.ret None) (fun found : option string =>
              Py.bind (selectors_for table "generic") (fun sels =>
                Py.bind (first_text soup sels) (fun generic =>
                  Py.ret (match generic with Some t => Some t | None => found end)))))
      as ->.
    { unfold cascade, platform_list in *.
      destruct (PyStr.contains url "indeed.com").
      - rewrite (selectors_for_known "indeed.com") by (simpl; auto).
        unfold bind at 2. simpl. rewrite Hp. reflexivity.
      - destruct (PyStr.contains url "linkedin.com").
        + rewrite (selectors_for_known "linkedin.com") by (simpl; auto).
          unfold bind at 2. simpl. rewrite Hp. reflexivity.
        + reflexivity. }
    rewrite selectors_for_known by (simpl; auto).
    unfold bind, ret. simpl. unfold generic_list in He. now rewrite He.
Qed.

Lemma cascade_trace : fst (cascade soup url table) = [].
Proof.
  assert (forall key, In key ["indeed.com"; "linkedin.com"; "generic"] ->
            fst (selectors_for table key) = []) as Hk.
  { intros key Hkey. now rewrite selectors_for_known. }
  unfold cascade. apply bind_trace_nil.
  - destruct (PyStr.contains url "indeed.com");
      [|destruct (PyStr.contains url "linkedin.com")]; try reflexivity;
      (apply bind_trace_nil; [apply Hk; simpl; auto | intros; apply first_text_trace]).
  - intros found. destruct (negb (truthy_opt found)); [|reflexivity].
    apply bind_trace_nil; [apply Hk; simpl; auto|].
    intros sels. apply bind_trace_nil; [apply first_text_trace | reflexivity].
Qed.

End Tables.

Section Extraction.
Context {str_methods : PyStr.StrMethods} {tag_methods : TagMethods}.
Variable soup : Soup.
Variable url : string.

Lemma extract_try_trace (platform : string) :
  fst (extract_job_details_try soup url platform) = [].
Proof.
  unfold extract_job_details_try.
  apply bind_trace_nil; [apply cascade_trace; auto|].
  intros jt. apply bind_trace_nil; [apply cascade_trace; auto | reflexivity].
Qed.

Lemma extract_try_returns (platform : string) (jt cn : option string) :
  snd (cascade soup url title_selectors) = inr jt ->
  snd (cascade soup url company_selectors) = inr cn ->
  extract_job_details_try soup url platform
  = ([], inr (details (or_else jt "Position Not Found")
                      (or_else cn "Company Not Found") platform)).
Proof.
  intros Ht Hc. unfold extract_job_details_try.
  pose proof (cascade_trace soup url title_selectors (or_introl eq_refl)) as T1.
  pose proof (cascade_trace soup url company_selectors (or_intror eq_refl)) as T2.
  destruct (cascade soup url title_selectors) as [t1 r1].
  destruct (cascade soup url company_selectors) as [t2 r2].
  simpl in *. subst. reflexivity.
Qed.

Lemma extract_try_inv (platform : string) (tr : list event) (d : dict) :
  extract_job_details_try soup url platform = (tr, inr d) ->
  exists jt cn,
    snd (cascade soup url title_selectors) = inr jt
    /\ snd (cascade soup url company_selectors) = inr cn
    /\ d = details (or_else jt "Position Not Found")
                   (or_else cn "Company Not Found") platform.
Proof.
  unfold extract_job_details_try. intros H.
  destruct (cascade soup url title_selectors) as [t1 [e1|jt]]; [discriminate|].
  unfold bind at 1 in H.
  destruct (cascade soup url company_selectors) as [t2 [e2|cn]]; [discriminate|].
  simpl in H. inversion H. exists jt, cn. auto.
Qed.

Lemma extract_caught (e : exn) :
  snd (extract_job_details_try soup url (platform_of url)) = inl e ->
  extract_job_details soup url
  = ([], inr (details "Position Not Found" "Company Not Found" (platform_of url))).
Proof.
  intros H. unfold extract_job_details.
  pose proof (extract_try_trace (platform_of url)) as T.
  destruct (extract_job_details_try soup url (platform_of url)) as [tr r].
  simpl in *. subst. reflexivity.
Qed.

Lemma extract_uncaught (d : dict) :
  snd (extract_job_details_try soup url (platform_of url)) = inr d ->
  extract_job_details soup url = ([], inr d).
Proof.
  intros H. unfold extract_job_details.
  pose proof (extract_try_trace (platform_of url)) as T.
  destruct (extract_job_details_try soup url (platform_of url)) as [tr r].
  simpl in *. subst. reflexivity.
Qed.

Lemma extract_job_details_returns :
  exists title company,
    extract_job_details soup url
    = ([], inr (details title company (platform_of url))).
Proof.
  destruct (extract_job_details_try soup url (platform_of url)) as [tr [e|d]] eqn:E.
  - exists "Position Not Found", "Company Not Found".
    apply (extract_caught e). now rewrite E.
  - destruct (extract_try_inv _ _ _ E) as (jt & cn & _ & _ & ->).
    eexists _, _. apply extract_uncaught. now rewrite E.
Qed.

Lemma cascade_evaluates (table : list (string * list string)) :
  table = title_selectors \/ table = company_selectors ->
  Forall (fun sel => exists r, select_one soup sel = inr r) (flat_map snd table) ->
  exists r, cascade soup url table = ([], inr r).
Proof.
  intros known Hev.
  assert (forall key, Forall (fun sel => exists r, select_one soup sel = inr r)
                        (list_for key table)) as Hkey.
  { intros key. apply Forall_forall. intros sel Hin.
    apply (proj1 (Forall_forall _ _) Hev). now apply (list_for_incl table key). }
  assert (Forall (fun sel => exists r, select_one soup sel = inr r)
            (platform_list table url)) as Hp.
  { unfold platform_list. destruct (PyStr.contains url "indeed.com"); auto.
    destruct (PyStr.contains url "linkedin.com"); auto. }
  destruct (first_match_or_none soup _ Hp) as [[t Ht] | Hnone].
  - exists (Some t). now apply cascade_platform_match.
  - destruct (first_match_or_none soup _ (Hkey "generic")) as [[t Ht] | Hg].
    + exists (Some t). now apply cascade_generic_match.
    + exists None. now apply cascade_no_match.
Qed.

Lemma cascade_raises_when_engine_fails (table : list (string * list string)) :
  table = title_selectors \/ table = company_selectors ->
  (forall sel, exists e, select_one soup sel = inl e) ->
  exists e, snd (cascade soup url table) = inl e.
Proof.
  intros known Hfail. unfold cascade.
  destruct (PyStr.contains url "indeed.com");
    [|destruct (PyStr.contains url "linkedin.com")];
    destruct known as [-> | ->]; simpl; unfold lift, bind;
    match goal with |- context [select_one soup ?s] =>
      destruct (Hfail s) as [e ->] end;
    simpl; eauto.
Qed.

Lemma extract_search_fails :
  search_fails soup url title_selectors \/ search_fails soup url company_selectors ->
  extract_job_details soup url
  = ([], inr (details "Position Not Found" "Company Not Found" (platform_of url))).
Proof.
  intros [Ht | Hc].
  - destruct (cascade_search_fails soup url title_selectors (or_introl eq_refl) Ht)
      as [e He].
    apply (extract_caught e). unfold extract_job_details_try. now rewrite He.
  - destruct (cascade soup url title_selectors) as [t [e|jt]] eqn:E1.
    + apply (extract_caught e). unfold extract_job_details_try. now rewrite E1.
    + destruct (cascade_search_fails soup url company_selectors (or_intror eq_refl) Hc)
        as [e He].
      apply (extract_caught e). unfold extract_job_details_try.
      rewrite E1. unfold bind at 1. now rewrite He.
Qed.

End Extraction.

(** Claim C6.  For every page and URL, and whatever the library's text
    methods, [extract_job_details] returns a dictionary of job title, company
    name and the platform derived from the URL, never an exception.  As soon
    as the engine raises on a selector that the search for the title or the
    search for the company reaches, both fields are the sentinels
    "Position Not Found" and "Company Not Found", even when a title had been
    found before; so they are whenever the statements under the [try] raise,
    in particular when the engine fails on every selector; and they are also
    when no selector matches anything. *)
Theorem extraction_degrades_to_sentinels :
  forall (str_methods : PyStr.StrMethods) (tag_methods : TagMethods)
         (soup : Soup) (url : string),
    let sentinels :=
      details "Position Not Found" "Company Not Found" (platform_of url) in
    (exists title company,
        extract_job_details soup url
        = ([], inr (details title company (platform_of url))))
    /\ (search_fails soup url title_selectors
        \/ search_fails soup url company_selectors ->
        extract_job_details soup url = ([], inr sentinels))
    /\ (forall e,
           snd (extract_job_details_try soup url (platform_of url)) = inl e ->
           extract_job_details soup url = ([], inr sentinels))
    /\ ((forall sel, exists e, select_one soup sel = inl e) ->
        extract_job_details soup url = ([], inr sentinels))
    /\ ((forall sel, select_one soup sel = inr None) ->
        extract_job_details soup url = ([], inr sentinels)).
Proof.
  intros str_methods tag_methods soup url sentinels. repeat split.
  - apply extract_job_details_returns.
  - apply extract_search_fails.
  - apply extract_caught.
  - intros Hfail.
    destruct (cascade_raises_when_engine_fails soup url title_selectors
                (or_introl eq_refl) Hfail) as [e He].
    apply (extract_caught soup url e).
    unfold extract_job_details_try.
    destruct (cascade soup url title_selectors) as [t r]. simpl in *. now subst.
  - intros Hnone.
    assert (forall sels, no_match soup sels) as Hno.
    { intros sels. apply Forall_forall. intros sel _. left. apply Hnone. }
    apply extract_uncaught.
    rewrite (extract_try_returns soup url _ None None).
    + reflexivity.
    + now rewrite cascade_no_match by auto.
    + now rewrite cascade_no_match by auto.
Qed.

(** The theorem above at a concrete input: a page whose title is found by
    [h1] while the engine raises on every other selector, and an engine that
    raises on every selector. *)
Lemma extraction_degrades_to_sentinels_witness :
  (@first_match ascii_str plain_tags title_only_soup
     (generic_list title_selectors) "Data Analyst"
   /\ @search_fails ascii_str plain_tags title_only_soup
        "https://example.com/jobs/1" company_selectors
   /\ forall sel, exists e, select_one failing_soup sel = inl e)
  /\ @extract_job_details ascii_str plain_tags title_only_soup
       "https://example.com/jobs/1"
     = ([], inr (details "Position Not Found" "Company Not Found" "Other"))
  /\ @extract_job_details ascii_str plain_tags failing_soup
       "https://www.indeed.com/viewjob?jk=1"
     = ([], inr (details "Position Not Found" "Company Not Found" "Indeed")).
Proof.
  assert (@first_match ascii_str plain_tags title_only_soup
            (generic_list title_selectors) "Data Analyst") as Hfound.
  { exists [], "h1", ["h1.job-title"; "div.job-title"; "title"],
      (Tag "h1" [] [inl "Data Analyst"]).
    split; [reflexivity|]. split; [constructor|]. split; [reflexivity|].
    split; [reflexivity | discriminate]. }
  assert (@search_fails ascii_str plain_tags title_only_soup
            "https://example.com/jobs/1" company_selectors) as Hpartial.
  { right. split; [constructor|].
    eexists [], _, _, _. split; [reflexivity|]. split; [constructor | reflexivity]. }
  assert (forall sel, exists e, select_one failing_soup sel = inl e) as Hfail.
  { intros sel. eexists. reflexivity. }
  split; [split; [exact Hfound | split; [exact Hpartial | exact Hfail]]|].
  split.
  - exact (proj1 (proj2 (extraction_degrades_to_sentinels ascii_str plain_tags
                           title_only_soup "https://example.com/jobs/1"))
             (or_intror Hpartial)).
  - exact (proj1 (proj2 (proj2 (proj2 (extraction_degrades_to_sentinels
                                         ascii_str plain_tags failing_soup
                                         "https://www.indeed.com/viewjob?jk=1"))))
             Hfail).
Defined.

(** Claim C4.  When no selector makes the engine raise, and whatever the
    library's [str.strip] and [tag.text] are, the title and the company
    returned by [extract_job_details] each follow the two-tier rule:
    the first selector of the platform's list that yields non-empty trimmed
    text wins; when the platform's list (empty for other sites) yields
    nothing, the first such selector of the generic list wins, so the generic
    match is returned; and only when both yield nothing is the field the
    sentinel. *)
Theorem platform_selectors_then_generic :
  forall (str_methods : PyStr.StrMethods) (tag_methods : TagMethods)
         (soup : Soup) (url : string),
    selectors_evaluate soup ->
    exists title company,
      extract_job_details soup url
      = ([], inr (details title company (platform_of url)))
      /\ resolved soup url title_selectors "Position Not Found" title
      /\ resolved soup url company_selectors "Company Not Found" company.
Proof.
  intros str_methods tag_methods soup url Hev. unfold selectors_evaluate in Hev.
  apply Forall_app in Hev as [Ht Hc].
  destruct (cascade_evaluates soup url title_selectors (or_introl eq_refl) Ht)
    as [jt Hjt].
  destruct (cascade_evaluates soup url company_selectors (or_intror eq_refl) Hc)
    as [cn Hcn].
  exists (or_else jt "Position Not Found"), (or_else cn "Company Not Found").
  repeat split.
  - apply extract_uncaught.
    rewrite (extract_try_returns soup url _ jt cn); [reflexivity | |].
    + now rewrite Hjt.
    + now rewrite Hcn.
  - apply cascade_resolved; auto. now rewrite Hjt.
  - apply cascade_resolved; auto. now rewrite Hjt.
  - apply cascade_resolved; auto. now rewrite Hjt.
  - apply cascade_resolved; auto. now rewrite Hcn.
  - apply cascade_resolved; auto. now rewrite Hcn.
  - apply cascade_resolved; auto. now rewrite Hcn.
Qed.

Lemma generic_page_evaluates : selectors_evaluate (SoupSieve.soup_of generic_page).
Proof.
  unfold selectors_evaluate. simpl.
  repeat (constructor; [eexists; reflexivity|]). constructor.
Qed.

(** The theorem above at a concrete input. *)
Lemma platform_selectors_then_generic_witness :
  selectors_evaluate (SoupSieve.soup_of generic_page)
  /\ exists title company,
      @extract_job_details ascii_str plain_tags (SoupSieve.soup_of generic_page)
        "https://www.linkedin.com/jobs/view/123"
      = ([], inr (details title company
                    (platform_of "https://www.linkedin.com/jobs/view/123")))
      /\ @resolved ascii_str plain_tags (SoupSieve.soup_of generic_page)
           "https://www.linkedin.com/jobs/view/123"
           title_selectors "Position Not Found" title
      /\ @resolved ascii_str plain_tags (SoupSieve.soup_of generic_page)
           "https://www.linkedin.com/jobs/view/123"
           company_selectors "Company Not Found" company.
Proof.
  split; [exact generic_page_evaluates|].
  apply platform_selectors_then_generic. exact generic_page_evaluates.
Defined.

(** A page only generic selectors match, fetched from LinkedIn. *)
Example generic_match_on_linkedin :
  @extract_job_details ascii_str plain_tags (SoupSieve.soup_of generic_page)
    "https://www.linkedin.com/jobs/view/123"
  = ([], inr (details "Data Analyst" "Initech" "LinkedIn")).
Proof. reflexivity. Qed.

(** The end-to-end scenario: a LinkedIn title and no company markup. *)
Example linkedin_title_only :
  @extract_job_details ascii_str plain_tags (SoupSieve.soup_of linkedin_page)
    "https://www.linkedin.com/jobs/view/123"
  = ([], inr (details "Senior Engineer" "Company Not Found" "LinkedIn")).
Proof. reflexivity. Qed.

(** ** Fetching and scraping *)

Section Scrape.
Context {str_methods : PyStr.StrMethods} {tag_methods : TagMethods}.
Variable urlparse_scheme : string -> exn + string.
Variable requests_get : string -> exn + http_response.
Variable BeautifulSoup : string -> Soup.
Variable job_url : string.

Lemma scrape_invalid_url :
  job_url = EmptyString \/ urlparse_scheme job_url = inr EmptyString ->
  scrape_job_description urlparse_scheme requests_get BeautifulSoup job_url
  = ([], inr (VDict [("success", VBool false);
                         ("error", VStr "Invalid URL provided")])).
Proof.
  unfold scrape_job_description.
  intros [-> | H]; [reflexivity|].
  destruct job_url; [reflexivity|]. simpl PyStr.nonempty. cbv iota.
  simpl negb. cbv iota. rewrite H. reflexivity.
Qed.

Hypothesis url_given : job_url <> EmptyString.
Variable scheme : string.
Hypothesis url_parses : urlparse_scheme job_url = inr scheme.
Hypothesis scheme_given : scheme <> EmptyString.

Lemma scrape_valid_url :
  scrape_job_description urlparse_scheme requests_get BeautifulSoup job_url =
    match requests_get job_url with
    | inl e =>
        ([EvHttpGet job_url],
         inr (manual_entry
                (if is_RequestException e
                 then "Unable to fetch job description. Please enter it manually."
                 else "Error accessing job posting. Please enter the job description manually.")))
    | inr response =>
        if (status_code response =? 403)%Z
        then ([EvHttpGet job_url],
              inr (manual_entry
                "Unable to automatically fetch job description. Please enter the job description manually."))
        else let (t, r) := handled (after_request BeautifulSoup job_url response) in
             (EvHttpGet job_url :: t, r)
    end.
Proof.
  assert (PyStr.nonempty job_url = true) as Hu
      by (destruct job_url; [contradiction | reflexivity]).
  assert (PyStr.nonempty scheme = true) as Hs
      by (destruct scheme; [contradiction | reflexivity]).
  unfold scrape_job_description. rewrite Hu, url_parses.
  cbn [negb]. unfold lift at 1. unfold bind at 2. unfold ret at 1.
  rewrite Hs. cbn [negb app]. unfold bind at 1.
  unfold call. unfold bind at 1.
  destruct (requests_get job_url) as [e|response].
  - unfold try_except. destruct (is_RequestException e); reflexivity.
  - destruct (status_code response =? 403)%Z; [reflexivity|].
    unfold handled, after_request. cbn [app].
    match goal with |- context [Py.bind (raise_for_status response) ?k] =>
      generalize (Py.bind (raise_for_status response) k) end.
    intros [t [e|v]]; unfold try_except;
      [destruct (is_RequestException e)|]; cbn; rewrite ?app_nil_r; reflexivity.
Qed.

End Scrape.

Lemma raise_for_status_passes (response : http_response) :
  is_error_status (status_code response) = false ->
  raise_for_status response = ([], inr tt).
Proof.
  unfold is_error_status, raise_for_status. intros H.
  destruct (Z.leb_spec 400 (status_code response));
    destruct (Z.ltb_spec (status_code response) 500);
    destruct (Z.leb_spec 500 (status_code response));
    destruct (Z.ltb_spec (status_code response) 600);
    cbn [andb] in *; try reflexivity; try discriminate; lia.
Qed.

Lemma raise_for_status_raises (response : http_response) :
  is_error_status (status_code response) = true ->
  exists msg, raise_for_status response = ([], inl (Exn HTTPError msg)).
Proof.
  unfold is_error_status, raise_for_status. intros H.
  destruct (Z.leb_spec 400 (status_code response));
    destruct (Z.ltb_spec (status_code response) 500);
    destruct (Z.leb_spec 500 (status_code response));
    destruct (Z.ltb_spec (status_code response) 600);
    cbn [andb] in *; try (eexists; reflexivity); try discriminate; lia.
Qed.

Lemma not_error_status_not_403 (response : http_response) :
  is_error_status (status_code response) = false ->
  (status_code response =? 403)%Z = false.
Proof.
  intros H. destruct (Z.eqb_spec (status_code response) 403) as [E|_];
    [rewrite E in H; discriminate | reflexivity].
Qed.

Lemma first_element_trace (soup : Soup) (selectors : list string) :
  fst (first_element soup selectors) = [].
Proof.
  induction selectors as [|sel sels IH]; simpl; [reflexivity|].
  unfold lift, bind. destruct (select_one soup sel) as [e|[el|]]; simpl; auto.
  destruct (first_element soup sels). simpl in *. now subst.
Qed.

Lemma first_element_found (soup : Soup) (before after : list string)
      (selector : string) (el : tag) :
  Forall (fun s => select_one soup s = inr None) before ->
  select_one soup selector = inr (Some el) ->
  first_element soup (before ++ selector :: after) = ([], inr (Some el)).
Proof.
  intros Hb Hs. induction Hb as [|s0 before Hs0 _ IH]; simpl; unfold lift, bind.
  - now rewrite Hs.
  - rewrite Hs0. simpl. now rewrite IH.
Qed.

Section AfterRequest.
Context {str_methods : PyStr.StrMethods} {tag_methods : TagMethods}.
Variable BeautifulSoup : string -> Soup.
Variable job_url : string.
Variable response : http_response.

Lemma after_request_trace :
  fst (after_request BeautifulSoup job_url response) = [].
Proof.
  unfold after_request. apply bind_trace_nil.
  - unfold raise_for_status.
    destruct ((400 <=? status_code response)%Z && (status_code response <? 500)%Z);
      [reflexivity|].
    destruct ((500 <=? status_code response)%Z && (status_code response <? 600)%Z);
      reflexivity.
  - intros _. apply bind_trace_nil.
    + destruct (extract_job_details_returns (BeautifulSoup (text response)) job_url)
        as (t & c & ->). reflexivity.
    + intros jd. apply bind_trace_nil; [apply first_element_trace|].
      intros [el|]; [reflexivity|].
      destruct (find (BeautifulSoup (text response)) mentions_description);
        reflexivity.
Qed.

Lemma after_request_soft (v : value) :
  snd (after_request BeautifulSoup job_url response) = inr v ->
  exists d, v = VDict d /\ dict_get d "success" = Some (VBool true).
Proof.
  unfold after_request.
  destruct (raise_for_status response) as [t0 [e0|[]]]; [discriminate|].
  unfold bind at 1.
  destruct (extract_job_details_returns (BeautifulSoup (text response)) job_url)
    as (t & c & ->).
  unfold bind at 1.
  destruct (first_element (BeautifulSoup (text response)) description_selectors)
    as [t1 [e1|[el|]]]; [discriminate | |].
  - simpl. intros H. inversion H. eexists. split; reflexivity.
  - destruct (find (BeautifulSoup (text response)) mentions_description);
      simpl; intros H; inversion H; eexists; split; reflexivity.
Qed.

Lemma handled_after_request_soft :
  exists d,
    handled (after_request BeautifulSoup job_url response) = ([], inr (VDict d))
    /\ dict_get d "success" = Some (VBool true).
Proof.
  pose proof after_request_trace as Ht. pose proof after_request_soft as Hv.
  unfold handled, try_except.
  destruct (after_request BeautifulSoup job_url response) as [t [e|v]];
    simpl in *; subst.
  - destruct (is_RequestException e); simpl; eexists; split; reflexivity.
  - destruct (Hv v eq_refl) as (d & -> & Hd). now exists d.
Qed.

Lemma handled_after_error_status :
  is_error_status (status_code response) = true ->
  handled (after_request BeautifulSoup job_url response)
  = ([], inr (manual_entry
                "Unable to fetch job description. Please enter it manually.")).
Proof.
  intros H. destruct (raise_for_status_raises response H) as [msg Hr].
  unfold handled, after_request. rewrite Hr. reflexivity.
Qed.

Lemma after_request_any_status :
  is_error_status (status_code response) = false ->
  after_request BeautifulSoup job_url response
  = after_request BeautifulSoup job_url (HttpResponse 200 (text response)).
Proof.
  intros H. unfold after_request.
  rewrite (raise_for_status_passes response H).
  now rewrite (raise_for_status_passes (HttpResponse 200 (text response)) eq_refl).
Qed.

End AfterRequest.

(** Claim C7.  For an empty URL, or one whose parse has an empty scheme,
    [scrape_job_description] returns success false with the error "Invalid
    URL provided", and its trace is empty: no request is made. *)
Theorem invalid_url_fails_without_request :
  forall (str_methods : PyStr.StrMethods) (tag_methods : TagMethods)
         (urlparse_scheme : string -> exn + string)
         (requests_get : string -> exn + http_response)
         (BeautifulSoup : string -> Soup) (job_url : string),
    job_url = EmptyString \/ urlparse_scheme job_url = inr EmptyString ->
    scrape_job_description urlparse_scheme requests_get BeautifulSoup job_url
    = ([], inr (VDict [("success", VBool false);
                       ("error", VStr "Invalid URL provided")])).
Proof. intros. now apply scrape_invalid_url. Qed.

(** The theorem above at a concrete input. *)
Lemma invalid_url_fails_without_request_witness :
  ("www.example.com/jobs/1" = EmptyString
   \/ urlparse_scheme "www.example.com/jobs/1" = inr EmptyString)
  /\ @scrape_job_description ascii_str plain_tags
       urlparse_scheme (answers 200 described_html) html_parser
       "www.example.com/jobs/1"
     = ([], inr (VDict [("success", VBool false);
                        ("error", VStr "Invalid URL provided")])).
Proof.
  split; [right; reflexivity|].
  apply (invalid_url_fails_without_request ascii_str plain_tags). right. reflexivity.
Defined.

(** Claim C5, as amended.  Once the URL is accepted, [scrape_job_description]
    makes one request and always returns success true, never a hard failure.
    When the status is 403, or any other status from 400 to 599, or when the
    request raises, the result carries [requires_manual_entry] true and a
    message asking for manual entry.  A response with any other status (such
    as a 3xx that was not followed) is scraped like a 2xx response: the
    result is the one a response with status 200 and the same body gives. *)
Theorem fetch_failures_ask_for_manual_entry :
  forall (str_methods : PyStr.StrMethods) (tag_methods : TagMethods)
         (urlparse_scheme : string -> exn + string)
         (requests_get : string -> exn + http_response)
         (BeautifulSoup : string -> Soup) (job_url scheme : string),
    job_url <> EmptyString ->
    urlparse_scheme job_url = inr scheme ->
    scheme <> EmptyString ->
    let result :=
      scrape_job_description urlparse_scheme requests_get BeautifulSoup job_url in
    (exists d, result = ([EvHttpGet job_url], inr (VDict d))
               /\ dict_get d "success" = Some (VBool true))
    /\ (forall response,
           requests_get job_url = inr response ->
           status_code response = 403%Z \/ is_error_status (status_code response) = true ->
           exists v, result = ([EvHttpGet job_url], inr v) /\ asks_for_manual_entry v)
    /\ (forall e,
           requests_get job_url = inl e ->
           exists v, result = ([EvHttpGet job_url], inr v) /\ asks_for_manual_entry v)
    /\ (forall response,
           requests_get job_url = inr response ->
           is_error_status (status_code response) = false ->
           result
           = scrape_job_description urlparse_scheme
               (fun _ => inr (HttpResponse 200 (text response)))
               BeautifulSoup job_url).
Proof.
  intros str_methods tag_methods up rg bs url scheme Hu Hp Hs result.
  unfold result.
  rewrite (scrape_valid_url up rg bs url Hu scheme Hp Hs).
  repeat split.
  - destruct (rg url) as [e|response].
    + eexists. split; reflexivity.
    + destruct (status_code response =? 403)%Z.
      * eexists. split; reflexivity.
      * destruct (handled_after_request_soft bs url response) as (d & -> & Hd).
        now exists d.
  - intros response -> Hstatus.
    destruct (status_code response =? 403)%Z eqn:E.
    + eexists. split; [reflexivity|]. eexists. split; reflexivity.
    + destruct Hstatus as [H403 | Herr]; [rewrite H403 in E; discriminate|].
      rewrite (handled_after_error_status bs url response Herr).
      eexists. split; [reflexivity|]. eexists. split; reflexivity.
  - intros e ->. eexists. split; [reflexivity|].
    destruct (is_RequestException e); eexists; split; reflexivity.
  - intros response -> Herr.
    rewrite (scrape_valid_url up (fun _ => inr (HttpResponse 200 (text response)))
               bs url Hu scheme Hp Hs).
    rewrite (not_error_status_not_403 response Herr).
    change (status_code (HttpResponse 200 (text response)) =? 403)%Z with false.
    now rewrite (after_request_any_status bs url response Herr).
Qed.

(** The theorem above at a concrete input: a 503 response, and a 300
    response, which is scraped as the same body with status 200 is. *)
Lemma fetch_failures_ask_for_manual_entry_witness :
  ("https://example.com/jobs/1" <> EmptyString
   /\ urlparse_scheme "https://example.com/jobs/1" = inr "https"
   /\ "https" <> EmptyString
   /\ answers 503 "Service Unavailable" "https://example.com/jobs/1"
      = inr (HttpResponse 503 "Service Unavailable")
   /\ (status_code (HttpResponse 503 "Service Unavailable") = 403%Z
       \/ is_error_status (status_code (HttpResponse 503 "Service Unavailable")) = true)
   /\ answers 300 described_html "https://example.com/jobs/1"
      = inr (HttpResponse 300 described_html)
   /\ is_error_status (status_code (HttpResponse 300 described_html)) = false)
  /\ (exists v,
        @scrape_job_description ascii_str plain_tags
          urlparse_scheme (answers 503 "Service Unavailable") html_parser
          "https://example.com/jobs/1"
        = ([EvHttpGet "https://example.com/jobs/1"], inr v)
        /\ asks_for_manual_entry v)
  /\ @scrape_job_description ascii_str plain_tags
       urlparse_scheme (answers 300 described_html) html_parser
       "https://example.com/jobs/1"
     = @scrape_job_description ascii_str plain_tags
         urlparse_scheme (fun _ => inr (HttpResponse 200 described_html)) html_parser
         "https://example.com/jobs/1".
Proof.
  assert ("https://example.com/jobs/1" <> EmptyString) as H1 by discriminate.
  assert ("https" <> EmptyString) as H2 by discriminate.
  split; [repeat split; try assumption; try reflexivity; right; reflexivity|].
  split.
  - exact (proj1 (proj2 (fetch_failures_ask_for_manual_entry
                           ascii_str plain_tags
                           urlparse_scheme (answers 503 "Service Unavailable") html_parser
                           "https://example.com/jobs/1" "https" H1 eq_refl H2))
             (HttpResponse 503 "Service Unavailable") eq_refl (or_intror eq_refl)).
  - exact (proj2 (proj2 (proj2 (fetch_failures_ask_for_manual_entry
                                  ascii_str plain_tags
                                  urlparse_scheme (answers 300 described_html) html_parser
                                  "https://example.com/jobs/1" "https" H1 eq_refl H2)))
             (HttpResponse 300 described_html) eq_refl eq_refl).
Defined.

(** Claim C5 as stated fails: a response with the non-2xx status 300 whose
    body holds a description is scraped, and the result carries no
    [requires_manual_entry] flag. *)
Lemma redirect_status_is_scraped :
  @scrape_job_description ascii_str plain_tags urlparse_scheme (answers 300 described_html) html_parser
    "https://example.com/jobs/1"
  = ([EvHttpGet "https://example.com/jobs/1"],
     inr (VDict [("success", VBool true);
                 ("description", VStr "Build dashboards.");
                 ("job_title", VStr "Data Analyst");
                 ("company_name", VStr "Company Not Found");
                 ("platform", VStr "Other")]))
  /\ dict_get [("success", VBool true);
               ("description", VStr "Build dashboards.");
               ("job_title", VStr "Data Analyst");
               ("company_name", VStr "Company Not Found");
               ("platform", VStr "Other")] "requires_manual_entry" = None.
Proof. split; reflexivity. Qed.

(** The first description selector that matches an element decides the
    result, whatever the element's text. *)
Lemma first_description_element_decides :
  forall (str_methods : PyStr.StrMethods) (tag_methods : TagMethods)
         (urlparse_scheme : string -> exn + string)
         (requests_get : string -> exn + http_response)
         (BeautifulSoup : string -> Soup) (job_url scheme : string)
         (response : http_response)
         (before after : list string) (selector : string) (el : tag),
    job_url <> EmptyString ->
    urlparse_scheme job_url = inr scheme ->
    scheme <> EmptyString ->
    requests_get job_url = inr response ->
    is_error_status (status_code response) = false ->
    description_selectors = before ++ selector :: after ->
    Forall (fun s => select_one (BeautifulSoup (text response)) s = inr None) before ->
    select_one (BeautifulSoup (text response)) selector = inr (Some el) ->
    exists title company,
      let d := [("success", VBool true);
                ("description", VStr (get_text_strip el));
                ("job_title", VStr title);
                ("company_name", VStr company);
                ("platform", VStr (platform_of job_url))] in
      scrape_job_description urlparse_scheme requests_get BeautifulSoup job_url
      = ([EvHttpGet job_url], inr (VDict d))
      /\ dict_get d "requires_manual_entry" = None
      /\ (get_text_strip el = EmptyString ->
          dict_get d "description" = Some (VStr EmptyString)).
Proof.
  intros str_methods tag_methods up rg bs url scheme response before after
         selector el Hu Hp Hs Hr Herr Hsel Hb Hel.
  rewrite (scrape_valid_url up rg bs url Hu scheme Hp Hs), Hr.
  rewrite (not_error_status_not_403 response Herr).
  unfold handled, after_request.
  rewrite (raise_for_status_passes response Herr).
  destruct (extract_job_details_returns (bs (text response)) url)
    as (title & company & ->).
  rewrite Hsel, (first_element_found _ before after selector el Hb Hel).
  exists title, company. repeat split.
  intros Hblank. simpl. now rewrite Hblank.
Qed.

(** Claim C10.  When the request is answered with a status that is not an
    error status, the first selector of the description list that matches an
    element decides the description, whatever that element's text: the result
    is success true with what [get_text(strip=True)] gives for that element
    and no [requires_manual_entry] key, and the description is the empty
    string when that is empty, as it is for an element that holds only white
    space.  And there is such a page: scraping it returns success true with
    an empty description and no [requires_manual_entry] key. *)
Theorem first_description_element_wins_even_blank :
  (forall (str_methods : PyStr.StrMethods) (tag_methods : TagMethods)
          (urlparse_scheme : string -> exn + string)
          (requests_get : string -> exn + http_response)
          (BeautifulSoup : string -> Soup) (job_url scheme : string)
          (response : http_response)
          (before after : list string) (selector : string) (el : tag),
      job_url <> EmptyString ->
      urlparse_scheme job_url = inr scheme ->
      scheme <> EmptyString ->
      requests_get job_url = inr response ->
      is_error_status (status_code response) = false ->
      description_selectors = before ++ selector :: after ->
      Forall (fun s => select_one (BeautifulSoup (text response)) s = inr None) before ->
      select_one (BeautifulSoup (text response)) selector = inr (Some el) ->
      exists title company,
        let d := [("success", VBool true);
                  ("description", VStr (get_text_strip el));
                  ("job_title", VStr title);
                  ("company_name", VStr company);
                  ("platform", VStr (platform_of job_url))] in
        scrape_job_description urlparse_scheme requests_get BeautifulSoup job_url
        = ([EvHttpGet job_url], inr (VDict d))
        /\ dict_get d "requires_manual_entry" = None
        /\ (get_text_strip el = EmptyString ->
            dict_get d "description" = Some (VStr EmptyString)))
  /\ (exists (job_url : string) (d : dict),
         @scrape_job_description ascii_str plain_tags Fixtures.urlparse_scheme
           (answers 200 blank_description_html) html_parser job_url
         = ([EvHttpGet job_url], inr (VDict d))
         /\ dict_get d "success" = Some (VBool true)
         /\ dict_get d "description" = Some (VStr EmptyString)
         /\ dict_get d "requires_manual_entry" = None).
Proof.
  split.
  - exact first_description_element_decides.
  - exists "https://example.com/jobs/1".
    eexists. repeat split; reflexivity.
Qed.

(** The theorem above at a concrete input. *)
Lemma first_description_element_wins_even_blank_witness :
  ("https://example.com/jobs/1" <> EmptyString
   /\ urlparse_scheme "https://example.com/jobs/1" = inr "https"
   /\ "https" <> EmptyString
   /\ answers 200 blank_description_html "https://example.com/jobs/1"
      = inr (HttpResponse 200 blank_description_html)
   /\ is_error_status (status_code (HttpResponse 200 blank_description_html)) = false
   /\ description_selectors = [] ++ "div.job-description" :: tl description_selectors
   /\ Forall (fun s => select_one (html_parser blank_description_html) s = inr None) []
   /\ select_one (html_parser blank_description_html) "div.job-description"
      = inr (Some blank_description)
   /\ @get_text_strip plain_tags blank_description = EmptyString)
  /\ exists title company,
      let d := [("success", VBool true);
                ("description", VStr (@get_text_strip plain_tags blank_description));
                ("job_title", VStr title);
                ("company_name", VStr company);
                ("platform", VStr (platform_of "https://example.com/jobs/1"))] in
      @scrape_job_description ascii_str plain_tags
        urlparse_scheme (answers 200 blank_description_html)
        html_parser "https://example.com/jobs/1"
      = ([EvHttpGet "https://example.com/jobs/1"], inr (VDict d))
      /\ dict_get d "requires_manual_entry" = None
      /\ (@get_text_strip plain_tags blank_description = EmptyString ->
          dict_get d "description" = Some (VStr EmptyString)).
Proof.
  assert ("https://example.com/jobs/1" <> EmptyString) as H1 by discriminate.
  assert ("https" <> EmptyString) as H2 by discriminate.
  split.
  - repeat split; try assumption; try reflexivity. constructor.
  - exact (proj1 first_description_element_wins_even_blank
             ascii_str plain_tags
             urlparse_scheme (answers 200 blank_description_html) html_parser
             "https://example.com/jobs/1" "https" (HttpResponse 200 blank_description_html)
             [] (tl description_selectors) "div.job-description" blank_description
             H1 eq_refl H2 eq_refl eq_refl eq_refl (Forall_nil _) eq_refl).
Defined.

(** The page with a blank description element, scraped. *)
Example blank_description_scraped :
  @scrape_job_description ascii_str plain_tags urlparse_scheme (answers 200 blank_description_html)
    html_parser "https://example.com/jobs/1"
  = ([EvHttpGet "https://example.com/jobs/1"],
     inr (VDict [("success", VBool true);
                 ("description", VStr EmptyString);
                 ("job_title", VStr "Data Analyst");
                 ("company_name", VStr "Company Not Found");
                 ("platform", VStr "Other")])).
Proof. reflexivity. Qed.

(** A timed-out request and a 403 both ask for manual entry. *)
Example timeout_asks_for_manual_entry :
  @scrape_job_description ascii_str plain_tags urlparse_scheme times_out html_parser
    "https://example.com/jobs/1"
  = ([EvHttpGet "https://example.com/jobs/1"],
     inr (manual_entry "Unable to fetch job description. Please enter it manually.")).
Proof. reflexivity. Qed.

Example forbidden_asks_for_manual_entry :
  @scrape_job_description ascii_str plain_tags urlparse_scheme (answers 403 "Forbidden") html_parser
    "https://example.com/jobs/1"
  = ([EvHttpGet "https://example.com/jobs/1"],
     inr (manual_entry
       "Unable to automatically fetch job description. Please enter the job description manually.")).
Proof. reflexivity. Qed.

(* ===================================================================== *)
(** * Further properties of the analyser *)
(* ===================================================================== *)

Import GenerateCoverLetter.

(** ** More on the assembled report *)

Lemma ensured_job_title_true (d : dict) :
  truthy (dict_get_or_none (ensured d) "job_title") = true.
Proof.
  unfold dict_get_or_none. rewrite ensured_job_title.
  destruct (truthy (dict_get_or_none d "job_title")) eqn:E; [|reflexivity].
  unfold dict_get_or_none in E.
  destruct (dict_get d "job_title"); [assumption | discriminate].
Qed.

Lemma ensured_company_name_true (d : dict) :
  truthy (dict_get_or_none (ensured d) "company_name") = true.
Proof.
  unfold dict_get_or_none. rewrite ensured_company_name.
  destruct (truthy (dict_get_or_none d "company_name")) eqn:E; [|reflexivity].
  unfold dict_get_or_none in E.
  destruct (dict_get d "company_name"); [assumption | discriminate].
Qed.

Lemma default_if_false_noop (d : dict) (k : string) (v : value) :
  truthy (dict_get_or_none d k) = true -> default_if_false d k v = d.
Proof. intros H. unfold default_if_false. now rewrite H. Qed.

(** The loop body changes nothing in a dictionary it has already been
    through. *)
Lemma ensured_idempotent (d : dict) : ensured (ensured d) = ensured d.
Proof.
  unfold ensured at 1.
  rewrite (default_if_false_noop (ensured d) "recommendations")
    by apply ensured_recommendations_true.
  rewrite (default_if_false_noop (ensured d) "job_title")
    by apply ensured_job_title_true.
  apply default_if_false_noop, ensured_company_name_true.
Qed.

Lemma ensured_entries_are_dicts (items items' : list value) :
  Forall2 ensured_entry items items' ->
  exists l, items = map VDict l /\ items' = map VDict (map ensured l).
Proof.
  induction 1 as [|x x' xs xs' [e [-> ->]] _ (l & -> & ->)].
  - exists []. split; reflexivity.
  - exists (e :: l). split; reflexivity.
Qed.

(** What the loop can leave behind: the list of updated objects, or an
    empty string or empty object it had nothing to visit in. *)
Lemma ensure_all_shape (jobs jobs' : value) (t : list event) :
  ensure_all jobs = (t, inr jobs') ->
  (exists l, jobs = VList (map VDict l) /\ jobs' = VList (map VDict (map ensured l)))
  \/ (jobs' = jobs /\ (jobs = VStr EmptyString \/ jobs = VDict [])).
Proof.
  intros H. destruct jobs; try (simpl in H; discriminate).
  - right. unfold ensure_all in H. simpl in H.
    destruct s as [|c s]; simpl in H; [|discriminate].
    inversion H. auto.
  - left. unfold ensure_all in H. simpl in H.
    destruct (for_each ensure_fields l) as [t1 [e|r]] eqn:E; simpl in H;
      [discriminate|].
    inversion H; subst. apply for_each_inv in E as [_ HF].
    destruct (ensured_entries_are_dicts _ _ HF) as (l0 & -> & ->).
    now exists l0.
  - right. unfold ensure_all in H. simpl in H.
    destruct d as [|[k v] d]; simpl in H; [|discriminate].
    inversion H. auto.
Qed.

(** Property X1.  In every report [generate_analysis] returns with success,
    each job entry is a dictionary whose recommendations, job title and
    company name are all true values, and running the defaulting loop again
    over the emitted entries changes nothing. *)
Theorem emitted_report_is_complete_and_stable :
  forall (json_loads : string -> exn + value)
         (generate_content : string -> value -> exn + response)
         (resume_content : string) (job_links jobs' : value),
    snd (generate_analysis json_loads generate_content resume_content job_links)
      = inr (success "jobs" jobs') ->
    Forall complete_entry (entries jobs')
    /\ ensure_all jobs' = ([], inr jobs').
Proof.
  intros jl gc rc links jobs' H.
  destruct (generate_analysis_success_inv _ _ _ _ _ H)
    as (text & group & d & jobs & _ & _ & _ & _ & Hens).
  destruct (ensure_all jobs) as [t r] eqn:E. simpl in Hens. subst r.
  destruct (ensure_all_shape _ _ _ E) as [(l & -> & ->) | [-> [-> | ->]]].
  - split.
    + simpl. clear E H. induction l as [|e l IH]; simpl; constructor.
      * exists (ensured e).
        split; [reflexivity|].
        split; [apply ensured_recommendations_true|].
        split; [apply ensured_job_title_true | apply ensured_company_name_true].
      * exact IH.
    + rewrite ensure_all_dicts. do 3 f_equal.
      clear E H. induction l as [|e l IH]; simpl; [reflexivity|].
      now rewrite ensured_idempotent, IH.
  - split; [constructor | reflexivity].
  - split; [constructor | reflexivity].
Qed.

(** The theorem above at a concrete input. *)
Lemma emitted_report_is_complete_and_stable_witness :
  snd (generate_analysis json_loads (says two_jobs_text) "resume" (VList []))
    = inr (success "jobs" (VList (map VDict (map ensured two_jobs))))
  /\ Forall complete_entry (entries (VList (map VDict (map ensured two_jobs))))
  /\ ensure_all (VList (map VDict (map ensured two_jobs)))
     = ([], inr (VList (map VDict (map ensured two_jobs)))).
Proof.
  split; [reflexivity|].
  apply (emitted_report_is_complete_and_stable
           json_loads (says two_jobs_text) "resume" (VList [])).
  reflexivity.
Defined.

Lemma for_each_stops_at_non_dict (before : list dict) (bad : value)
      (after : list value) :
  is_dict bad = false ->
  for_each ensure_fields (map VDict before ++ bad :: after)
  = ([], inl (Exn AttributeError
                ("'" ++ type_name bad ++ "' object has no attribute 'get'")%string)).
Proof.
  intros Hbad. induction before as [|e before IH]; simpl.
  - destruct bad; try discriminate; reflexivity.
  - rewrite ensure_fields_dict. unfold bind at 1. now rewrite IH.
Qed.

(** Property X2.  When the list under [jobs] holds an entry that is not a
    dictionary, after any number of dictionaries, [generate_analysis] returns
    no partial report: [job.get] raises, and the result is the failure
    "Error generating analysis: '<type>' object has no attribute 'get'",
    naming the entry's type. *)
Theorem one_malformed_entry_rejects_the_report :
  forall (json_loads : string -> exn + value)
         (generate_content : string -> value -> exn + response)
         (resume_content : string) (job_links : value)
         (text group : string) (d : dict)
         (before : list dict) (bad : value) (after : list value),
    generate_content resume_content job_links = inr (Response (inr text)) ->
    re_search_braces text = Some group ->
    json_loads group = inr (VDict d) ->
    dict_get d "jobs" = Some (VList (map VDict before ++ bad :: after)) ->
    is_dict bad = false ->
    generate_analysis json_loads generate_content resume_content job_links
    = ([EvGenerate],
       inr (failure ("Error generating analysis: '" ++ type_name bad
                     ++ "' object has no attribute 'get'")%string)).
Proof.
  intros jl gc rc links text group d before bad after Hgen Hspan Hjl Hjobs Hbad.
  rewrite (generate_analysis_span _ _ _ _ _ _ Hgen Hspan), Hjl. simpl.
  unfold dict_contains, dict_get_or_none. rewrite Hjobs. simpl.
  unfold ensure_all. simpl. unfold bind at 1. simpl.
  rewrite (for_each_stops_at_non_dict before bad after Hbad). reflexivity.
Qed.

(** The theorem above at a concrete input. *)
Lemma one_malformed_entry_rejects_the_report_witness :
  (says MoreFixtures.mixed_entries_text "resume" (VList [])
   = inr (Response (inr MoreFixtures.mixed_entries_text))
   /\ re_search_braces MoreFixtures.mixed_entries_text
      = Some MoreFixtures.mixed_entries_text
   /\ MoreFixtures.json_loads MoreFixtures.mixed_entries_text
      = inr (VDict [("jobs", VList [VDict [("job_title", VStr "Developer")];
                                    VStr "see above"])])
   /\ is_dict (VStr "see above") = false)
  /\ generate_analysis MoreFixtures.json_loads
       (says MoreFixtures.mixed_entries_text) "resume" (VList [])
     = ([EvGenerate],
        inr (failure "Error generating analysis: 'str' object has no attribute 'get'")).
Proof.
  split; [repeat split; reflexivity|].
  apply (one_malformed_entry_rejects_the_report
           MoreFixtures.json_loads (says MoreFixtures.mixed_entries_text)
           "resume" (VList [])
           MoreFixtures.mixed_entries_text MoreFixtures.mixed_entries_text
           [("jobs", VList [VDict [("job_title", VStr "Developer")];
                            VStr "see above"])]
           [[("job_title", VStr "Developer")]] (VStr "see above") []);
    reflexivity.
Defined.

(** What [generate_analysis] can return. *)
Lemma generate_analysis_outcomes :
  forall (json_loads : string -> exn + value)
         (generate_content : string -> value -> exn + response)
         (resume_content : string) (job_links : value),
  exists v,
    generate_analysis json_loads generate_content resume_content job_links
    = ([EvGenerate], inr v)
    /\ ((exists jobs, v = success "jobs" jobs)
        \/ v = failure "No response from AI model"
        \/ v = failure "Invalid response format"
        \/ v = failure "Invalid response structure"
        \/ exists e, v = failure ("Error generating analysis: " ++ str e)%string).
Proof.
  intros jl gc rc links.
  destruct (gc rc links) as [e|[|[e|text]]] eqn:Hgen.
  - eexists. split.
    + unfold generate_analysis, call, try_except. rewrite Hgen. reflexivity.
    + do 4 right. now exists e.
  - eexists. split.
    + unfold generate_analysis, call, try_except. rewrite Hgen. reflexivity.
    + right. now left.
  - eexists. split.
    + unfold generate_analysis, call, try_except. rewrite Hgen. reflexivity.
    + do 4 right. now exists e.
  - destruct (re_search_braces text) as [group|] eqn:Hspan.
    + rewrite (generate_analysis_span _ _ _ _ _ _ Hgen Hspan).
      eexists. split; [reflexivity|].
      destruct (jl group) as [e|analysis]; [do 4 right; now exists e|].
      destruct (negb (is_dict analysis) || negb (contains_key analysis "jobs")) eqn:E;
        [do 3 right; now left|].
      destruct analysis; try discriminate.
      destruct (snd (ensure_all (dict_get_or_none d "jobs"))) as [e|jobs'].
      * do 4 right. now exists e.
      * left. now exists jobs'.
    + destruct text as [|c text].
      * eexists. split.
        -- unfold generate_analysis, call, try_except. rewrite Hgen. reflexivity.
        -- right. now left.
      * rewrite (generate_analysis_no_span jl gc rc links _ Hgen) by
          (discriminate || assumption).
        eexists. split; [reflexivity|]. do 2 right. now left.
Qed.

(** Property X3.  [generate_analysis] never raises and calls the backend
    exactly once: it returns success with a [jobs] value, or a failure whose
    error is "No response from AI model", "Invalid response format",
    "Invalid response structure", or "Error generating analysis: " followed
    by the text of the exception it caught. *)
Theorem generate_analysis_envelope :
  forall (json_loads : string -> exn + value)
         (generate_content : string -> value -> exn + response)
         (resume_content : string) (job_links : value),
  exists v,
    generate_analysis json_loads generate_content resume_content job_links
    = ([EvGenerate], inr v)
    /\ ((exists jobs, v = success "jobs" jobs)
        \/ v = failure "No response from AI model"
        \/ v = failure "Invalid response format"
        \/ v = failure "Invalid response structure"
        \/ exists e, v = failure ("Error generating analysis: " ++ str e)%string).
Proof. exact generate_analysis_outcomes. Qed.

Lemma string_app_assoc (a b c : string) :
  ((a ++ b) ++ c = a ++ (b ++ c))%string.
Proof. induction a as [|x a IH]; simpl; [reflexivity | now rewrite IH]. Qed.

(** ** Reading the resume *)

Lemma pages_joined (pages : list string) (acc : string) :
  fold_left (fun text page => (text ++ page ++ String (ascii_of_nat 10) EmptyString)%string)
            pages acc
  = (acc ++ fold_right
              (fun page rest => (page ++ String (ascii_of_nat 10) rest)%string)
              EmptyString pages)%string.
Proof.
  revert acc. induction pages as [|p pages IH]; simpl; intros acc.
  - induction acc as [|c acc IHa]; simpl; [reflexivity | now rewrite <- IHa].
  - rewrite IH, !string_app_assoc. reflexivity.
Qed.

(** The two outcomes of [extract_text_from_pdf]. *)
Lemma extract_text_from_pdf_outcomes :
  forall (pdf_pages : string -> exn + list string) (file_bytes : upload),
    (forall pages,
        pdf_pages (stream file_bytes) = inr pages ->
        extract_text_from_pdf pdf_pages file_bytes
        = ([EvRead; EvSeek 0; EvPdfParse],
           inr (fold_right
                  (fun page rest => (page ++ String (ascii_of_nat 10) rest)%string)
                  EmptyString pages)))
    /\ (forall e,
           pdf_pages (stream file_bytes) = inl e ->
           extract_text_from_pdf pdf_pages file_bytes
           = ([EvRead; EvSeek 0; EvPdfParse],
              inl (Exn ValueError ("Error reading PDF: " ++ str e)%string))).
Proof.
  intros pp file. split.
  - intros pages H. unfold extract_text_from_pdf, call, bind, try_except.
    rewrite H. simpl. now rewrite pages_joined.
  - intros e H. unfold extract_text_from_pdf, call, bind, try_except.
    rewrite H. reflexivity.
Qed.

(** Property X4.  [extract_text_from_pdf] reads the stream, rewinds it and
    parses the copy.  When the reader yields the pages, the result is each
    page's text followed by a newline, in page order; when the reader raises,
    the exception leaves as a [ValueError] whose message is
    "Error reading PDF: " followed by the original message. *)
Theorem pdf_text_is_pages_then_newlines :
  forall (pdf_pages : string -> exn + list string) (file_bytes : upload),
    (forall pages,
        pdf_pages (stream file_bytes) = inr pages ->
        extract_text_from_pdf pdf_pages file_bytes
        = ([EvRead; EvSeek 0; EvPdfParse],
           inr (fold_right
                  (fun page rest => (page ++ String (ascii_of_nat 10) rest)%string)
                  EmptyString pages)))
    /\ (forall e,
           pdf_pages (stream file_bytes) = inl e ->
           extract_text_from_pdf pdf_pages file_bytes
           = ([EvRead; EvSeek 0; EvPdfParse],
              inl (Exn ValueError ("Error reading PDF: " ++ str e)%string))).
Proof. exact extract_text_from_pdf_outcomes. Qed.

(** The theorem above at a concrete input. *)
Lemma pdf_text_is_pages_then_newlines_witness :
  (MoreFixtures.two_pages (stream MoreFixtures.pdf_upload)
   = inr ["Jane Doe"; "Ten years of Rocq."]
   /\ MoreFixtures.damaged_pdf (stream MoreFixtures.pdf_upload)
      = inl (Exn OtherException "EOF marker not found"))
  /\ extract_text_from_pdf MoreFixtures.two_pages MoreFixtures.pdf_upload
     = ([EvRead; EvSeek 0; EvPdfParse],
        inr ("Jane Doe" ++ String (ascii_of_nat 10)
               ("Ten years of Rocq." ++ String (ascii_of_nat 10) EmptyString))%string)
  /\ extract_text_from_pdf MoreFixtures.damaged_pdf MoreFixtures.pdf_upload
     = ([EvRead; EvSeek 0; EvPdfParse],
        inl (Exn ValueError "Error reading PDF: EOF marker not found")).
Proof.
  split; [split; reflexivity|]. split.
  - exact (proj1 (pdf_text_is_pages_then_newlines
                    MoreFixtures.two_pages MoreFixtures.pdf_upload)
             ["Jane Doe"; "Ten years of Rocq."] eq_refl).
  - exact (proj2 (pdf_text_is_pages_then_newlines
                    MoreFixtures.damaged_pdf MoreFixtures.pdf_upload)
             (Exn OtherException "EOF marker not found") eq_refl).
Defined.

Section Analyze.
Variable pdf_pages : string -> exn + list string.
Variable decode_utf8 : string -> exn + string.
Variable json_loads : string -> exn + value.
Variable generate_content : string -> value -> exn + response.
Variable resume : upload.
Variable job_links : string.

(** [analyze_resume] once the resume's text is there. *)
Lemma analyze_resume_with_text (reading : list event) (content : string) :
  yields_text pdf_pages decode_utf8 resume reading content ->
  analyze_resume pdf_pages decode_utf8 json_loads generate_content resume job_links
  = match json_loads job_links with
    | inl e =>
        (reading,
         inr (failure (if is_JSONDecodeError e
                       then "Invalid job links format"
                       else ("Error analyzing resume: " ++ str e)%string)))
    | inr links =>
        (reading ++ [EvGenerate],
         inr match snd (generate_analysis json_loads generate_content content links) with
             | inr v =>
                 match v with
                 | VDict (("success", VBool true) :: ("jobs", jobs) :: nil) =>
                     success "results" jobs
                 | _ => v
                 end
             | inl _ => VNone
             end)
    end.
Proof.
  intros Hy. unfold analyze_resume.
  assert (forall links,
            exists v,
              generate_analysis json_loads generate_content content links
              = ([EvGenerate], inr v)
              /\ ((exists jobs, v = success "jobs" jobs) \/ exists m, v = failure m))
    as Hga.
  { intros links.
    destruct (generate_analysis_outcomes json_loads generate_content content links)
      as (v & Hv & Hcases).
    exists v. split; [exact Hv|].
    destruct Hcases as [H | [-> | [-> | [-> | [e ->]]]]]; eauto. }
  destruct Hy as [[Hpdf Hx] | (Hpdf & Htxt & Hdec & ->)].
  - rewrite Hpdf, Hx. unfold bind at 3. unfold ret at 1. unfold try_except at 2.
    unfold bind at 1. simpl.
    destruct (json_loads job_links) as [e|links]; simpl.
    + destruct (is_JSONDecodeError e); simpl; rewrite ?app_nil_r; reflexivity.
    + destruct (Hga links) as (v & -> & [[jobs ->] | [m ->]]); simpl;
        rewrite ?app_nil_r; reflexivity.
  - rewrite Hpdf, Htxt. unfold call. cbn -[generate_analysis]. rewrite Hdec.
    cbn -[generate_analysis].
    destruct (json_loads job_links) as [e|links]; cbn -[generate_analysis].
    + destruct (is_JSONDecodeError e); reflexivity.
    + destruct (Hga links) as (v & -> & [[jobs ->] | [m ->]]); reflexivity.
Qed.

End Analyze.

Section AnalyzeOutcomes.
Variable pdf_pages : string -> exn + list string.
Variable decode_utf8 : string -> exn + string.
Variable json_loads : string -> exn + value.
Variable generate_content : string -> value -> exn + response.
Variable resume : upload.
Variable job_links : string.

Lemma analyze_resume_unreadable_pdf (e : exn) :
  PyStr.endswith (PyStr.lower (filename resume)) ".pdf" = true ->
  pdf_pages (stream resume) = inl e ->
  analyze_resume pdf_pages decode_utf8 json_loads generate_content resume job_links
  = ([EvRead; EvSeek 0; EvPdfParse],
     inr (failure ("Error reading PDF: " ++ str e)%string)).
Proof.
  intros Hpdf He. unfold analyze_resume. rewrite Hpdf.
  rewrite (proj2 (extract_text_from_pdf_outcomes pdf_pages resume) e He).
  reflexivity.
Qed.

Lemma analyze_resume_undecodable_text (e : exn) :
  PyStr.endswith (PyStr.lower (filename resume)) ".pdf" = false ->
  PyStr.endswith (PyStr.lower (filename resume)) ".txt" = true ->
  decode_utf8 (stream resume) = inl e ->
  analyze_resume pdf_pages decode_utf8 json_loads generate_content resume job_links
  = ([EvRead; EvDecode],
     inr (failure (if is_ValueError e then str e
                   else ("Error analyzing resume: " ++ str e)%string))).
Proof.
  intros Hpdf Htxt He. unfold analyze_resume. rewrite Hpdf, Htxt.
  unfold call. cbn -[generate_analysis]. rewrite He. cbn -[generate_analysis].
  destruct (is_ValueError e); reflexivity.
Qed.

End AnalyzeOutcomes.

(** Property X5.  A resume that cannot be read is reported by
    [analyze_resume] before the job links are parsed or the backend is
    called.  A PDF whose reader raises gives the failure
    "Error reading PDF: ..."; a text file whose decoding raises gives a
    failure with the exception's own message when it is a [ValueError] (as a
    [UnicodeDecodeError] is), and "Error analyzing resume: ..." otherwise. *)
Theorem unreadable_resume_is_reported_before_anything_else :
  forall (pdf_pages : string -> exn + list string)
         (decode_utf8 : string -> exn + string)
         (json_loads : string -> exn + value)
         (generate_content : string -> value -> exn + response)
         (resume : upload) (job_links : string) (e : exn),
    let result :=
      analyze_resume pdf_pages decode_utf8 json_loads generate_content
        resume job_links in
    (PyStr.endswith (PyStr.lower (filename resume)) ".pdf" = true ->
     pdf_pages (stream resume) = inl e ->
     result = ([EvRead; EvSeek 0; EvPdfParse],
               inr (failure ("Error reading PDF: " ++ str e)%string)))
    /\ (PyStr.endswith (PyStr.lower (filename resume)) ".pdf" = false ->
        PyStr.endswith (PyStr.lower (filename resume)) ".txt" = true ->
        decode_utf8 (stream resume) = inl e ->
        result = ([EvRead; EvDecode],
                  inr (failure (if is_ValueError e then str e
                                else ("Error analyzing resume: " ++ str e)%string)))).
Proof.
  intros. split.
  - apply analyze_resume_unreadable_pdf.
  - apply analyze_resume_undecodable_text.
Qed.

(** The theorem above at a concrete input. *)
Lemma unreadable_resume_is_reported_before_anything_else_witness :
  (PyStr.endswith (PyStr.lower (filename MoreFixtures.pdf_upload)) ".pdf" = true
   /\ MoreFixtures.damaged_pdf (stream MoreFixtures.pdf_upload)
      = inl (Exn OtherException "EOF marker not found"))
  /\ analyze_resume MoreFixtures.damaged_pdf MoreFixtures.decode_ascii
       MoreFixtures.json_loads (says two_jobs_text)
       MoreFixtures.pdf_upload MoreFixtures.job_links_text
     = ([EvRead; EvSeek 0; EvPdfParse],
        inr (failure "Error reading PDF: EOF marker not found")).
Proof.
  split; [split; reflexivity|].
  exact (proj1 (unreadable_resume_is_reported_before_anything_else
                  MoreFixtures.damaged_pdf MoreFixtures.decode_ascii
                  MoreFixtures.json_loads (says two_jobs_text)
                  MoreFixtures.pdf_upload MoreFixtures.job_links_text
                  (Exn OtherException "EOF marker not found"))
           eq_refl eq_refl).
Defined.

Lemma txt_upload_yields_text :
  yields_text MoreFixtures.two_pages MoreFixtures.decode_ascii
    MoreFixtures.txt_upload [EvRead; EvDecode] "Ten years of Rocq.".
Proof. right. repeat split; reflexivity. Qed.

(** Property X6.  Once the resume's text has been obtained, job links that
    [json.loads] rejects end [analyze_resume] without a call to the backend:
    the failure is "Invalid job links format" for a [JSONDecodeError], and
    "Error analyzing resume: ..." for any other exception. *)
Theorem invalid_job_links_stop_before_the_backend :
  forall (pdf_pages : string -> exn + list string)
         (decode_utf8 : string -> exn + string)
         (json_loads : string -> exn + value)
         (generate_content : string -> value -> exn + response)
         (resume : upload) (job_links : string)
         (reading : list event) (content : string) (e : exn),
    yields_text pdf_pages decode_utf8 resume reading content ->
    json_loads job_links = inl e ->
    analyze_resume pdf_pages decode_utf8 json_loads generate_content
      resume job_links
    = (reading,
       inr (failure (if is_JSONDecodeError e
                     then "Invalid job links format"
                     else ("Error analyzing resume: " ++ str e)%string))).
Proof.
  intros pp du jl gc resume links reading content e Hy He.
  rewrite (analyze_resume_with_text pp du jl gc resume links reading content Hy).
  now rewrite He.
Qed.

(** The theorem above at a concrete input. *)
Lemma invalid_job_links_stop_before_the_backend_witness :
  (yields_text MoreFixtures.two_pages MoreFixtures.decode_ascii
     MoreFixtures.txt_upload [EvRead; EvDecode] "Ten years of Rocq."
   /\ MoreFixtures.json_loads "not json"
      = inl (Exn JSONDecodeError "Expecting value: line 1 column 1 (char 0)"))
  /\ analyze_resume MoreFixtures.two_pages MoreFixtures.decode_ascii
       MoreFixtures.json_loads (says two_jobs_text)
       MoreFixtures.txt_upload "not json"
     = ([EvRead; EvDecode], inr (failure "Invalid job links format")).
Proof.
  split; [split; [exact txt_upload_yields_text | reflexivity]|].
  exact (invalid_job_links_stop_before_the_backend
           MoreFixtures.two_pages MoreFixtures.decode_ascii
           MoreFixtures.json_loads (says two_jobs_text)
           MoreFixtures.txt_upload "not json"
           [EvRead; EvDecode] "Ten years of Rocq."
           (Exn JSONDecodeError "Expecting value: line 1 column 1 (char 0)")
           txt_upload_yields_text eq_refl).
Defined.

(** Property X7.  With the resume's text and the parsed job links,
    [analyze_resume] calls [generate_analysis] once and passes its outcome
    on: a failure is returned as it is, and a success is returned with the
    jobs under the key [results]. *)
Theorem analysis_is_passed_on_under_results :
  forall (pdf_pages : string -> exn + list string)
         (decode_utf8 : string -> exn + string)
         (json_loads : string -> exn + value)
         (generate_content : string -> value -> exn + response)
         (resume : upload) (job_links : string)
         (reading : list event) (content : string) (links : value),
    yields_text pdf_pages decode_utf8 resume reading content ->
    json_loads job_links = inr links ->
    let result :=
      analyze_resume pdf_pages decode_utf8 json_loads generate_content
        resume job_links in
    let analysis :=
      snd (generate_analysis json_loads generate_content content links) in
    (forall m, analysis = inr (failure m) ->
               result = (reading ++ [EvGenerate], inr (failure m)))
    /\ (forall jobs, analysis = inr (success "jobs" jobs) ->
                     result = (reading ++ [EvGenerate], inr (success "results" jobs))).
Proof.
  intros pp du jl gc resume jlinks reading content links Hy Hl result analysis.
  unfold result, analysis.
  rewrite (analyze_resume_with_text pp du jl gc resume jlinks reading content Hy), Hl.
  split; intros x ->; reflexivity.
Qed.

(** The theorem above at a concrete input. *)
Lemma analysis_is_passed_on_under_results_witness :
  (yields_text MoreFixtures.two_pages MoreFixtures.decode_ascii
     MoreFixtures.txt_upload [EvRead; EvDecode] "Ten years of Rocq."
   /\ MoreFixtures.json_loads MoreFixtures.job_links_text
      = inr MoreFixtures.job_links
   /\ snd (generate_analysis MoreFixtures.json_loads (says two_jobs_text)
             "Ten years of Rocq." MoreFixtures.job_links)
      = inr (success "jobs" (VList (map VDict (map ensured two_jobs)))))
  /\ analyze_resume MoreFixtures.two_pages MoreFixtures.decode_ascii
       MoreFixtures.json_loads (says two_jobs_text)
       MoreFixtures.txt_upload MoreFixtures.job_links_text
     = ([EvRead; EvDecode] ++ [EvGenerate],
        inr (success "results" (VList (map VDict (map ensured two_jobs))))).
Proof.
  split; [split; [exact txt_upload_yields_text | split; reflexivity]|].
  exact (proj2 (analysis_is_passed_on_under_results
                  MoreFixtures.two_pages MoreFixtures.decode_ascii
                  MoreFixtures.json_loads (says two_jobs_text)
                  MoreFixtures.txt_upload MoreFixtures.job_links_text
                  [EvRead; EvDecode] "Ten years of Rocq." MoreFixtures.job_links
                  txt_upload_yields_text eq_refl)
           (VList (map VDict (map ensured two_jobs))) eq_refl).
Defined.

(** Property X8.  [analyze_resume] never raises: it returns success with
    [results], or a failure with an error message.  It reads the upload in
    one of three ways (not at all, as a PDF, as a text file) and calls the
    backend at most once, after the reading. *)
Theorem analyze_resume_envelope :
  forall (pdf_pages : string -> exn + list string)
         (decode_utf8 : string -> exn + string)
         (json_loads : string -> exn + value)
         (generate_content : string -> value -> exn + response)
         (resume : upload) (job_links : string),
  exists reading calling v,
    analyze_resume pdf_pages decode_utf8 json_loads generate_content
      resume job_links
    = (reading ++ calling, inr v)
    /\ In reading reading_traces
    /\ (calling = [] \/ calling = [EvGenerate])
    /\ ((exists jobs, v = success "results" jobs) \/ exists m, v = failure m).
Proof.
  intros pp du jl gc resume links.
  assert (forall reading content,
            In reading reading_traces ->
            yields_text pp du resume reading content ->
            exists reading calling v,
              analyze_resume pp du jl gc resume links = (reading ++ calling, inr v)
              /\ In reading reading_traces
              /\ (calling = [] \/ calling = [EvGenerate])
              /\ ((exists jobs, v = success "results" jobs) \/ exists m, v = failure m))
    as Hwith.
  { intros reading content Hin Hy.
    rewrite (analyze_resume_with_text pp du jl gc resume links reading content Hy).
    destruct (jl links) as [e|parsed].
    - exists reading, [], (failure (if is_JSONDecodeError e
                                    then "Invalid job links format"
                                    else ("Error analyzing resume: " ++ str e)%string)).
      rewrite app_nil_r. repeat split; eauto.
    - destruct (generate_analysis_outcomes jl gc content parsed)
        as (v & Hv & Hcases).
      rewrite Hv. simpl snd.
      destruct Hcases as [[jobs ->] | Hfail].
      + exists reading, [EvGenerate], (success "results" jobs).
        repeat split; eauto.
      + exists reading, [EvGenerate], v.
        destruct Hfail as [-> | [-> | [-> | [e ->]]]]; repeat split; eauto. }
  destruct (PyStr.endswith (PyStr.lower (filename resume)) ".pdf") eqn:Hpdf.
  - destruct (pp (stream resume)) as [e|pages] eqn:Hp.
    + exists [EvRead; EvSeek 0; EvPdfParse], [], (failure ("Error reading PDF: " ++ str e)%string).
      rewrite app_nil_r. repeat split; eauto.
      * now apply analyze_resume_unreadable_pdf.
      * simpl. auto.
    + apply (Hwith [EvRead; EvSeek 0; EvPdfParse]
               (fold_right (fun page rest => (page ++ String (ascii_of_nat 10) rest)%string)
                           EmptyString pages)).
      * simpl. auto.
      * left. split; [exact Hpdf|].
        exact (proj1 (extract_text_from_pdf_outcomes pp resume) pages Hp).
  - destruct (PyStr.endswith (PyStr.lower (filename resume)) ".txt") eqn:Htxt.
    + destruct (du (stream resume)) as [e|content] eqn:Hd.
      * exists [EvRead; EvDecode], [],
          (failure (if is_ValueError e then str e
                    else ("Error analyzing resume: " ++ str e)%string)).
        rewrite app_nil_r. repeat split; eauto.
        -- now apply analyze_resume_undecodable_text.
        -- simpl. auto.
      * apply (Hwith [EvRead; EvDecode] content).
        -- simpl. auto.
        -- right. repeat split; auto.
    + exists [], [], (failure "Unsupported file format. Please upload a PDF or TXT file.").
      repeat split; eauto.
      * unfold analyze_resume. rewrite Hpdf, Htxt. reflexivity.
      * simpl. auto.
Qed.

(** ** The resume review *)

(** Property X9.  [generate_resume_review] parses the whole response text,
    not a span of it, and does not check the shape of what it parsed:
    whatever value [json.loads] yields is returned under [review].  When
    [json.loads] raises, the failure is "Invalid response format from AI
    model" for a [JSONDecodeError] and "Error generating resume review: ..."
    otherwise. *)
Theorem review_is_the_whole_response_parsed :
  forall (json_loads : string -> exn + value)
         (generate_review_content : string -> string -> exn + response)
         (resume_content job_description text : string),
    generate_review_content resume_content job_description
      = inr (Response (inr text)) ->
    text <> EmptyString ->
    let result :=
      generate_resume_review json_loads generate_review_content
        resume_content job_description in
    (forall review,
        json_loads text = inr review ->
        result = ([EvGenerate], inr (success "review" review)))
    /\ (forall e,
           json_loads text = inl e ->
           result =
             ([EvGenerate],
              inr (failure (if is_JSONDecodeError e
                            then "Invalid response format from AI model"
                            else ("Error generating resume review: " ++ str e)%string)))).
Proof.
  intros jl grc rc jd text Hgen Hne result. unfold result, generate_resume_review.
  rewrite Hgen. unfold call, lift, bind at 1, try_except.
  destruct text as [|c text]; [contradiction|]. simpl.
  split.
  - intros review ->. reflexivity.
  - intros e ->. simpl. destruct (is_JSONDecodeError e); reflexivity.
Qed.

(** The theorem above at a concrete input. *)
Lemma review_is_the_whole_response_parsed_witness :
  (MoreFixtures.reviews MoreFixtures.number_text "resume" "job"
   = inr (Response (inr MoreFixtures.number_text))
   /\ MoreFixtures.number_text <> EmptyString
   /\ MoreFixtures.json_loads MoreFixtures.number_text = inr (VInt 42)
   /\ MoreFixtures.json_loads MoreFixtures.wrapped_review_text
      = inl (Exn JSONDecodeError "Expecting value: line 1 column 1 (char 0)"))
  /\ generate_resume_review MoreFixtures.json_loads
       (MoreFixtures.reviews MoreFixtures.number_text) "resume" "job"
     = ([EvGenerate], inr (success "review" (VInt 42)))
  /\ generate_resume_review MoreFixtures.json_loads
       (MoreFixtures.reviews MoreFixtures.wrapped_review_text) "resume" "job"
     = ([EvGenerate], inr (failure "Invalid response format from AI model")).
Proof.
  assert (MoreFixtures.number_text <> EmptyString) as H1 by discriminate.
  assert (MoreFixtures.wrapped_review_text <> EmptyString) as H2 by discriminate.
  split; [repeat split; try reflexivity; exact H1|]. split.
  - exact (proj1 (review_is_the_whole_response_parsed
                    MoreFixtures.json_loads
                    (MoreFixtures.reviews MoreFixtures.number_text)
                    "resume" "job" MoreFixtures.number_text eq_refl H1)
             (VInt 42) eq_refl).
  - exact (proj2 (review_is_the_whole_response_parsed
                    MoreFixtures.json_loads
                    (MoreFixtures.reviews MoreFixtures.wrapped_review_text)
                    "resume" "job" MoreFixtures.wrapped_review_text eq_refl H2)
             (Exn JSONDecodeError "Expecting value: line 1 column 1 (char 0)")
             eq_refl).
Defined.

(** Property X10.  [generate_resume_review] never raises and calls the
    backend once.  Its result is success with a [review], or a failure whose
    error is "Failed to generate resume review", "Invalid response format
    from AI model", or "Error generating resume review: " followed by the
    text of the exception it caught. *)
Theorem generate_resume_review_envelope :
  forall (json_loads : string -> exn + value)
         (generate_review_content : string -> string -> exn + response)
         (resume_content job_description : string),
  exists v,
    generate_resume_review json_loads generate_review_content
      resume_content job_description
    = ([EvGenerate], inr v)
    /\ ((exists review, v = success "review" review)
        \/ v = failure "Failed to generate resume review"
        \/ v = failure "Invalid response format from AI model"
        \/ exists e, v = failure ("Error generating resume review: " ++ str e)%string).
Proof.
  intros jl grc rc jd. unfold generate_resume_review, call, lift, try_except.
  destruct (grc rc jd) as [e|[|[e|text]]]; simpl.
  - eexists. split; [reflexivity|]. do 3 right. now exists e.
  - eexists. split; [reflexivity|]. right. now left.
  - eexists. split; [reflexivity|]. do 3 right. now exists e.
  - destruct text as [|c text]; simpl.
    + eexists. split; [reflexivity|]. right. now left.
    + destruct (jl (String c text)) as [e|review]; simpl.
      * destruct (is_JSONDecodeError e); simpl.
        -- eexists. split; [reflexivity|]. do 2 right. now left.
        -- eexists. split; [reflexivity|]. do 3 right. now exists e.
      * eexists. split; [reflexivity|]. left. now exists review.
Qed.

(** ** The cover letter *)

(** Property X11.  For a backend response with text, [generate_cover_letter]
    fails with "Failed to generate cover letter" when the text is empty, and
    otherwise succeeds with [text.strip()], whatever [str.strip] removes; a
    text that is not empty and strips to nothing, as a text of white space
    only does, therefore gives success with an empty cover letter. *)
Theorem cover_letter_is_the_stripped_response :
  forall (str_methods : PyStr.StrMethods)
         (generate_content : string -> exn + response) (job_link text : string),
    generate_content job_link = inr (Response (inr text)) ->
    let result := generate_cover_letter generate_content job_link in
    (text = EmptyString ->
     result = ([EvGenerate], inr (failure "Failed to generate cover letter")))
    /\ (text <> EmptyString ->
        result = ([EvGenerate],
                  inr (success "cover_letter" (VStr (PyStr.strip text)))))
    /\ (text <> EmptyString ->
        PyStr.strip text = EmptyString ->
        result = ([EvGenerate], inr (success "cover_letter" (VStr EmptyString)))).
Proof.
  intros str_methods gc link text Hgen result.
  unfold result, generate_cover_letter.
  rewrite Hgen. unfold call, lift, bind at 1, try_except.
  repeat split.
  - intros ->. reflexivity.
  - intros Hne. destruct text; [contradiction | reflexivity].
  - intros Hne Hblank. rewrite <- Hblank.
    destruct text; [contradiction | reflexivity].
Qed.

(** The theorem above at a concrete input. *)
Lemma cover_letter_is_the_stripped_response_witness :
  (MoreFixtures.writes "   " "https://example.com/jobs/1" = inr (Response (inr "   "))
   /\ "   " <> EmptyString
   /\ @PyStr.strip ascii_str "   " = EmptyString)
  /\ @generate_cover_letter ascii_str (MoreFixtures.writes "   ")
       "https://example.com/jobs/1"
     = ([EvGenerate], inr (success "cover_letter" (VStr EmptyString))).
Proof.
  assert ("   " <> EmptyString) as H1 by discriminate.
  split; [split; [reflexivity | split; [exact H1 | reflexivity]]|].
  exact (proj2 (proj2 (cover_letter_is_the_stripped_response
                         ascii_str
                         (MoreFixtures.writes "   ") "https://example.com/jobs/1"
                         "   " eq_refl))
           H1 eq_refl).
Defined.

(* ===================================================================== *)
(** * Further properties of the scraper *)
(* ===================================================================== *)

(** ** Substrings *)

Lemma prefix_app (needle post : string) :
  String.prefix needle (needle ++ post)%string = true.
Proof.
  induction needle as [|c needle IH]; simpl; [now destruct post|].
  destruct (Ascii.ascii_dec c c) as [_|N]; [exact IH | now elim N].
Qed.

Lemma prefix_inv (needle hay : string) :
  String.prefix needle hay = true -> exists post, hay = (needle ++ post)%string.
Proof.
  revert hay. induction needle as [|c needle IH]; intros hay H.
  - now exists hay.
  - destruct hay as [|c' hay]; simpl in H; [discriminate|].
    destruct (Ascii.ascii_dec c c') as [<-|_]; [|discriminate].
    destruct (IH hay H) as [post ->]. now exists post.
Qed.

Lemma contains_first (hay needle : string) :
  PyStr.contains hay needle
  = String.prefix needle hay
    || match hay with
       | EmptyString => false
       | String _ hay' => PyStr.contains hay' needle
       end.
Proof. destruct hay; reflexivity. Qed.

Lemma contains_substring (hay needle : string) :
  PyStr.contains hay needle = true <-> substring needle hay.
Proof.
  split.
  - induction hay as [|c hay IH]; rewrite contains_first; intros H;
      apply orb_true_iff in H as [H | H]; try discriminate.
    + destruct (prefix_inv _ _ H) as [post ->]. now exists EmptyString, post.
    + destruct (prefix_inv _ _ H) as [post ->]. now exists EmptyString, post.
    + destruct (IH H) as (pre & post & ->). now exists (String c pre), post.
  - intros (pre & post & ->). induction pre as [|c pre IH].
    + simpl append. rewrite contains_first, prefix_app. reflexivity.
    + simpl append. rewrite contains_first, IH. apply orb_true_r.
Qed.

Lemma contains_not_substring (hay needle : string) :
  PyStr.contains hay needle = false <-> ~ substring needle hay.
Proof.
  rewrite <- contains_substring. destruct (PyStr.contains hay needle); split;
    intros H; try reflexivity; try discriminate.
  now elim H.
Qed.

(** ** The platform *)

(** Property X12.  The platform [extract_job_details] reports follows the
    URL's substrings, case-sensitively: "Indeed" when the URL holds
    "indeed.com" anywhere, even beside "linkedin.com"; "LinkedIn" when it
    holds "linkedin.com" and not "indeed.com"; "Other" when it holds
    neither. *)
Theorem platform_follows_the_url_substrings :
  forall (str_methods : PyStr.StrMethods) (tag_methods : TagMethods)
         (soup : Soup) (url : string),
  exists title company platform,
    extract_job_details soup url = ([], inr (details title company platform))
    /\ (substring "indeed.com" url -> platform = "Indeed")
    /\ (~ substring "indeed.com" url -> substring "linkedin.com" url ->
        platform = "LinkedIn")
    /\ (~ substring "indeed.com" url -> ~ substring "linkedin.com" url ->
        platform = "Other").
Proof.
  intros str_methods tag_methods soup url.
  destruct (extract_job_details_returns soup url) as (title & company & E).
  exists title, company, (platform_of url). split; [exact E|].
  unfold platform_of. repeat split.
  - intros H. apply contains_substring in H. now rewrite H.
  - intros N H. apply contains_not_substring in N. apply contains_substring in H.
    now rewrite N, H.
  - intros N1 N2. apply contains_not_substring in N1, N2. now rewrite N1, N2.
Qed.

(** The theorem above at a concrete input. *)
Lemma platform_follows_the_url_substrings_witness :
  (substring "indeed.com" "https://www.indeed.com/viewjob?from=linkedin.com")
  /\ exists title company,
      @extract_job_details ascii_str plain_tags (SoupSieve.soup_of generic_page)
        "https://www.indeed.com/viewjob?from=linkedin.com"
      = ([], inr (details title company "Indeed")).
Proof.
  assert (substring "indeed.com" "https://www.indeed.com/viewjob?from=linkedin.com") as H.
  { exists "https://www.", "/viewjob?from=linkedin.com". reflexivity. }
  split; [exact H|].
  destruct (platform_follows_the_url_substrings ascii_str plain_tags
              (SoupSieve.soup_of generic_page)
              "https://www.indeed.com/viewjob?from=linkedin.com")
    as (title & company & platform & E & Hi & _).
  exists title, company. rewrite E, (Hi H). reflexivity.
Defined.

(** ** Trimmed fields *)

Section Trimmed.
Context {str_methods : PyStr.StrMethods} {tag_methods : TagMethods}.
Hypothesis strip_idempotent : forall s, PyStr.strip (PyStr.strip s) = PyStr.strip s.

Lemma first_text_clean (soup : Soup) (selectors : list string) (r : option string) :
  snd (first_text soup selectors) = inr r -> clean_opt r.
Proof.
  induction selectors as [|sel sels IH]; simpl.
  - intros H. inversion H. exact I.
  - unfold lift, bind. destruct (select_one soup sel) as [e|[el|]]; simpl.
    + discriminate.
    + destruct (PyStr.strip (get_text el)) as [|c t] eqn:E; simpl.
      * destruct (first_text soup sels) as [t0 r0]. exact IH.
      * intros H. inversion H. split; [discriminate|].
        rewrite <- E. apply strip_idempotent.
    + destruct (first_text soup sels) as [t0 r0]. exact IH.
Qed.

Lemma cascade_clean (soup : Soup) (url : string)
      (table : list (string * list string)) (r : option string) :
  snd (cascade soup url table) = inr r -> clean_opt r.
Proof.
  unfold cascade.
  assert (forall key f,
             snd (Py.bind (selectors_for table key) (fun sels => first_text soup sels))
             = inr f -> clean_opt f) as Hkey.
  { intros key f. destruct (selectors_for table key) as [t [e|sels]]; simpl;
      [discriminate|].
    pose proof (first_text_clean soup sels f) as H.
    destruct (first_text soup sels) as [t0 r0]. exact H. }
  match goal with |- snd (Py.bind ?P _) = _ -> _ =>
    assert (forall f, snd P = inr f -> clean_opt f) as HP;
    [| destruct P as [t [e|found]] ] end.
  { intros f. destruct (PyStr.contains url "indeed.com"); [apply Hkey|].
    destruct (PyStr.contains url "linkedin.com"); [apply Hkey|].
    intros H. inversion H. exact I. }
  - discriminate.
  - specialize (HP found eq_refl). unfold bind at 1.
    destruct (truthy_opt found); cbn [negb].
    + intros H. inversion H. now subst.
    + destruct (selectors_for table "generic") as [t1 [e1|sels]]; simpl;
        [discriminate|].
      pose proof (first_text_clean soup sels) as Hg.
      destruct (first_text soup sels) as [t2 [e2|generic]]; simpl; [discriminate|].
      intros H. inversion H. specialize (Hg generic eq_refl).
      destruct generic; assumption.
Qed.

Lemma or_else_clean (o : option string) (sentinel : string) :
  clean_opt o -> sentinel <> EmptyString ->
  or_else o sentinel <> EmptyString
  /\ (or_else o sentinel = sentinel
      \/ PyStr.strip (or_else o sentinel) = or_else o sentinel).
Proof.
  unfold or_else. destruct o as [x|]; simpl; [|auto].
  destruct (PyStr.nonempty x); [|auto]. intros [Hne Hx] _. auto.
Qed.

End Trimmed.

Lemma rstrip_idempotent (s : string) : rstrip (rstrip s) = rstrip s.
Proof.
  induction s as [|c s IH]; [reflexivity|]. simpl.
  destruct (rstrip s) as [|c' r] eqn:E.
  - destruct (is_space c) eqn:Ec; [reflexivity|]. simpl. now rewrite Ec.
  - change (rstrip (String c (String c' r)))
      with (match rstrip (String c' r) with
            | EmptyString => if is_space c then EmptyString else String c EmptyString
            | r0 => String c r0
            end).
    now rewrite IH.
Qed.

Lemma lstrip_starts (s : string) :
  match lstrip s with
  | EmptyString => True
  | String c _ => is_space c = false
  end.
Proof.
  induction s as [|c s IH]; simpl; [exact I|].
  destruct (is_space c) eqn:E; [exact IH | exact E].
Qed.

Lemma rstrip_keeps_head (c : ascii) (s : string) :
  is_space c = false -> exists r, rstrip (String c s) = String c r.
Proof.
  intros H. simpl. destruct (rstrip s); [rewrite H|]; eauto.
Qed.

(** Stripping the ASCII blanks twice is stripping them once. *)
Lemma strip_ascii_idempotent (s : string) :
  @PyStr.strip ascii_str (@PyStr.strip ascii_str s) = @PyStr.strip ascii_str s.
Proof.
  cbn [PyStr.strip ascii_str]. unfold strip_ascii.
  pose proof (lstrip_starts s) as H.
  destruct (lstrip s) as [|c u]; [reflexivity|].
  destruct (rstrip_keeps_head c u H) as [r E].
  assert (lstrip (rstrip (String c u)) = rstrip (String c u)) as ->.
  { rewrite E. simpl. now rewrite H. }
  apply rstrip_idempotent.
Qed.

(** Property X13.  Whatever the page and the URL, and for every [str.strip]
    that changes nothing when applied a second time, the job title and the
    company name [extract_job_details] returns are never empty, and each is
    its sentinel or a text that [str.strip] leaves as it is: it carries no
    leading or trailing white space. *)
Theorem extracted_fields_are_trimmed_and_not_empty :
  forall (str_methods : PyStr.StrMethods) (tag_methods : TagMethods),
    (forall s, PyStr.strip (PyStr.strip s) = PyStr.strip s) ->
    forall (soup : Soup) (url : string),
    exists title company,
      extract_job_details soup url
      = ([], inr (details title company (platform_of url)))
      /\ title <> EmptyString
      /\ (title = "Position Not Found" \/ PyStr.strip title = title)
      /\ company <> EmptyString
      /\ (company = "Company Not Found" \/ PyStr.strip company = company).
Proof.
  intros str_methods tag_methods Hidem soup url.
  assert ("Position Not Found" <> EmptyString) as Hp by discriminate.
  assert ("Company Not Found" <> EmptyString) as Hc by discriminate.
  destruct (extract_job_details_try soup url (platform_of url)) as [tr [e|d]] eqn:E.
  - exists "Position Not Found", "Company Not Found".
    split; [apply (extract_caught soup url e); now rewrite E|]. auto.
  - destruct (extract_try_inv _ _ _ _ _ E) as (jt & cn & Hjt & Hcn & ->).
    exists (or_else jt "Position Not Found"), (or_else cn "Company Not Found").
    split; [apply extract_uncaught; now rewrite E|].
    destruct (or_else_clean jt _ (cascade_clean Hidem _ _ _ _ Hjt) Hp).
    destruct (or_else_clean cn _ (cascade_clean Hidem _ _ _ _ Hcn) Hc). auto.
Qed.

(** The theorem above at a concrete input: the title is found with blanks
    around it and returned without them. *)
Lemma extracted_fields_are_trimmed_and_not_empty_witness :
  (forall s, @PyStr.strip ascii_str (@PyStr.strip ascii_str s)
             = @PyStr.strip ascii_str s)
  /\ @get_text plain_tags (Tag "h1" [] [inl "  Data Analyst  "]) = "  Data Analyst  "
  /\ @extract_job_details ascii_str plain_tags (SoupSieve.soup_of generic_page)
       "https://example.com/jobs/1"
     = ([], inr (details "Data Analyst" "Initech" "Other"))
  /\ exists title company,
      @extract_job_details ascii_str plain_tags (SoupSieve.soup_of generic_page)
        "https://example.com/jobs/1"
      = ([], inr (details title company (platform_of "https://example.com/jobs/1")))
      /\ title <> EmptyString
      /\ (title = "Position Not Found" \/ @PyStr.strip ascii_str title = title)
      /\ company <> EmptyString
      /\ (company = "Company Not Found" \/ @PyStr.strip ascii_str company = company).
Proof.
  split; [exact strip_ascii_idempotent|].
  split; [reflexivity|]. split; [reflexivity|].
  exact (extracted_fields_are_trimmed_and_not_empty ascii_str plain_tags
           strip_ascii_idempotent (SoupSieve.soup_of generic_page)
           "https://example.com/jobs/1").
Defined.

(** ** The search by content *)

Lemma substring_trans (a b c : string) :
  substring a b -> substring b c -> substring a c.
Proof.
  intros (p1 & q1 & ->) (p2 & q2 & ->).
  exists (p2 ++ p1)%string, (q1 ++ q2)%string. now rewrite !string_app_assoc.
Qed.

Lemma lower_app (a b : string) :
  PyStr.lower (a ++ b) = (PyStr.lower a ++ PyStr.lower b)%string.
Proof. induction a as [|c a IH]; simpl; [reflexivity | now rewrite IH]. Qed.

Lemma substring_lower (a b : string) :
  substring a b -> substring (PyStr.lower a) (PyStr.lower b).
Proof.
  intros (pre & post & ->). exists (PyStr.lower pre), (PyStr.lower post).
  now rewrite !lower_app.
Qed.

(** Property X14.  The predicate of the search by content looks at an
    element's name and text only, and grows with the text: a [div] whose text
    contains the text of an element the predicate accepts is accepted too. *)
Theorem enclosing_div_mentions_the_description_too :
  forall (tag_methods : TagMethods) (outer inner : tag),
    name_of outer = "div" ->
    substring (get_text inner) (get_text outer) ->
    mentions_description inner = true ->
    mentions_description outer = true.
Proof.
  intros tag_methods outer inner Hname Hin Hm. unfold mentions_description in *.
  rewrite Hname. simpl String.eqb. cbn [andb].
  apply andb_true_iff in Hm as [_ Hm].
  apply existsb_exists in Hm as (keyword & Hk & Hc).
  apply existsb_exists. exists keyword. split; [exact Hk|].
  apply contains_substring. apply contains_substring in Hc.
  eapply substring_trans; [exact Hc|].
  now apply substring_lower.
Qed.

(** The theorem above at a concrete input. *)
Lemma enclosing_div_mentions_the_description_too_witness :
  (name_of MoreFixtures.outer_block = "div"
   /\ substring (@get_text plain_tags MoreFixtures.inner_block)
                (@get_text plain_tags MoreFixtures.outer_block)
   /\ @mentions_description plain_tags MoreFixtures.inner_block = true)
  /\ @mentions_description plain_tags MoreFixtures.outer_block = true.
Proof.
  assert (substring (@get_text plain_tags MoreFixtures.inner_block)
                    (@get_text plain_tags MoreFixtures.outer_block)) as H
      by (exists " Data Analyst ", EmptyString; reflexivity).
  split; [split; [reflexivity | split; [exact H | reflexivity]]|].
  exact (enclosing_div_mentions_the_description_too plain_tags
           MoreFixtures.outer_block MoreFixtures.inner_block eq_refl H eq_refl).
Defined.

(** ** Outcomes of a scrape *)

Lemma first_element_none (soup : Soup) (selectors : list string) :
  Forall (fun s => select_one soup s = inr None) selectors ->
  first_element soup selectors = ([], inr None).
Proof.
  induction 1 as [|s l Hs _ IH]; simpl; [reflexivity|].
  unfold lift, bind. rewrite Hs. simpl. now rewrite IH.
Qed.

Lemma first_element_raises (soup : Soup) (before after : list string)
      (selector : string) (e : exn) :
  Forall (fun s => select_one soup s = inr None) before ->
  select_one soup selector = inl e ->
  first_element soup (before ++ selector :: after) = ([], inl e).
Proof.
  intros Hb Hs. induction Hb as [|s0 before Hs0 _ IH]; simpl; unfold lift, bind.
  - now rewrite Hs.
  - rewrite Hs0. simpl. now rewrite IH.
Qed.

Lemma find_first {A : Type} (p : A -> bool) (before after : list A) (x : A) :
  Forall (fun y => p y = false) before -> p x = true ->
  List.find p (before ++ x :: after) = Some x.
Proof.
  intros Hb Hx. induction Hb as [|y before Hy _ IH]; simpl.
  - now rewrite Hx.
  - now rewrite Hy.
Qed.

Lemma find_nothing {A : Type} (p : A -> bool) (l : list A) :
  Forall (fun y => p y = false) l -> List.find p l = None.
Proof. induction 1 as [|y l Hy _ IH]; simpl; [reflexivity | now rewrite Hy]. Qed.

Lemma manual_entry_scraped (message : string) :
  exists d, manual_entry message = VDict d /\ scraped d.
Proof.
  eexists. split; [reflexivity|]. split; [reflexivity|].
  eexists _, _, _, _. repeat split.
Qed.

Section Outcomes.
Context {str_methods : PyStr.StrMethods} {tag_methods : TagMethods}.

Lemma handled_after_request_scraped (BeautifulSoup : string -> Soup)
      (job_url : string) (response : http_response) :
  exists d,
    handled (after_request BeautifulSoup job_url response) = ([], inr (VDict d))
    /\ scraped d.
Proof.
  unfold handled, after_request.
  destruct (raise_for_status response) as [t0 [e0|[]]] eqn:Er.
  - pose proof (after_request_trace BeautifulSoup job_url response) as Ht.
    unfold after_request in Ht. rewrite Er in Ht. simpl in Ht. subst t0.
    unfold bind, try_except.
    destruct (is_RequestException e0); simpl;
      eexists; (split; [reflexivity|]); (split; [reflexivity|]);
      eexists _, _, _, _; repeat split.
  - assert (t0 = []) as ->.
    { revert Er. unfold raise_for_status.
      destruct ((400 <=? status_code response)%Z && (status_code response <? 500)%Z);
        [discriminate|].
      destruct ((500 <=? status_code response)%Z && (status_code response <? 600)%Z);
        [discriminate|]. intros H. now inversion H. }
    unfold bind at 1.
    destruct (extract_job_details_returns (BeautifulSoup (text response)) job_url)
      as (title & company & ->).
    unfold bind at 1.
    pose proof (first_element_trace (BeautifulSoup (text response))
                  description_selectors) as Ht.
    destruct (first_element (BeautifulSoup (text response)) description_selectors)
      as [t1 [e1|[el|]]]; simpl in Ht; subst t1.
    + unfold bind, try_except. destruct (is_RequestException e1); simpl;
        eexists; (split; [reflexivity|]); (split; [reflexivity|]);
        eexists _, _, _, _; repeat split.
    + simpl. eexists. split; [reflexivity|]. split; [reflexivity|].
      eexists _, _, _, _. repeat split.
    + destruct (find (BeautifulSoup (text response)) mentions_description); simpl;
        eexists; (split; [reflexivity|]); (split; [reflexivity|]);
        eexists _, _, _, _; repeat split.
Qed.

Lemma scrape_urlparse_raises (urlparse_scheme : string -> exn + string)
      (requests_get : string -> exn + http_response)
      (BeautifulSoup : string -> Soup) (job_url : string) (e : exn) :
  job_url <> EmptyString ->
  urlparse_scheme job_url = inl e ->
  scrape_job_description urlparse_scheme requests_get BeautifulSoup job_url
  = ([], inr (manual_entry
                (if is_RequestException e
                 then "Unable to fetch job description. Please enter it manually."
                 else "Error accessing job posting. Please enter the job description manually."))).
Proof.
  intros Hu Hp. unfold scrape_job_description.
  destruct job_url as [|c u]; [contradiction|].
  cbn [PyStr.nonempty negb]. rewrite Hp. unfold lift, bind, try_except.
  destruct (is_RequestException e); reflexivity.
Qed.

End Outcomes.

(** Property X15.  When [urlparse] raises on a non-empty URL with an
    exception that is no [RequestException] (a [ValueError] for a malformed
    IPv6 host, say), [scrape_job_description] makes no request and returns,
    not the invalid-URL failure, but the soft success that asks for manual
    entry with the message "Error accessing job posting. ...". *)
Theorem rejected_url_is_a_soft_failure_without_request :
  forall (str_methods : PyStr.StrMethods) (tag_methods : TagMethods)
         (urlparse_scheme : string -> exn + string)
         (requests_get : string -> exn + http_response)
         (BeautifulSoup : string -> Soup) (job_url : string) (e : exn),
    job_url <> EmptyString ->
    urlparse_scheme job_url = inl e ->
    is_RequestException e = false ->
    scrape_job_description urlparse_scheme requests_get BeautifulSoup job_url
    = ([], inr (manual_entry
         "Error accessing job posting. Please enter the job description manually.")).
Proof.
  intros str_methods tag_methods up rg bs url e Hu Hp He.
  rewrite (scrape_urlparse_raises up rg bs url e Hu Hp), He. reflexivity.
Qed.

(** The theorem above at a concrete input. *)
Lemma rejected_url_is_a_soft_failure_without_request_witness :
  ("http://[::1/jobs" <> EmptyString
   /\ MoreFixtures.urlparse_rejecting "http://[::1/jobs"
      = inl (Exn ValueError "Invalid IPv6 URL")
   /\ is_RequestException (Exn ValueError "Invalid IPv6 URL") = false)
  /\ @scrape_job_description ascii_str plain_tags MoreFixtures.urlparse_rejecting
       (answers 200 described_html) html_parser "http://[::1/jobs"
     = ([], inr (manual_entry
          "Error accessing job posting. Please enter the job description manually.")).
Proof.
  assert ("http://[::1/jobs" <> EmptyString) as H1 by discriminate.
  split; [split; [exact H1 | split; reflexivity]|].
  exact (rejected_url_is_a_soft_failure_without_request ascii_str plain_tags
           MoreFixtures.urlparse_rejecting (answers 200 described_html) html_parser
           "http://[::1/jobs" (Exn ValueError "Invalid IPv6 URL") H1 eq_refl eq_refl).
Defined.

(** Property X16.  [scrape_job_description] never raises and makes at most
    one request, to the URL it was given.  Its result is either the failure
    "Invalid URL provided", with no request made, or a dictionary with
    success true whose description, job title, company name and platform are
    all strings. *)
Theorem scrape_returns_one_of_two_shapes_after_at_most_one_request :
  forall (str_methods : PyStr.StrMethods) (tag_methods : TagMethods)
         (urlparse_scheme : string -> exn + string)
         (requests_get : string -> exn + http_response)
         (BeautifulSoup : string -> Soup) (job_url : string),
  exists calls d,
    scrape_job_description urlparse_scheme requests_get BeautifulSoup job_url
    = (calls, inr (VDict d))
    /\ ((calls = [] /\ d = invalid_url)
        \/ ((calls = [] \/ calls = [EvHttpGet job_url]) /\ scraped d)).
Proof.
  intros str_methods tag_methods up rg bs url.
  destruct (string_dec url EmptyString) as [Hu|Hu].
  { exists [], invalid_url. split; [apply scrape_invalid_url; now left | now left]. }
  destruct (up url) as [e|scheme] eqn:Hp.
  { rewrite (scrape_urlparse_raises up rg bs url e Hu Hp).
    destruct (manual_entry_scraped
                (if is_RequestException e
                 then "Unable to fetch job description. Please enter it manually."
                 else "Error accessing job posting. Please enter the job description manually."))
      as (d & -> & Hd).
    exists [], d. split; [reflexivity|]. right. split; [now left | exact Hd]. }
  destruct (string_dec scheme EmptyString) as [Hs|Hs].
  { exists [], invalid_url. split; [|now left].
    apply scrape_invalid_url. right. now rewrite Hp, Hs. }
  rewrite (scrape_valid_url up rg bs url Hu scheme Hp Hs).
  destruct (rg url) as [e|response].
  - match goal with |- context [manual_entry ?m] =>
      destruct (manual_entry_scraped m) as (d & -> & Hd) end.
    exists [EvHttpGet url], d. split; [reflexivity|]. right. split; [now right | exact Hd].
  - destruct (status_code response =? 403)%Z.
    + match goal with |- context [manual_entry ?m] =>
        destruct (manual_entry_scraped m) as (d & -> & Hd) end.
      exists [EvHttpGet url], d. split; [reflexivity|]. right.
      split; [now right | exact Hd].
    + destruct (handled_after_request_scraped bs url response) as (d & -> & Hd).
      exists [EvHttpGet url], d. split; [reflexivity|]. right.
      split; [now right | exact Hd].
Qed.

Section Answered.
Context {str_methods : PyStr.StrMethods} {tag_methods : TagMethods}.
Variable urlparse_scheme : string -> exn + string.
Variable requests_get : string -> exn + http_response.
Variable BeautifulSoup : string -> Soup.
Variable job_url scheme : string.
Variable response : http_response.
Hypothesis url_given : job_url <> EmptyString.
Hypothesis url_parses : urlparse_scheme job_url = inr scheme.
Hypothesis scheme_given : scheme <> EmptyString.
Hypothesis answered : requests_get job_url = inr response.
Hypothesis no_error : is_error_status (status_code response) = false.

Lemma scrape_answered :
  scrape_job_description urlparse_scheme requests_get BeautifulSoup job_url
  = let (t, r) := handled (after_request BeautifulSoup job_url response) in
    (EvHttpGet job_url :: t, r).
Proof.
  rewrite (scrape_valid_url urlparse_scheme requests_get BeautifulSoup job_url
             url_given scheme url_parses scheme_given), answered.
  now rewrite (not_error_status_not_403 response no_error).
Qed.

Lemma scrape_by_content (title company : string) (before after : list tag)
      (el : tag) :
  extract_job_details (BeautifulSoup (text response)) job_url
  = ([], inr (details title company (platform_of job_url))) ->
  Forall (fun s => select_one (BeautifulSoup (text response)) s = inr None)
         description_selectors ->
  descendants (document (BeautifulSoup (text response))) = before ++ el :: after ->
  Forall (fun t => mentions_description t = false) before ->
  mentions_description el = true ->
  scrape_job_description urlparse_scheme requests_get BeautifulSoup job_url
  = ([EvHttpGet job_url],
     inr (VDict [("success", VBool true);
                 ("description", VStr (get_text_strip el));
                 ("job_title", VStr title);
                 ("company_name", VStr company);
                 ("platform", VStr (platform_of job_url))])).
Proof.
  intros Hd Hsel Hdoc Hb Hel. rewrite scrape_answered.
  unfold handled, after_request.
  rewrite (raise_for_status_passes response no_error), Hd.
  rewrite (first_element_none _ _ Hsel).
  unfold find. rewrite Hdoc, (find_first _ before after el Hb Hel). reflexivity.
Qed.

Lemma scrape_nothing_found (title company : string) :
  extract_job_details (BeautifulSoup (text response)) job_url
  = ([], inr (details title company (platform_of job_url))) ->
  Forall (fun s => select_one (BeautifulSoup (text response)) s = inr None)
         description_selectors ->
  Forall (fun t => mentions_description t = false)
         (descendants (document (BeautifulSoup (text response)))) ->
  scrape_job_description urlparse_scheme requests_get BeautifulSoup job_url
  = ([EvHttpGet job_url],
     inr (VDict [("success", VBool true);
                 ("description", VStr
                    "Unable to automatically extract job description. Please enter the job description manually.");
                 ("job_title", VStr title);
                 ("company_name", VStr company);
                 ("platform", VStr (platform_of job_url));
                 ("requires_manual_entry", VBool true)])).
Proof.
  intros Hd Hsel Hdoc. rewrite scrape_answered.
  unfold handled, after_request.
  rewrite (raise_for_status_passes response no_error), Hd.
  rewrite (first_element_none _ _ Hsel).
  unfold find. rewrite (find_nothing _ _ Hdoc). reflexivity.
Qed.

Lemma scrape_engine_fails (before after : list string) (selector : string)
      (e : exn) :
  description_selectors = before ++ selector :: after ->
  Forall (fun s => select_one (BeautifulSoup (text response)) s = inr None) before ->
  select_one (BeautifulSoup (text response)) selector = inl e ->
  scrape_job_description urlparse_scheme requests_get BeautifulSoup job_url
  = ([EvHttpGet job_url],
     inr (manual_entry
            (if is_RequestException e
             then "Unable to fetch job description. Please enter it manually."
             else "Error accessing job posting. Please enter the job description manually."))).
Proof.
  intros Hsel Hb He. rewrite scrape_answered.
  unfold handled, after_request.
  rewrite (raise_for_status_passes response no_error).
  destruct (extract_job_details_returns (BeautifulSoup (text response)) job_url)
    as (title & company & ->).
  rewrite Hsel, (first_element_raises _ before after selector e Hb He).
  unfold bind, try_except. destruct (is_RequestException e); reflexivity.
Qed.

End Answered.

Lemma mentioning_page_has_no_description_markup :
  Forall (fun s => select_one (MoreFixtures.html_parser MoreFixtures.mentioning_html) s
                   = inr None)
         description_selectors.
Proof. repeat constructor. Qed.

(** Property X17.  When the response is not an error and no description
    selector matches an element, the description is the stripped text of the
    first [div] in document order whose lower-cased text holds
    "job description", "about this role" or "about the role"; the result
    carries the extracted details and no [requires_manual_entry] key. *)
Theorem description_falls_back_to_first_mentioning_div :
  forall (str_methods : PyStr.StrMethods) (tag_methods : TagMethods)
         (urlparse_scheme : string -> exn + string)
         (requests_get : string -> exn + http_response)
         (BeautifulSoup : string -> Soup) (job_url scheme : string)
         (response : http_response) (title company : string)
         (before after : list tag) (el : tag),
    job_url <> EmptyString ->
    urlparse_scheme job_url = inr scheme ->
    scheme <> EmptyString ->
    requests_get job_url = inr response ->
    is_error_status (status_code response) = false ->
    extract_job_details (BeautifulSoup (text response)) job_url
    = ([], inr (details title company (platform_of job_url))) ->
    Forall (fun s => select_one (BeautifulSoup (text response)) s = inr None)
           description_selectors ->
    descendants (document (BeautifulSoup (text response))) = before ++ el :: after ->
    Forall (fun t => mentions_description t = false) before ->
    mentions_description el = true ->
    scrape_job_description urlparse_scheme requests_get BeautifulSoup job_url
    = ([EvHttpGet job_url],
       inr (VDict [("success", VBool true);
                   ("description", VStr (get_text_strip el));
                   ("job_title", VStr title);
                   ("company_name", VStr company);
                   ("platform", VStr (platform_of job_url))])).
Proof.
  intros str_methods tag_methods up rg bs url scheme response title company before after el
         Hu Hp Hs Hr Herr. now apply (scrape_by_content up rg bs url scheme response).
Qed.

(** The theorem above at a concrete input. *)
Lemma description_falls_back_to_first_mentioning_div_witness :
  ("https://example.com/jobs/2" <> EmptyString
   /\ urlparse_scheme "https://example.com/jobs/2" = inr "https"
   /\ "https" <> EmptyString
   /\ answers 200 MoreFixtures.mentioning_html "https://example.com/jobs/2"
      = inr (HttpResponse 200 MoreFixtures.mentioning_html)
   /\ is_error_status 200 = false
   /\ @extract_job_details ascii_str plain_tags (MoreFixtures.html_parser MoreFixtures.mentioning_html)
        "https://example.com/jobs/2"
      = ([], inr (details "Position Not Found" "Company Not Found" "Other"))
   /\ descendants (document (MoreFixtures.html_parser MoreFixtures.mentioning_html))
      = [Tag "html" [] [inr (Tag "body" [] [inr MoreFixtures.outer_block])];
         Tag "body" [] [inr MoreFixtures.outer_block]]
        ++ MoreFixtures.outer_block :: [MoreFixtures.inner_block]
   /\ @mentions_description plain_tags MoreFixtures.outer_block = true)
  /\ @scrape_job_description ascii_str plain_tags urlparse_scheme
       (answers 200 MoreFixtures.mentioning_html) MoreFixtures.html_parser
       "https://example.com/jobs/2"
     = ([EvHttpGet "https://example.com/jobs/2"],
        inr (VDict [("success", VBool true);
                    ("description", VStr "Data AnalystJob Description: build dashboards.");
                    ("job_title", VStr "Position Not Found");
                    ("company_name", VStr "Company Not Found");
                    ("platform", VStr "Other")])).
Proof.
  assert ("https://example.com/jobs/2" <> EmptyString) as H1 by discriminate.
  assert ("https" <> EmptyString) as H2 by discriminate.
  assert (Forall (fun t => @mentions_description plain_tags t = false)
            [Tag "html" [] [inr (Tag "body" [] [inr MoreFixtures.outer_block])];
             Tag "body" [] [inr MoreFixtures.outer_block]]) as H3
      by (repeat constructor).
  split.
  - split; [exact H1|]. split; [reflexivity|]. split; [exact H2|].
    repeat (split; [reflexivity|]). reflexivity.
  - exact (description_falls_back_to_first_mentioning_div ascii_str plain_tags
             urlparse_scheme (answers 200 MoreFixtures.mentioning_html)
             MoreFixtures.html_parser "https://example.com/jobs/2" "https"
             (HttpResponse 200 MoreFixtures.mentioning_html)
             "Position Not Found" "Company Not Found"
             [Tag "html" [] [inr (Tag "body" [] [inr MoreFixtures.outer_block])];
              Tag "body" [] [inr MoreFixtures.outer_block]]
             [MoreFixtures.inner_block] MoreFixtures.outer_block
             H1 eq_refl H2 eq_refl eq_refl eq_refl
             mentioning_page_has_no_description_markup eq_refl
             H3 eq_refl).
Defined.

(** Property X18.  When the response is not an error, no description
    selector matches and no [div] mentions a keyword, the result asks for
    manual entry but, unlike the results for fetch failures, keeps the job
    title, company name and platform extracted from the page and the URL. *)
Theorem missing_description_keeps_the_extracted_details :
  forall (str_methods : PyStr.StrMethods) (tag_methods : TagMethods)
         (urlparse_scheme : string -> exn + string)
         (requests_get : string -> exn + http_response)
         (BeautifulSoup : string -> Soup) (job_url scheme : string)
         (response : http_response) (title company : string),
    job_url <> EmptyString ->
    urlparse_scheme job_url = inr scheme ->
    scheme <> EmptyString ->
    requests_get job_url = inr response ->
    is_error_status (status_code response) = false ->
    extract_job_details (BeautifulSoup (text response)) job_url
    = ([], inr (details title company (platform_of job_url))) ->
    Forall (fun s => select_one (BeautifulSoup (text response)) s = inr None)
           description_selectors ->
    Forall (fun t => mentions_description t = false)
           (descendants (document (BeautifulSoup (text response)))) ->
    scrape_job_description urlparse_scheme requests_get BeautifulSoup job_url
    = ([EvHttpGet job_url],
       inr (VDict [("success", VBool true);
                   ("description", VStr
                      "Unable to automatically extract job description. Please enter the job description manually.");
                   ("job_title", VStr title);
                   ("company_name", VStr company);
                   ("platform", VStr (platform_of job_url));
                   ("requires_manual_entry", VBool true)])).
Proof.
  intros str_methods tag_methods up rg bs url scheme response title company Hu Hp Hs Hr Herr.
  now apply (scrape_nothing_found up rg bs url scheme response).
Qed.

(** The theorem above at a concrete input. *)
Lemma missing_description_keeps_the_extracted_details_witness :
  ("https://www.linkedin.com/jobs/view/7" <> EmptyString
   /\ urlparse_scheme "https://www.linkedin.com/jobs/view/7" = inr "https"
   /\ "https" <> EmptyString
   /\ answers 200 MoreFixtures.plain_html "https://www.linkedin.com/jobs/view/7"
      = inr (HttpResponse 200 MoreFixtures.plain_html)
   /\ is_error_status 200 = false
   /\ @extract_job_details ascii_str plain_tags (MoreFixtures.html_parser MoreFixtures.plain_html)
        "https://www.linkedin.com/jobs/view/7"
      = ([], inr (details "Data Analyst" "Company Not Found" "LinkedIn"))
   /\ Forall (fun s => select_one (MoreFixtures.html_parser MoreFixtures.plain_html) s
                       = inr None)
             description_selectors
   /\ Forall (fun t => @mentions_description plain_tags t = false)
             (descendants (document (MoreFixtures.html_parser MoreFixtures.plain_html))))
  /\ @scrape_job_description ascii_str plain_tags urlparse_scheme
       (answers 200 MoreFixtures.plain_html) MoreFixtures.html_parser
       "https://www.linkedin.com/jobs/view/7"
     = ([EvHttpGet "https://www.linkedin.com/jobs/view/7"],
        inr (VDict [("success", VBool true);
                    ("description", VStr
                       "Unable to automatically extract job description. Please enter the job description manually.");
                    ("job_title", VStr "Data Analyst");
                    ("company_name", VStr "Company Not Found");
                    ("platform", VStr "LinkedIn");
                    ("requires_manual_entry", VBool true)])).
Proof.
  assert ("https://www.linkedin.com/jobs/view/7" <> EmptyString) as H1 by discriminate.
  assert ("https" <> EmptyString) as H2 by discriminate.
  assert (Forall (fun s => select_one (MoreFixtures.html_parser MoreFixtures.plain_html) s
                           = inr None)
                 description_selectors) as H3 by (repeat constructor).
  assert (Forall (fun t => @mentions_description plain_tags t = false)
                 (descendants (document (MoreFixtures.html_parser MoreFixtures.plain_html))))
    as H4 by (repeat constructor).
  split.
  - split; [exact H1|]. split; [reflexivity|]. split; [exact H2|].
    split; [reflexivity|]. split; [reflexivity|]. split; [reflexivity|].
    split; [exact H3 | exact H4].
  - exact (missing_description_keeps_the_extracted_details ascii_str plain_tags
             urlparse_scheme (answers 200 MoreFixtures.plain_html)
             MoreFixtures.html_parser "https://www.linkedin.com/jobs/view/7" "https"
             (HttpResponse 200 MoreFixtures.plain_html)
             "Data Analyst" "Company Not Found"
             H1 eq_refl H2 eq_refl eq_refl eq_refl H3 H4).
Defined.

(** Property X19.  When the CSS engine raises, with an exception that is no
    [RequestException], on a description selector before any selector has
    matched, the details already extracted are dropped: the result is the
    soft success with the sentinel title and company, the platform "Unknown"
    and the message "Error accessing job posting. ...". *)
Theorem engine_failure_in_description_search_drops_the_details :
  forall (str_methods : PyStr.StrMethods) (tag_methods : TagMethods)
         (urlparse_scheme : string -> exn + string)
         (requests_get : string -> exn + http_response)
         (BeautifulSoup : string -> Soup) (job_url scheme : string)
         (response : http_response)
         (before after : list string) (selector : string) (e : exn),
    job_url <> EmptyString ->
    urlparse_scheme job_url = inr scheme ->
    scheme <> EmptyString ->
    requests_get job_url = inr response ->
    is_error_status (status_code response) = false ->
    description_selectors = before ++ selector :: after ->
    Forall (fun s => select_one (BeautifulSoup (text response)) s = inr None) before ->
    select_one (BeautifulSoup (text response)) selector = inl e ->
    is_RequestException e = false ->
    scrape_job_description urlparse_scheme requests_get BeautifulSoup job_url
    = ([EvHttpGet job_url],
       inr (manual_entry
              "Error accessing job posting. Please enter the job description manually.")).
Proof.
  intros str_methods tag_methods up rg bs url scheme response before after selector e
         Hu Hp Hs Hr Herr Hsel Hb He Hc.
  rewrite (scrape_engine_fails up rg bs url scheme response Hu Hp Hs Hr Herr
             before after selector e Hsel Hb He), Hc.
  reflexivity.
Qed.

(** The theorem above at a concrete input. *)
Lemma engine_failure_in_description_search_drops_the_details_witness :
  ("https://www.indeed.com/viewjob?jk=1" <> EmptyString
   /\ urlparse_scheme "https://www.indeed.com/viewjob?jk=1" = inr "https"
   /\ "https" <> EmptyString
   /\ is_error_status 200 = false
   /\ description_selectors = [] ++ "div.job-description" :: tl description_selectors
   /\ select_one failing_soup "div.job-description"
      = inl (Exn OtherException "selector engine failure")
   /\ is_RequestException (Exn OtherException "selector engine failure") = false)
  /\ @scrape_job_description ascii_str plain_tags urlparse_scheme (answers 200 described_html)
       (fun _ => failing_soup) "https://www.indeed.com/viewjob?jk=1"
     = ([EvHttpGet "https://www.indeed.com/viewjob?jk=1"],
        inr (manual_entry
               "Error accessing job posting. Please enter the job description manually.")).
Proof.
  assert ("https://www.indeed.com/viewjob?jk=1" <> EmptyString) as H1 by discriminate.
  assert ("https" <> EmptyString) as H2 by discriminate.
  split.
  - split; [exact H1|]. split; [reflexivity|]. split; [exact H2|].
    repeat (split; [reflexivity|]). reflexivity.
  - exact (engine_failure_in_description_search_drops_the_details ascii_str plain_tags
             urlparse_scheme (answers 200 described_html) (fun _ => failing_soup)
             "https://www.indeed.com/viewjob?jk=1" "https"
             (HttpResponse 200 described_html)
             [] (tl description_selectors) "div.job-description"
             (Exn OtherException "selector engine failure")
             H1 eq_refl H2 eq_refl eq_refl eq_refl (Forall_nil _) eq_refl eq_refl).
Defined.
